(** * Certificate registry: ledger contract and issuance / verification flow

    A shallow embedding of

    - [contracts/contracts/CertificateRegistry.sol] (module [Registry]),
    - [backend/utils/crypto.js], [backend/utils/ipfs.js],
      [backend/utils/web3.js], [backend/db/database.js] and
      [backend/routes/certificate.js] (module [Backend]),

    together with the properties the specification states about them
    (modules [RegistryProperties] and [BackendProperties]) and further
    properties of the same code: the remaining functions of the contract,
    the read routes, the blob store and the audit table (modules
    [RegistryExtras] and [BackendExtras]).  Node's
    [crypto], [JSON] and [Date] and the IPFS node are an interface with
    contracts ([Backend.Platform], [Backend.PlatformLaws]); module [Sample]
    gives a small platform that meets them and a world to run the routes
    on. *)

From Stdlib Require Import NArith ZArith List String Ascii Strings.Byte Lia.
From stdpp Require Import base option list gmap strings fin_maps pretty.

Local Open Scope N_scope.
Local Open Scope string_scope.

(** Solidity value types.  No arithmetic is performed on any of them by the
    contract, so they are kept as natural numbers: a [bytes32] is the
    256-bit value of its 32 bytes, an [address] the 160-bit value. *)
Abbreviation bytes32 := N (only parsing).
Abbreviation address := N (only parsing).
Abbreviation uint256 := N (only parsing).

(* ================================================================= *)
(** * The registry contract *)
(* ================================================================= *)

Module Registry.

(** [struct Certificate]. The field [exists] is spelled [exists_]. *)
Record Certificate : Type := mkCertificate {
  docHash   : bytes32;
  ipfsCID   : string;
  issuer    : address;
  timestamp : uint256;
  exists_   : bool
}.

#[export] Instance Certificate_eq_dec : EqDecision Certificate.
Proof. solve_decision. Defined.

(** Events of the contract; [OwnershipTransferred] is the one event of the
    inherited [Ownable]. *)
Inductive Event : Type :=
| CertificateIssued (docHash : bytes32) (ipfsCID : string)
                    (issuer : address) (timestamp : uint256)
| IssuerAdded (issuer : address) (timestamp : uint256)
| IssuerRemoved (issuer : address) (timestamp : uint256)
| OwnershipTransferred (previousOwner newOwner : address).

(** Why a call reverted: the message of a failed [require], or one of the
    two custom errors of [Ownable]. *)
Inductive RevertReason : Type :=
| Error (message : string)
| OwnableUnauthorizedAccount (account : address)
| OwnableInvalidOwner (owner : address).

(** Contract storage.  A Solidity [mapping] is total: a key that was never
    written reads as the zero value of the value type.  The finite map
    holds the written slots, and the two [_at] accessors below read one. *)
Record Storage : Type := mkStorage {
  owner             : address;
  certificates      : gmap N Certificate;
  authorizedIssuers : gmap N bool
}.

Definition zeroCertificate : Certificate :=
  {| docHash := 0; ipfsCID := EmptyString; issuer := 0;
     timestamp := 0; exists_ := false |}.

Definition certificates_at (s : Storage) (h : bytes32) : Certificate :=
  default zeroCertificate (certificates s !! h).

Definition authorizedIssuers_at (s : Storage) (a : address) : bool :=
  default false (authorizedIssuers s !! a).

(** ** Execution monad

    A call runs on the storage and either reverts, which discards every
    write and every event of the call, or finishes with a value, the new
    storage and the events it emitted (oldest first). *)
Inductive Outcome (A : Type) : Type :=
| Revert (why : RevertReason)
| Done (a : A) (s : Storage) (evs : list Event).
Arguments Revert {A} why.
Arguments Done {A} a s evs.

Definition Tx (A : Type) : Type := Storage -> Outcome A.

Definition ret {A} (a : A) : Tx A := fun s => Done a s [].

Definition bind {A B} (m : Tx A) (k : A -> Tx B) : Tx B :=
  fun s =>
    match m s with
    | Revert why => Revert why
    | Done a s1 evs1 =>
        match k a s1 with
        | Revert why => Revert why
        | Done b s2 evs2 => Done b s2 (evs1 ++ evs2)
        end
    end.

#[local] Notation "x <- m ;; k" := (bind m (fun x => k))
  (at level 100, m at next level, right associativity).
#[local] Notation "m ;; k" := (bind m (fun _ => k))
  (at level 100, right associativity).

Definition require (cond : bool) (message : string) : Tx unit :=
  fun s => if cond then Done tt s [] else Revert (Error message).

Definition revert_with {A} (why : RevertReason) : Tx A := fun _ => Revert why.

Definition emit (ev : Event) : Tx unit := fun s => Done tt s [ev].

Definition sload {A} (f : Storage -> A) : Tx A := fun s => Done (f s) s [].

Definition sstore (f : Storage -> Storage) : Tx unit := fun s => Done tt (f s) [].

Definition set_certificate (h : bytes32) (c : Certificate) (s : Storage) : Storage :=
  {| owner := owner s;
     certificates := <[h := c]> (certificates s);
     authorizedIssuers := authorizedIssuers s |}.

Definition set_authorized (a : address) (b : bool) (s : Storage) : Storage :=
  {| owner := owner s;
     certificates := certificates s;
     authorizedIssuers := <[a := b]> (authorizedIssuers s) |}.

Definition set_owner (a : address) (s : Storage) : Storage :=
  {| owner := a;
     certificates := certificates s;
     authorizedIssuers := authorizedIssuers s |}.

(** The transaction context a function body reads. *)
Record Env : Type := mkEnv {
  msg_sender      : address;
  block_timestamp : uint256
}.

(** ** Modifiers *)

(** [modifier onlyAuthorizedIssuer]. *)
Definition onlyAuthorizedIssuer (e : Env) : Tx unit :=
  ok <- sload (fun s => authorizedIssuers_at s (msg_sender e)) ;;
  require ok "Not an authorized issuer".

(** [modifier onlyOwner] of OpenZeppelin's [Ownable] (version 5, the one
    with the [Ownable(initialOwner)] constructor the contract calls). *)
Definition onlyOwner (e : Env) : Tx unit :=
  o <- sload owner ;;
  if N.eqb o (msg_sender e) then ret tt
  else revert_with (OwnableUnauthorizedAccount (msg_sender e)).

(** ** Constructor *)

Definition empty_storage : Storage :=
  {| owner := 0; certificates := ∅; authorizedIssuers := ∅ |}.

Definition constructor (e : Env) : Tx unit :=
  (if N.eqb (msg_sender e) 0 then revert_with (OwnableInvalidOwner 0) else ret tt) ;;
  sstore (set_owner (msg_sender e)) ;;
  emit (OwnershipTransferred 0 (msg_sender e)) ;;
  sstore (set_authorized (msg_sender e) true) ;;
  emit (IssuerAdded (msg_sender e) (block_timestamp e)).

(** ** External functions *)

Definition addAuthorizedIssuer (e : Env) (_issuer : address) : Tx unit :=
  onlyOwner e ;;
  require (negb (N.eqb _issuer 0)) "Invalid issuer address" ;;
  already <- sload (fun s => authorizedIssuers_at s _issuer) ;;
  require (negb already) "Issuer already authorized" ;;
  sstore (set_authorized _issuer true) ;;
  emit (IssuerAdded _issuer (block_timestamp e)).

Definition removeAuthorizedIssuer (e : Env) (_issuer : address) : Tx unit :=
  onlyOwner e ;;
  trusted <- sload (fun s => authorizedIssuers_at s _issuer) ;;
  require trusted "Issuer not authorized" ;;
  sstore (set_authorized _issuer false) ;;
  emit (IssuerRemoved _issuer (block_timestamp e)).

Definition issueCertificate (e : Env) (_docHash : bytes32) (_ipfsCID : string)
  : Tx unit :=
  onlyAuthorizedIssuer e ;;
  require (negb (N.eqb _docHash 0)) "Invalid document hash" ;;
  require (Nat.ltb 0 (String.length _ipfsCID)) "Invalid IPFS CID" ;;
  cert <- sload (fun s => certificates_at s _docHash) ;;
  require (negb (exists_ cert)) "Certificate already exists" ;;
  sstore (set_certificate _docHash
            {| docHash := _docHash;
               ipfsCID := _ipfsCID;
               issuer := msg_sender e;
               timestamp := block_timestamp e;
               exists_ := true |}) ;;
  emit (CertificateIssued _docHash _ipfsCID (msg_sender e) (block_timestamp e)).

Definition verifyCertificate (_docHash : bytes32)
  : Tx (bool * string * address * uint256) :=
  cert <- sload (fun s => certificates_at s _docHash) ;;
  ret (exists_ cert, ipfsCID cert, issuer cert, timestamp cert).

Definition isAuthorizedIssuer (_issuer : address) : Tx bool :=
  sload (fun s => authorizedIssuers_at s _issuer).

Definition getCertificate (_docHash : bytes32) : Tx Certificate :=
  sload (fun s => certificates_at s _docHash).

(** The two state-changing functions inherited from [Ownable]. *)
Definition transferOwnership (e : Env) (newOwner : address) : Tx unit :=
  onlyOwner e ;;
  (if N.eqb newOwner 0 then revert_with (OwnableInvalidOwner 0) else ret tt) ;;
  old <- sload owner ;;
  sstore (set_owner newOwner) ;;
  emit (OwnershipTransferred old newOwner).

Definition renounceOwnership (e : Env) : Tx unit :=
  onlyOwner e ;;
  old <- sload owner ;;
  sstore (set_owner 0) ;;
  emit (OwnershipTransferred old 0).

(** ** Transactions

    The external functions of the deployed contract (the getters Solidity
    generates for [owner] and the two public mappings read the same storage
    and are left out).  A reverted call leaves the storage as it was. *)
Inductive Call : Type :=
| AddAuthorizedIssuer (_issuer : address)
| RemoveAuthorizedIssuer (_issuer : address)
| IssueCertificate (_docHash : bytes32) (_ipfsCID : string)
| VerifyCertificate (_docHash : bytes32)
| IsAuthorizedIssuer (_issuer : address)
| GetCertificate (_docHash : bytes32)
| TransferOwnership (newOwner : address)
| RenounceOwnership.

Inductive Receipt : Type :=
| Reverted (why : RevertReason)
| Succeeded (evs : list Event).

Definition finish {A} (s : Storage) (o : Outcome A) : Storage * Receipt :=
  match o with
  | Revert why => (s, Reverted why)
  | Done _ s' evs => (s', Succeeded evs)
  end.

Definition execute (s : Storage) (e : Env) (c : Call) : Storage * Receipt :=
  match c with
  | AddAuthorizedIssuer a => finish s (addAuthorizedIssuer e a s)
  | RemoveAuthorizedIssuer a => finish s (removeAuthorizedIssuer e a s)
  | IssueCertificate h cid => finish s (issueCertificate e h cid s)
  | VerifyCertificate h => finish s (verifyCertificate h s)
  | IsAuthorizedIssuer a => finish s (isAuthorizedIssuer a s)
  | GetCertificate h => finish s (getCertificate h s)
  | TransferOwnership a => finish s (transferOwnership e a s)
  | RenounceOwnership => finish s (renounceOwnership e s)
  end.

(** A history of calls, oldest first. *)
Fixpoint run (s : Storage) (calls : list (Env * Call)) : Storage :=
  match calls with
  | [] => s
  | (e, c) :: rest => run (fst (execute s e c)) rest
  end.

(** The storage right after deployment by [deployer]. *)
Definition deploy (e : Env) : Storage :=
  fst (finish empty_storage (constructor e empty_storage)).

(** ** Invariants of the storage *)

(** The storage a call leaves behind is the old one, or the old one with one
    of the three fields written. *)
Inductive written (s : Storage) : Storage -> Prop :=
| written_none : written s s
| written_certificate h c :
    exists_ (certificates_at s h) = false -> exists_ c = true -> docHash c = h ->
    written s (set_certificate h c s)
| written_authorized a b : written s (set_authorized a b s)
| written_owner a : written s (set_owner a s).

(** Every written certificate slot carries [exists_ = true] and its own key:
    the invariant that makes the presence flag mean "written". *)
Definition slots_issued (s : Storage) : Prop :=
  forall h c, certificates s !! h = Some c -> exists_ c = true /\ docHash c = h.

(** Every record is a complete one and the zero address is no writer: what
    the checks of [addAuthorizedIssuer] and [issueCertificate] together
    maintain. *)
Definition well_formed (s : Storage) : Prop :=
  authorizedIssuers_at s 0 = false
  /\ forall h c, certificates s !! h = Some c ->
       exists_ c = true /\ docHash c = h /\ h <> 0
       /\ ipfsCID c <> EmptyString /\ issuer c <> 0.

(** The number of calls of a history that issued a certificate. *)
Fixpoint issued_in (s : Storage) (calls : list (Env * Call)) : nat :=
  match calls with
  | [] => 0
  | (e, c) :: rest =>
      (match c, snd (execute s e c) with
       | IssueCertificate _ _, Succeeded _ => 1
       | _, _ => 0
       end + issued_in (fst (execute s e c)) rest)%nat
  end.

End Registry.

(* ================================================================= *)
(** * The backend: cipher, blob store, ledger client, routes *)
(* ================================================================= *)

Module Backend.

(** ** JavaScript values *)

(** A value [JSON.parse] can return.  A number is kept as its decimal text. *)
#[local] Unset Elimination Schemes.
Inductive json : Type :=
| JNull
| JBool (b : bool)
| JNumber (text : string)
| JString (s : string)
| JArray (items : list json)
| JObject (fields : list (string * json)).
#[local] Set Elimination Schemes.

(** An object whose properties are all strings, in insertion order. *)
Definition record_of (fields : list (string * string)) : json :=
  JObject (map (fun kv => (fst kv, JString (snd kv))) fields).

(** A property name made of digits only: JavaScript keeps such names apart
    (array indices come first, in numeric order). *)
Definition all_digits (name : string) : bool :=
  forallb (fun c => N.leb 48 (N_of_ascii c) && N.leb (N_of_ascii c) 57)
    (list_ascii_of_string name).

(** Property names as an object literal of the program has them: distinct,
    and none of them digits only. *)
Definition plain_names (fields : list (string * string)) : Prop :=
  NoDup (map fst fields)
  /\ forallb (fun kv => negb (all_digits (fst kv))) fields = true.

(** [v[name]], when it is there. *)
Definition prop (v : json) (name : string) : option json :=
  match v with
  | JObject fields =>
      option_map snd (find (fun kv => String.eqb (fst kv) name) fields)
  | _ => None
  end.

(** A JavaScript call returns or throws an [Error]. *)
Inductive Result (A : Type) : Type :=
| Returned (a : A)
| Thrown (message : string).
Arguments Returned {A} a.
Arguments Thrown {A} message.

(** Text is held as its UTF-8 bytes, so the two conversions of Node's
    ['utf8'] encoding are the two views of a string. *)
Definition utf8_encode (s : string) : list byte := list_byte_of_string s.
Definition utf8_decode (bs : list byte) : string := string_of_list_byte bs.

(** [s.length]: JavaScript counts UTF-16 code units.  Of the bytes of a
    UTF-8 text, a continuation byte adds none and the first byte of a
    four-byte sequence adds two (a surrogate pair). *)
Definition utf16_units (c : ascii) : nat :=
  let n := N_of_ascii c in
  if N.ltb n 128 then 1
  else if N.ltb n 192 then 0
  else if N.ltb n 240 then 1
  else 2.

Fixpoint js_length (s : string) : nat :=
  match s with
  | EmptyString => 0
  | String c rest => utf16_units c + js_length rest
  end.

(** ** Hexadecimal text: [buf.toString('hex')] and [Buffer.from(s, 'hex')] *)

Definition hex_digit (n : N) : ascii :=
  match n with
  | 0 => "0" | 1 => "1" | 2 => "2" | 3 => "3" | 4 => "4" | 5 => "5"
  | 6 => "6" | 7 => "7" | 8 => "8" | 9 => "9" | 10 => "a" | 11 => "b"
  | 12 => "c" | 13 => "d" | 14 => "e" | _ => "f"
  end%char.

Definition hex_value (c : ascii) : option N :=
  let n := N_of_ascii c in
  if N.leb 48 n && N.leb n 57 then Some (n - 48)
  else if N.leb 97 n && N.leb n 102 then Some (n - 87)
  else if N.leb 65 n && N.leb n 70 then Some (n - 55)
  else None.

Definition byte_of_N (n : N) : byte :=
  match Byte.of_N n with Some b => b | None => x00 end.

Fixpoint hex_of_bytes (bs : list byte) : string :=
  match bs with
  | [] => EmptyString
  | b :: rest =>
      String (hex_digit (Byte.to_N b / 16))
        (String (hex_digit (Byte.to_N b mod 16)) (hex_of_bytes rest))
  end.

(** Node decodes pairs of digits and stops at the first pair that is not
    hexadecimal; a trailing single character is dropped. *)
Fixpoint bytes_of_hex (s : string) : list byte :=
  match s with
  | String hi (String lo rest) =>
      match hex_value hi, hex_value lo with
      | Some h, Some l => byte_of_N (16 * h + l) :: bytes_of_hex rest
      | _, _ => []
      end
  | _ => []
  end.

(** The 256-bit value of a run of bytes, most significant first. *)
Definition N_of_bytes (bs : list byte) : N :=
  fold_left (fun acc b => 256 * acc + Byte.to_N b) bs 0.

(** How the ledger client turns a ['0x...'] string into a [bytes32]
    argument: it must be [0x] followed by exactly 64 hexadecimal digits. *)
Definition bytes32_of_hex (s : string) : option N :=
  match s with
  | String "0" (String "x" digits) =>
      let bs := bytes_of_hex digits in
      if Nat.eqb (String.length digits) 64 && Nat.eqb (length bs) 32
      then Some (N_of_bytes bs) else None
  | _ => None
  end.

(** ** Library interface

    What the code calls and does not define: Node's [crypto] (SHA-256,
    AES-256-CBC with PKCS#7 padding), [JSON], [Date] and the content
    identifier an IPFS node gives a block. *)
(** The errors raised inside the libraries.  The program passes their
    messages on; what the messages say is the libraries' business, so the
    text comes from the platform. *)
Inductive Constraint : Type :=
| NotNull (column : string)
| Unique (column : string).

Inductive LibraryError : Type :=
| InvalidArgType (value : option json)    (* Node: a value of a type the function does not take *)
| InvalidHexLength (text : string)        (* Node: ['hex'] input of odd length *)
| DecryptFailed (key iv ciphertext : list byte)   (* OpenSSL: [final] fails *)
| JSONSyntaxError (text : string)         (* [JSON.parse] *)
| NullProperty (name : string)            (* reading a property of [null] *)
| InvalidBytes32 (value : string)         (* ethers: not a [bytes32] *)
| CallException (why : Registry.RevertReason)     (* ethers: the call reverted *)
| NoSigner                                (* ethers: the runner cannot send *)
| ConstraintFailed (broken : Constraint). (* sqlite3: [SQLITE_CONSTRAINT] *)

Class Platform : Type := {
  sha256 : list byte -> list byte;
  (** key, initialization vector, plaintext *)
  aes256cbc_encrypt : list byte -> list byte -> list byte -> list byte;
  (** key, initialization vector, ciphertext; [None] is a failed [final] *)
  aes256cbc_decrypt : list byte -> list byte -> list byte -> option (list byte);
  (** [JSON.stringify(v, null, indent)] *)
  JSON_stringify : json -> nat -> string;
  (** [JSON.parse(text)]; [None] is a [SyntaxError] *)
  JSON_parse : string -> option json;
  (** the identifier of a block holding that content *)
  ipfs_cid : string -> string;
  (** [new Date(ms).toISOString()] for a valid time value *)
  toISOString : N -> string;
  (** [Buffer.from(value, 'hex')] for an array or an object (for neither is
      the encoding looked at; an array of numbers gives its bytes) *)
  Buffer_from_object : json -> Result (list byte);
  (** the [message] of a library's error *)
  error_message : LibraryError -> string
}.

(** The contracts of those libraries that the code relies on. *)
Class PlatformLaws (P : Platform) : Prop := {
  sha256_length : forall m, length (sha256 m) = 32%nat;
  aes256cbc_roundtrip : forall key iv pt,
    length key = 32%nat -> length iv = 16%nat ->
    aes256cbc_decrypt key iv (aes256cbc_encrypt key iv pt) = Some pt;
  JSON_roundtrip : forall fields indent,
    plain_names fields ->
    JSON_parse (JSON_stringify (record_of fields) indent) = Some (record_of fields);
  ipfs_cid_not_local : forall content,
    String.prefix "local-" (ipfs_cid content) = false
}.

Section Program.
Context {P : Platform}.

(** ** The world a request runs in *)

(** What [web3.js] keeps of a mined transaction. *)
Record TxReceipt : Type := mkTxReceipt {
  transactionHash : string;
  blockNumber     : N;
  gasUsed         : string
}.

(** A row of the [transactions] table. *)
Record AuditEntry : Type := mkAuditEntry {
  tx_txHash      : string;
  tx_docHash     : string;
  tx_ipfsCID     : string;
  tx_issuer      : option address;
  tx_timestamp   : N;
  tx_status      : string;
  tx_blockNumber : N;
  tx_gasUsed     : string
}.

(** Ghost record of the steps a request has taken, oldest first: the
    calls that leave the process and the two pure stages of the pipeline. *)
Inductive Effect : Type :=
| Hashed
| Encrypted
| IpfsAdd (content : string)
| IpfsCat (cid : string)
| FsMkdir
| FsWriteFile (name content : string)
| FsReadFile (name : string)
| ChainSend (docHash ipfsCID : string)
| ChainCall (docHash : string)
| DbInsert (txHash : string).

(** [process.env] and the module-level handles set up at start. *)
Record Config : Type := mkConfig {
  AES_ENCRYPTION_KEY : option string;
  USE_IPFS           : bool;
  web3Ready          : bool;
  contract           : bool;           (* [contract] is not [null] *)
  signer             : option address; (* [signer.address], when there is one *)
  ipfsClient         : bool            (* [ipfsClient] is not [null] *)
}.

(** How the surroundings answer: which collaborators are reachable, what the
    ledger node reports for the n-th mined transaction, clock and
    randomness. *)
Record Surroundings : Type := mkSurroundings {
  node_up        : bool;
  ipfs_up        : bool;
  fs_up          : bool;
  db_up          : bool;
  receipt_of     : N -> TxReceipt;
  timestamp_of   : N -> uint256;
  Date_now       : N;
  random_bytes   : nat -> byte;
  Math_random    : nat -> string;
  node_error     : string;   (* the message when the ledger node does not answer *)
  db_error       : string    (* the message when the database does not answer *)
}.

Record World : Type := mkWorld {
  config       : Config;
  surroundings : Surroundings;
  chain        : Registry.Storage;
  mined        : N;
  ipfs_blocks  : gmap string string;
  fs_files     : gmap string string;
  transactions : list AuditEntry;
  random_pos   : nat;
  effects      : list Effect
}.

Definition with_chain (c : Registry.Storage) (w : World) : World :=
  {| config := config w; surroundings := surroundings w;
     chain := c; mined := mined w + 1;
     ipfs_blocks := ipfs_blocks w; fs_files := fs_files w;
     transactions := transactions w; random_pos := random_pos w;
     effects := effects w |}.

Definition with_ipfs_blocks (b : gmap string string) (w : World) : World :=
  {| config := config w; surroundings := surroundings w;
     chain := chain w; mined := mined w;
     ipfs_blocks := b; fs_files := fs_files w;
     transactions := transactions w; random_pos := random_pos w;
     effects := effects w |}.

Definition with_fs_files (f : gmap string string) (w : World) : World :=
  {| config := config w; surroundings := surroundings w;
     chain := chain w; mined := mined w;
     ipfs_blocks := ipfs_blocks w; fs_files := f;
     transactions := transactions w; random_pos := random_pos w;
     effects := effects w |}.

Definition with_transactions (t : list AuditEntry) (w : World) : World :=
  {| config := config w; surroundings := surroundings w;
     chain := chain w; mined := mined w;
     ipfs_blocks := ipfs_blocks w; fs_files := fs_files w;
     transactions := t; random_pos := random_pos w;
     effects := effects w |}.

Definition with_random_pos (n : nat) (w : World) : World :=
  {| config := config w; surroundings := surroundings w;
     chain := chain w; mined := mined w;
     ipfs_blocks := ipfs_blocks w; fs_files := fs_files w;
     transactions := transactions w; random_pos := n;
     effects := effects w |}.

Definition with_effects (e : list Effect) (w : World) : World :=
  {| config := config w; surroundings := surroundings w;
     chain := chain w; mined := mined w;
     ipfs_blocks := ipfs_blocks w; fs_files := fs_files w;
     transactions := transactions w; random_pos := random_pos w;
     effects := e |}.

(** ** The monad of asynchronous code

    An [async] function runs on the world and returns or throws; what it
    did to the world before throwing stays done. *)
Definition M (A : Type) : Type := World -> Result A * World.

Definition ret {A} (a : A) : M A := fun w => (Returned a, w).

Definition throw {A} (message : string) : M A := fun w => (Thrown message, w).

Definition bind {A B} (m : M A) (k : A -> M B) : M B :=
  fun w =>
    match m w with
    | (Returned a, w1) => k a w1
    | (Thrown message, w1) => (Thrown message, w1)
    end.

#[local] Notation "x <- m ;; k" := (bind m (fun x => k))
  (at level 100, m at next level, right associativity).
#[local] Notation "m ;; k" := (bind m (fun _ => k))
  (at level 100, right associativity).

(** [try { m } catch (error) { handler(error.message) }] *)
Definition try_catch {A} (m : M A) (handler : string -> M A) : M A :=
  fun w =>
    match m w with
    | (Returned a, w1) => (Returned a, w1)
    | (Thrown message, w1) => handler message w1
    end.

Definition gets {A} (f : World -> A) : M A := fun w => (Returned (f w), w).

Definition modify (f : World -> World) : M unit := fun w => (Returned tt, f w).

Definition lift {A} (r : Result A) : M A := fun w => (r, w).

(** Throwing an error whose message the surroundings give. *)
Definition throw_from {A} (message : World -> string) : M A :=
  fun w => (Thrown (message w), w).

Definition note (e : Effect) : M unit :=
  modify (fun w => with_effects (effects w ++ [e]) w).

(** ** Collaborators *)

(** [crypto.randomBytes(n)] *)
Definition randomBytes (n : nat) : M (list byte) :=
  pos <- gets random_pos ;;
  src <- gets (fun w => random_bytes (surroundings w)) ;;
  modify (with_random_pos (pos + n)) ;;
  ret (map (fun i => src (pos + i)%nat) (seq 0 n)).

(** [Math.random().toString(36).substring(7)] *)
Definition random_suffix : M string :=
  pos <- gets random_pos ;;
  src <- gets (fun w => Math_random (surroundings w)) ;;
  modify (with_random_pos (pos + 1)) ;;
  ret (src pos).

(** [ipfsClient.add(content)], giving [result.path].  (What the errors of
    the IPFS client and of [fs] say is never looked at: every caller
    catches them and throws a message of its own, so any text serves
    here.) *)
Definition ipfs_add (content : string) : M string :=
  note (IpfsAdd content) ;;
  up <- gets (fun w => ipfs_up (surroundings w)) ;;
  if up then
    modify (fun w => with_ipfs_blocks (<[ipfs_cid content := content]> (ipfs_blocks w)) w) ;;
    ret (ipfs_cid content)
  else throw "IPFS request failed".

(** The chunks of [ipfsClient.cat(cid)], concatenated and decoded. *)
Definition ipfs_cat (cid : string) : M string :=
  note (IpfsCat cid) ;;
  up <- gets (fun w => ipfs_up (surroundings w)) ;;
  if up then
    found <- gets (fun w => ipfs_blocks w !! cid) ;;
    match found with
    | Some content => ret content
    | None => throw "IPFS block not found"
    end
  else throw "IPFS request failed".

(** [fs.mkdir(IPFS_STORAGE_PATH, { recursive: true })] *)
Definition fs_mkdir : M unit :=
  note FsMkdir ;;
  up <- gets (fun w => fs_up (surroundings w)) ;;
  if up then ret tt else throw "mkdir failed".

(** [fs.writeFile(path.join(IPFS_STORAGE_PATH, name), content)] *)
Definition fs_writeFile (name content : string) : M unit :=
  note (FsWriteFile name content) ;;
  up <- gets (fun w => fs_up (surroundings w)) ;;
  if up then modify (fun w => with_fs_files (<[name := content]> (fs_files w)) w)
  else throw "write failed".

(** [fs.readFile(path.join(IPFS_STORAGE_PATH, name), 'utf8')] *)
Definition fs_readFile (name : string) : M string :=
  note (FsReadFile name) ;;
  up <- gets (fun w => fs_up (surroundings w)) ;;
  if up then
    found <- gets (fun w => fs_files w !! name) ;;
    match found with
    | Some content => ret content
    | None => throw "no such file"
    end
  else throw "read failed".

(** The message of the error the ledger client raises for a revert. *)
Definition revert_message (why : Registry.RevertReason) : string :=
  error_message (CallException why).

(** [contract.issueCertificate(docHash, ipfsCID)] followed by [tx.wait()]:
    the transaction is sent from the signer and mined in the next block. *)
Definition contract_issueCertificate (docHash ipfsCID : string) : M TxReceipt :=
  note (ChainSend docHash ipfsCID) ;;
  who <- gets (fun w => signer (config w)) ;;
  match who with
  | None => throw (error_message NoSigner)
  | Some sender =>
      match bytes32_of_hex docHash with
      | None => throw (error_message (InvalidBytes32 docHash))
      | Some h =>
          up <- gets (fun w => node_up (surroundings w)) ;;
          if up then
            n <- gets mined ;;
            now <- gets (fun w => timestamp_of (surroundings w) n) ;;
            receipt <- gets (fun w => receipt_of (surroundings w) n) ;;
            ledger <- gets chain ;;
            match Registry.issueCertificate (Registry.mkEnv sender now) h ipfsCID
                    ledger with
            | Registry.Revert why => throw (revert_message why)
            | Registry.Done _ ledger' _ =>
                modify (with_chain ledger') ;;
                ret receipt
            end
          else throw_from (fun w => node_error (surroundings w))
      end
  end.

(** [contract.verifyCertificate(docHash)], a read-only call. *)
Definition contract_verifyCertificate (docHash : string)
  : M (bool * string * address * uint256) :=
  note (ChainCall docHash) ;;
  match bytes32_of_hex docHash with
  | None => throw (error_message (InvalidBytes32 docHash))
  | Some h =>
      up <- gets (fun w => node_up (surroundings w)) ;;
      if up then
        ledger <- gets chain ;;
        match Registry.verifyCertificate h ledger with
        | Registry.Revert why => throw (revert_message why)
        | Registry.Done result _ _ => ret result
        end
      else throw_from (fun w => node_error (surroundings w))
  end.

(** [db.run('INSERT INTO transactions ...')] on the table of
    [createTables]: [issuer] is [NOT NULL] and [txHash] is [UNIQUE].  (The
    other [NOT NULL] columns hold a string or a number in every row here.)
    The id is the next one: no row is ever deleted. *)
Definition db_insert (row : AuditEntry) : M N :=
  note (DbInsert (tx_txHash row)) ;;
  up <- gets (fun w => db_up (surroundings w)) ;;
  if negb up then throw_from (fun w => db_error (surroundings w))
  else
    match tx_issuer row with
    | None => throw (error_message (ConstraintFailed (NotNull "issuer")))
    | Some _ =>
        rows <- gets transactions ;;
        if existsb (fun r => String.eqb (tx_txHash r) (tx_txHash row)) rows
        then throw (error_message (ConstraintFailed (Unique "txHash")))
        else
          modify (with_transactions (rows ++ [row])) ;;
          ret (N.of_nat (length rows) + 1)
    end.

(** ** [utils/crypto.js] *)

Definition hashDocument (fileBuffer : list byte) : string :=
  hex_of_bytes (sha256 fileBuffer).

Definition hashDocumentForBlockchain (fileBuffer : list byte) : string :=
  "0x" +:+ hashDocument fileBuffer.

(** The object [encryptMetadata] returns, which is also the blob stored. *)
Record EncryptedData : Type := mkEncryptedData {
  encrypted : string;
  iv        : string;
  algorithm : string
}.

(** The argument checks of [createCipheriv] / [createDecipheriv] for
    ['aes-256-cbc']. *)
Definition check_key_iv (key iv : list byte) : Result unit :=
  if negb (Nat.eqb (length key) 32) then Thrown "Invalid key length"
  else if negb (Nat.eqb (length iv) 16) then Thrown "Invalid initialization vector"
  else Returned tt.

(** The body of [encryptMetadata] once [crypto.randomBytes(16)] has given
    [iv]. *)
Definition encryptMetadata_with (iv : list byte) (data : json) (key : string)
  : Result EncryptedData :=
  let encryptionKey := sha256 (utf8_encode key) in
  match check_key_iv encryptionKey iv with
  | Thrown message => Thrown message
  | Returned _ =>
      let jsonData := JSON_stringify data 0 in
      let encrypted :=
        hex_of_bytes (aes256cbc_encrypt encryptionKey iv (utf8_encode jsonData)) in
      Returned {| encrypted := encrypted;
                  iv := hex_of_bytes iv;
                  algorithm := "aes-256-cbc" |}
  end.

Definition encryptMetadata (data : json) (key : string) : M EncryptedData :=
  iv <- randomBytes 16 ;;
  lift (encryptMetadata_with iv data key).

(** [Buffer.from(value, 'hex')] for a JavaScript value, [None] being
    [undefined]: a string is decoded, an array or an object goes the
    library's way, anything else is refused. *)
Definition Buffer_from_hex (value : option json) : Result (list byte) :=
  match value with
  | Some (JString s) => Returned (bytes_of_hex s)
  | Some (JArray items) => Buffer_from_object (JArray items)
  | Some (JObject fields) => Buffer_from_object (JObject fields)
  | _ => Thrown (error_message (InvalidArgType value))
  end.

(** The input of [decipher.update(data, 'hex', 'utf8')]: a string of even
    length, decoded as far as it is hexadecimal.  No value [JSON.parse]
    gives is a buffer, so anything but a string is refused. *)
Definition hex_input (data : option json) : Result (list byte) :=
  match data with
  | Some (JString s) =>
      if Nat.odd (js_length s)
      then Thrown (error_message (InvalidHexLength s))
      else Returned (bytes_of_hex s)
  | _ => Thrown (error_message (InvalidArgType data))
  end.

(** [decryptMetadata] up to its last line, on arguments of any type: the
    text [decrypted]. *)
Definition decipher_any (encryptedData ivHex : option json) (key : string)
  : Result string :=
  let encryptionKey := sha256 (utf8_encode key) in
  match Buffer_from_hex ivHex with
  | Thrown message => Thrown message
  | Returned iv =>
      match check_key_iv encryptionKey iv with
      | Thrown message => Thrown message
      | Returned _ =>
          match hex_input encryptedData with
          | Thrown message => Thrown message
          | Returned ciphertext =>
              match aes256cbc_decrypt encryptionKey iv ciphertext with
              | Some plaintext => Returned (utf8_decode plaintext)
              | None =>
                  Thrown (error_message (DecryptFailed encryptionKey iv ciphertext))
              end
          end
      end
  end.

Definition decryptMetadata_any (encryptedData ivHex : option json) (key : string)
  : Result json :=
  match decipher_any encryptedData ivHex key with
  | Thrown message => Thrown message
  | Returned decrypted =>
      match JSON_parse decrypted with
      | Some value => Returned value
      | None => Thrown (error_message (JSONSyntaxError decrypted))
      end
  end.

(** The two on strings, the type the function's comment gives its
    arguments. *)
Definition decipher (encryptedData ivHex key : string) : Result string :=
  decipher_any (Some (JString encryptedData)) (Some (JString ivHex)) key.

Definition decryptMetadata (encryptedData ivHex key : string) : Result json :=
  decryptMetadata_any (Some (JString encryptedData)) (Some (JString ivHex)) key.

(** ** [utils/ipfs.js] *)

(** The blob as the object handed to [uploadToIPFS]. *)
Definition blob_json (b : EncryptedData) : json :=
  record_of [("encrypted", encrypted b); ("iv", iv b); ("algorithm", algorithm b)].

Definition saveToLocalStorage (data : json) : M string :=
  try_catch
    (fs_mkdir ;;
     timestamp <- gets (fun w => Date_now (surroundings w)) ;;
     random <- random_suffix ;;
     let filename := "local-" +:+ pretty timestamp +:+ "-" +:+ random +:+ ".json" in
     fs_writeFile filename (JSON_stringify data 2) ;;
     ret filename)
    (fun _ => throw "Failed to save data to local storage").

Definition uploadToIPFS (data : json) : M string :=
  let jsonData := JSON_stringify data 2 in
  use <- gets (fun w => USE_IPFS (config w) && ipfsClient (config w)) ;;
  remote <-
    (if use : bool then
       try_catch (path <- ipfs_add jsonData ;; ret (Some path))
                 (fun _ => ret None)
     else ret None) ;;
  match remote with
  | Some path => ret path
  | None => saveToLocalStorage data
  end.

Definition parse_or_throw (text : string) : M json :=
  match JSON_parse text with
  | Some value => ret value
  | None => throw (error_message (JSONSyntaxError text))
  end.

Definition retrieveFromLocalStorage (filename : string) : M json :=
  try_catch
    (data <- fs_readFile filename ;;
     parse_or_throw data)
    (fun _ => throw "Failed to retrieve data from local storage").

Definition retrieveFromIPFS (cid : string) : M json :=
  use <- gets (fun w => USE_IPFS (config w) && ipfsClient (config w)) ;;
  if use && negb (String.prefix "local-" cid) then
    try_catch
      (data <- ipfs_cat cid ;;
       parse_or_throw data)
      (fun _ => throw "Failed to retrieve data from IPFS")
  else retrieveFromLocalStorage cid.

(** ** [utils/web3.js] *)

Definition issueCertificate (docHash ipfsCID : string) : M TxReceipt :=
  ready <- gets (fun w => contract (config w)
                          && match signer (config w) with
                             | Some _ => true
                             | None => false
                             end) ;;
  if negb ready then throw "Contract not initialized or no signer available"
  else
    try_catch (contract_issueCertificate docHash ipfsCID)
      (fun message => throw ("Failed to issue certificate: " +:+ message)).

(** The object [verifyCertificate] returns; [timestamp] is printed in
    decimal by the source and kept as the number here. *)
Record CertData : Type := mkCertData {
  cd_exists    : bool;
  cd_ipfsCID   : string;
  cd_issuer    : address;
  cd_timestamp : uint256
}.

Definition verifyCertificate (docHash : string) : M CertData :=
  ready <- gets (fun w => contract (config w)) ;;
  if negb ready then throw "Contract not initialized"
  else
    try_catch
      (result <- contract_verifyCertificate docHash ;;
       let '(ex, cid, who, ts) := result in
       ret {| cd_exists := ex; cd_ipfsCID := cid;
              cd_issuer := who; cd_timestamp := ts |})
      (fun message => throw ("Failed to verify certificate: " +:+ message)).

Definition getSignerAddress : M (option address) :=
  gets (fun w => signer (config w)).

(** ** [db/database.js] *)

Definition insertTransaction (transaction : AuditEntry) : M N :=
  db_insert
    {| tx_txHash := tx_txHash transaction;
       tx_docHash := tx_docHash transaction;
       tx_ipfsCID := tx_ipfsCID transaction;
       tx_issuer := tx_issuer transaction;
       tx_timestamp := tx_timestamp transaction;
       (* [transaction.status || 'confirmed'] *)
       tx_status := if Nat.eqb (String.length (tx_status transaction)) 0
                    then "confirmed" else tx_status transaction;
       tx_blockNumber := tx_blockNumber transaction;
       tx_gasUsed := tx_gasUsed transaction |}.

(** ** [routes/certificate.js] *)

(** The text fields of the form; [None] is a field the form did not carry
    ([undefined]). *)
Record Metadata : Type := mkMetadata {
  studentName    : option string;
  courseName     : option string;
  institution    : option string;
  issueDate      : option string;
  grade          : option string;
  additionalInfo : option string
}.

Record Request : Type := mkRequest {
  file : option (list byte);   (* [req.file.buffer], when a file came *)
  body : Metadata              (* [req.body] *)
}.

(** [!!field] for a text field: [undefined] and the empty string are falsy. *)
Definition truthy (field : option string) : bool :=
  match field with
  | Some s => negb (Nat.eqb (String.length s) 0)
  | None => false
  end.

(** The properties [JSON.stringify] sees of the metadata object: those that
    are not [undefined], in the order of the object literal. *)
Definition metadata_fields (m : Metadata) : list (string * string) :=
  omap (fun kv => option_map (pair (fst kv)) (snd kv))
    [("studentName", studentName m); ("courseName", courseName m);
     ("institution", institution m); ("issueDate", issueDate m);
     ("grade", grade m); ("additionalInfo", additionalInfo m)].

Definition metadata_json (m : Metadata) : json := record_of (metadata_fields m).

(** The certificate object of a successful verification. *)
Record CertificateView : Type := mkCertificateView {
  cv_docHash    : string;
  cv_issuer     : address;
  cv_timestamp  : uint256;
  cv_ipfsCID    : string;
  cv_metadata   : option json;     (* [null] is [None] *)
  cv_issuedDate : string
}.

Inductive Payload : Type :=
| ErrorBody (error : string) (details : option string)
| IssuedBody (docHash ipfsCID transactionHash : string) (blockNumber : N)
             (issuer : option address)
| NotFoundBody (docHash : string)             (* [valid: false] *)
| ValidBody (certificate : CertificateView).  (* [valid: true] *)

Record Response : Type := mkResponse {
  status  : nat;
  payload : Payload
}.

(** [process.env.AES_ENCRYPTION_KEY || 'default-key-change-this-in-production'] *)
Definition configured_key (c : Config) : string :=
  match AES_ENCRYPTION_KEY c with
  | Some k => if Nat.eqb (String.length k) 0
              then "default-key-change-this-in-production" else k
  | None => "default-key-change-this-in-production"
  end.

(** [new Date(parseInt(timestamp) * 1000).toISOString()]: a time value
    beyond 8.64e15 milliseconds is not a date and [toISOString] throws. *)
Definition issuedDate_of (timestamp : uint256) : Result string :=
  if N.leb (timestamp * 1000) 8640000000000000
  then Returned (toISOString (timestamp * 1000))
  else Thrown "Invalid time value".

(** [decryptMetadata(v.encrypted, v.iv, key)] for a retrieved value [v]:
    reading a property of [null] throws, and a value without the property
    gives [undefined] for it. *)
Definition decryptBlob (v : json) (key : string) : Result json :=
  match v with
  | JNull => Thrown (error_message (NullProperty "encrypted"))
  | _ => decryptMetadata_any (prop v "encrypted") (prop v "iv") key
  end.

(** [POST /api/issue] *)
Definition route_issue (req : Request) : M Response :=
  try_catch
    (ready <- gets (fun w => web3Ready (config w)) ;;
     if negb ready then ret (mkResponse 503 (ErrorBody "Web3 not initialized" None))
     else
       match file req with
       | None => ret (mkResponse 400 (ErrorBody "No certificate file provided" None))
       | Some buffer =>
           let metadata := body req in
           if negb (truthy (studentName metadata))
              || negb (truthy (courseName metadata))
              || negb (truthy (institution metadata))
           then ret (mkResponse 400 (ErrorBody "Missing required metadata fields" None))
           else
             note Hashed ;;
             let docHash := hashDocumentForBlockchain buffer in
             encryptionKey <- gets (fun w => configured_key (config w)) ;;
             note Encrypted ;;
             encryptedData <- encryptMetadata (metadata_json metadata) encryptionKey ;;
             ipfsCID <- uploadToIPFS (blob_json encryptedData) ;;
             txReceipt <- issueCertificate docHash ipfsCID ;;
             issuerAddress <- getSignerAddress ;;
             now <- gets (fun w => Date_now (surroundings w)) ;;
             insertTransaction
               {| tx_txHash := transactionHash txReceipt;
                  tx_docHash := docHash;
                  tx_ipfsCID := ipfsCID;
                  tx_issuer := issuerAddress;
                  tx_timestamp := now / 1000;
                  tx_status := "confirmed";
                  tx_blockNumber := blockNumber txReceipt;
                  tx_gasUsed := gasUsed txReceipt |} ;;
             ret (mkResponse 200
                    (IssuedBody docHash ipfsCID (transactionHash txReceipt)
                       (blockNumber txReceipt) issuerAddress))
       end)
    (fun message =>
       ret (mkResponse 500 (ErrorBody "Failed to issue certificate" (Some message)))).

(** [POST /api/verify] *)
Definition route_verify (req : Request) : M Response :=
  try_catch
    (ready <- gets (fun w => web3Ready (config w)) ;;
     if negb ready then ret (mkResponse 503 (ErrorBody "Web3 not initialized" None))
     else
       match file req with
       | None => ret (mkResponse 400 (ErrorBody "No certificate file provided" None))
       | Some buffer =>
           note Hashed ;;
           let docHash := hashDocumentForBlockchain buffer in
           certData <- verifyCertificate docHash ;;
           if negb (cd_exists certData)
           then ret (mkResponse 200 (NotFoundBody docHash))
           else
             metadata <-
               try_catch
                 (encryptedData <- retrieveFromIPFS (cd_ipfsCID certData) ;;
                  encryptionKey <- gets (fun w => configured_key (config w)) ;;
                  value <- lift (decryptBlob encryptedData encryptionKey) ;;
                  ret (Some value))
                 (fun _ => ret None) ;;
             issuedDate <- lift (issuedDate_of (cd_timestamp certData)) ;;
             ret (mkResponse 200
                    (ValidBody
                       {| cv_docHash := docHash;
                          cv_issuer := cd_issuer certData;
                          cv_timestamp := cd_timestamp certData;
                          cv_ipfsCID := cd_ipfsCID certData;
                          cv_metadata := metadata;
                          cv_issuedDate := issuedDate |}))
       end)
    (fun message =>
       ret (mkResponse 500 (ErrorBody "Failed to verify certificate" (Some message)))).

End Program.

#[export] Instance byte_eq_decision : EqDecision byte := Byte.byte_eq_dec.

(** ** Predicates on computations and worlds *)

(** [m] only ever appends to the record of steps. *)
Definition grows {A} (m : M A) : Prop :=
  forall w, exists more, effects (snd (m w)) = (effects w ++ more)%list.

(** Whatever [m] returns satisfies [Q]. *)
Definition returns_only {A} (Q : A -> Prop) (m : M A) : Prop :=
  forall w a w', m w = (Returned a, w') -> Q a.

(** The blob store holds [text] under [ref], where retrieval will look. *)
Definition holds (w : World) (ref text : string) : Prop :=
  if USE_IPFS (config w) && ipfsClient (config w)
     && negb (String.prefix "local-" ref)
  then ipfs_up (surroundings w) = true /\ ipfs_blocks w !! ref = Some text
  else fs_up (surroundings w) = true /\ fs_files w !! ref = Some text.

(** ** More of the backend *)

Section Reads.
Context {P : Platform}.

#[local] Notation "x <- m ;; k" := (bind m (fun x => k))
  (at level 100, m at next level, right associativity).
#[local] Notation "m ;; k" := (bind m (fun _ => k))
  (at level 100, right associativity).

(** *** [utils/crypto.js] *)

(** [crypto.randomBytes(32).toString('hex')] *)
Definition generateEncryptionKey : M string :=
  bytes <- randomBytes 32 ;;
  ret (hex_of_bytes bytes).

(** *** [utils/ipfs.js] *)

Definition isIPFSAvailable : M bool :=
  gets (fun w => USE_IPFS (config w) && ipfsClient (config w)).

(** *** [utils/web3.js] *)

(** The [len] bytes of a number, most significant first: how a [bytes32]
    the ledger returns is laid out. *)
Fixpoint bytes_of_N (len : nat) (n : N) : list byte :=
  match len with
  | O => []
  | S len' => bytes_of_N len' (n / 256) ++ [byte_of_N (n mod 256)]
  end.

(** The text the ledger client gives for a [bytes32]: [0x] and 64 lower-case
    hexadecimal digits. *)
Definition hex_of_bytes32 (h : N) : string :=
  "0x" +:+ hex_of_bytes (bytes_of_N 32 h).

(** [contract.getCertificate(docHash)], a read-only call. *)
Definition contract_getCertificate (docHash : string) : M Registry.Certificate :=
  note (ChainCall docHash) ;;
  match bytes32_of_hex docHash with
  | None => throw (error_message (InvalidBytes32 docHash))
  | Some h =>
      up <- gets (fun w => node_up (surroundings w)) ;;
      if up then
        ledger <- gets chain ;;
        match Registry.getCertificate h ledger with
        | Registry.Revert why => throw (revert_message why)
        | Registry.Done result _ _ => ret result
        end
      else throw_from (fun w => node_error (surroundings w))
  end.

(** The object [getCertificate] returns. *)
Record CertRecord : Type := mkCertRecord {
  cr_docHash   : string;
  cr_ipfsCID   : string;
  cr_issuer    : address;
  cr_timestamp : uint256;
  cr_exists    : bool
}.

Definition getCertificate (docHash : string) : M CertRecord :=
  ready <- gets (fun w => contract (config w)) ;;
  if negb ready then throw "Contract not initialized"
  else
    try_catch
      (cert <- contract_getCertificate docHash ;;
       ret {| cr_docHash := hex_of_bytes32 (Registry.docHash cert);
              cr_ipfsCID := Registry.ipfsCID cert;
              cr_issuer := Registry.issuer cert;
              cr_timestamp := Registry.timestamp cert;
              cr_exists := Registry.exists_ cert |})
      (fun message => throw ("Failed to get certificate: " +:+ message)).

(** [contract.isAuthorizedIssuer(address)], a read-only call.  (It is not
    entered in the ghost record.) *)
Definition contract_isAuthorizedIssuer (a : address) : M bool :=
  up <- gets (fun w => node_up (surroundings w)) ;;
  if up then
    ledger <- gets chain ;;
    match Registry.isAuthorizedIssuer a ledger with
    | Registry.Revert why => throw (revert_message why)
    | Registry.Done result _ _ => ret result
    end
  else throw_from (fun w => node_error (surroundings w)).

Definition isAuthorizedIssuer (a : address) : M bool :=
  ready <- gets (fun w => contract (config w)) ;;
  if negb ready then throw "Contract not initialized"
  else try_catch (contract_isAuthorizedIssuer a) (fun _ => ret false).

(** *** [routes/certificate.js] *)

(** The answers of [GET /api/cert/:hash]. *)
Inductive CertPayload : Type :=
| CertError (error : string) (details : option string)
| CertNotFound (docHash : string)              (* 404 *)
| CertFound (certificate : CertificateView).   (* [exists: true] *)

Record CertResponse : Type := mkCertResponse {
  cert_status  : nat;
  cert_payload : CertPayload
}.

(** [GET /api/cert/:hash] *)
Definition route_cert (hash : string) : M CertResponse :=
  try_catch
    (ready <- gets (fun w => web3Ready (config w)) ;;
     if negb ready
     then ret (mkCertResponse 503 (CertError "Web3 not initialized" None))
     else
       let docHash := hash in
       let formattedHash :=
         if String.prefix "0x" docHash then docHash else "0x" +:+ docHash in
       certData <- getCertificate formattedHash ;;
       if negb (cr_exists certData)
       then ret (mkCertResponse 404 (CertNotFound formattedHash))
       else
         metadata <-
           try_catch
             (encryptedData <- retrieveFromIPFS (cr_ipfsCID certData) ;;
              encryptionKey <- gets (fun w => configured_key (config w)) ;;
              value <- lift (decryptBlob encryptedData encryptionKey) ;;
              ret (Some value))
             (fun _ => ret None) ;;
         issuedDate <- lift (issuedDate_of (cr_timestamp certData)) ;;
         ret (mkCertResponse 200
                (CertFound
                   {| cv_docHash := cr_docHash certData;
                      cv_issuer := cr_issuer certData;
                      cv_timestamp := cr_timestamp certData;
                      cv_ipfsCID := cr_ipfsCID certData;
                      cv_metadata := metadata;
                      cv_issuedDate := issuedDate |})))
    (fun message =>
       ret (mkCertResponse 500
              (CertError "Failed to get certificate" (Some message)))).

End Reads.

(** ** More predicates on worlds *)

(** [w'] is [w] with more entered in the ghost record and nothing else
    changed. *)
Definition only_noted (w w' : World) : Prop :=
  exists more, w' = with_effects (effects w ++ more) w.

(** [m] reads: it changes nothing of the world but the ghost record. *)
Definition reads_only {A} (m : M A) : Prop :=
  forall w, only_noted w (snd (m w)).

(** Every row of the audit table stands for a record of the ledger with the
    same reference and issuer. *)
Definition mirror_consistent (w : World) : Prop :=
  forall row, In row (transactions w) ->
    exists h,
      bytes32_of_hex (tx_docHash row) = Some h
      /\ Registry.exists_ (Registry.certificates_at (chain w) h) = true
      /\ Registry.ipfsCID (Registry.certificates_at (chain w) h) = tx_ipfsCID row
      /\ Some (Registry.issuer (Registry.certificates_at (chain w) h))
         = tx_issuer row.

(** The audit table mirrors the ledger and names each document once. *)
Definition audit_sound (w : World) : Prop :=
  mirror_consistent w /\ NoDup (map tx_docHash (transactions w)).

(** ** The audit table read back, and requests in sequence *)

Section Service.
Context {P : Platform}.

#[local] Notation "x <- m ;; k" := (bind m (fun x => k))
  (at level 100, m at next level, right associativity).

(** *** [db/database.js] *)

(** The row [getStats] resolves with. *)
Record Stats : Type := mkStats {
  totalTransactions : N;
  totalIssuers      : N;
  totalCertificates : N
}.

(** [COUNT(DISTINCT column)] over the values that are not [NULL]. *)
Definition count_distinct {A} `{EqDecision A} (values : list A) : N :=
  N.of_nat (length (remove_dups values)).

(** The one row of [getStats]: the number of rows of [transactions], of
    distinct issuers and of distinct document hashes in it.  (The query is
    not entered in the ghost record.) *)
Definition getStats : M Stats :=
  up <- gets (fun w => db_up (surroundings w)) ;;
  if up then
    rows <- gets transactions ;;
    ret {| totalTransactions := N.of_nat (length rows);
           totalIssuers := count_distinct (omap tx_issuer rows);
           totalCertificates := count_distinct (map tx_docHash rows) |}
  else throw_from (fun w => db_error (surroundings w)).

(** *** Requests handled one after another *)

Inductive RouteCall : Type :=
| PostIssue (req : Request)
| PostVerify (req : Request)
| GetCert (hash : string).

(** The world a request leaves. *)
Definition serve (w : World) (c : RouteCall) : World :=
  match c with
  | PostIssue req => snd (route_issue req w)
  | PostVerify req => snd (route_verify req w)
  | GetCert hash => snd (route_cert hash w)
  end.

Definition serve_all (w : World) (calls : list RouteCall) : World :=
  fold_left serve calls w.

End Service.

End Backend.

(* ================================================================= *)
(** * A small platform and a run on it *)
(* ================================================================= *)

(** The library interface is inhabited: a platform of simple functions that
    meets every contract assumed of the real one, and a world on which the
    routes can be run to the end. *)
Module Sample.
Import Backend.

(** ** Digest and cipher *)

(** Thirty-two bytes: the message, cut or filled up with zeros. *)
Definition digest (m : list byte) : list byte := take 32 (m ++ replicate 32 x00).

(** The ciphertext is the plaintext behind the key; decryption checks the
    key and removes it. *)
Definition seal (key iv pt : list byte) : list byte := key ++ pt.

Definition unseal (key iv ct : list byte) : option (list byte) :=
  if decide (take (length key) ct = key)
  then Some (drop (length key) ct) else None.

(** ** A text form for objects of strings *)

(** Every character of a name or value is written behind a dot; a comma
    ends a name and a semicolon ends a value. *)
Fixpoint write_string (s rest : string) : string :=
  match s with
  | EmptyString => rest
  | String c s' => String "." (String c (write_string s' rest))
  end.

Fixpoint write_fields (l : list (string * string)) : string :=
  match l with
  | [] => EmptyString
  | (k, v) :: l' =>
      write_string k (String "," (write_string v (String ";" (write_fields l'))))
  end.

Definition string_fields (fields : list (string * json)) : list (string * string) :=
  omap (fun kv => match snd kv with
                  | JString s => Some (fst kv, s)
                  | _ => None
                  end) fields.

Definition write_json (v : json) (indent : nat) : string :=
  match v with
  | JObject fields => write_fields (string_fields fields)
  | _ => EmptyString
  end.

Fixpoint read_fields (s : string) (key : option string) (cur : string)
    (acc : list (string * string)) : option (list (string * string)) :=
  match s with
  | EmptyString => Some (rev acc)
  | String c rest =>
      if Ascii.eqb c "." then
        match rest with
        | String d rest' => read_fields rest' key (cur +:+ String d EmptyString) acc
        | EmptyString => None
        end
      else if Ascii.eqb c "," then read_fields rest (Some cur) EmptyString acc
      else if Ascii.eqb c ";" then
        match key with
        | Some k => read_fields rest None EmptyString ((k, cur) :: acc)
        | None => None
        end
      else None
  end.

Definition read_json (s : string) : option json :=
  option_map record_of (read_fields s None EmptyString []).

#[export] Instance platform : Platform := {|
  sha256 := digest;
  aes256cbc_encrypt := seal;
  aes256cbc_decrypt := unseal;
  JSON_stringify := write_json;
  JSON_parse := read_json;
  ipfs_cid := fun content => "Qm" +:+ content;
  toISOString := fun ms => pretty ms;
  Buffer_from_object := fun _ => Returned [];
  error_message := fun _ => "library error"
|}.

(** ** A world *)

Definition sample_config : Config :=
  {| AES_ENCRYPTION_KEY := Some "k";
     USE_IPFS := true;
     web3Ready := true;
     contract := true;
     signer := Some 1%N;
     ipfsClient := true |}.

(** The ledger node, the file system and the database answer; the IPFS
    node does not. *)
Definition sample_surroundings : Surroundings :=
  {| node_up := true;
     ipfs_up := false;
     fs_up := true;
     db_up := true;
     receipt_of := fun n => mkTxReceipt "0xt0" (n + 1) "21000";
     timestamp_of := fun n => 1700000000 + n;
     Date_now := 1700000000000;
     random_bytes := fun _ => x2a;
     Math_random := fun _ => "abc";
     node_error := "node unreachable";
     db_error := "database unreachable" |}.

Definition sample_world : World :=
  {| config := sample_config;
     surroundings := sample_surroundings;
     chain := Registry.deploy (Registry.mkEnv 1 1699999999);
     mined := 0;
     ipfs_blocks := ∅;
     fs_files := ∅;
     transactions := [];
     random_pos := 0;
     effects := [] |}.

Definition sample_metadata : Metadata :=
  {| studentName := Some "Ada";
     courseName := Some "Logic";
     institution := Some "UCL";
     issueDate := Some "2024-01-01";
     grade := None;
     additionalInfo := None |}.

Definition sample_file : list byte := [x50; x44; x46].

Definition sample_request : Request :=
  {| file := Some sample_file; body := sample_metadata |}.

(** A request that lacks the course name. *)
Definition incomplete_request : Request :=
  {| file := Some sample_file;
     body := {| studentName := Some "Ada";
                courseName := None;
                institution := Some "UCL";
                issueDate := None;
                grade := None;
                additionalInfo := None |} |}.

(** The world after the sample request has been issued. *)
Definition issued_world : World := snd (route_issue sample_request sample_world).

(** The sample world with a database that does not answer. *)
Definition mirror_down_world : World :=
  {| config := sample_config;
     surroundings :=
       {| node_up := true;
          ipfs_up := false;
          fs_up := true;
          db_up := false;
          receipt_of := fun n => mkTxReceipt "0xt0" (n + 1) "21000";
          timestamp_of := fun n => 1700000000 + n;
          Date_now := 1700000000000;
          random_bytes := fun _ => x2a;
          Math_random := fun _ => "abc";
          node_error := "node unreachable";
          db_error := "database unreachable" |};
     chain := Registry.deploy (Registry.mkEnv 1 1699999999);
     mined := 0;
     ipfs_blocks := ∅;
     fs_files := ∅;
     transactions := [];
     random_pos := 0;
     effects := [] |}.

(** The sample world on a ledger whose clock is past the last time a
    JavaScript [Date] can hold, and that world after the sample request
    has been issued. *)
Definition late_world : World :=
  {| config := sample_config;
     surroundings :=
       {| node_up := true;
          ipfs_up := false;
          fs_up := true;
          db_up := true;
          receipt_of := fun n => mkTxReceipt "0xt0" (n + 1) "21000";
          timestamp_of := fun n => 8640000000001 + n;
          Date_now := 1700000000000;
          random_bytes := fun _ => x2a;
          Math_random := fun _ => "abc";
          node_error := "node unreachable";
          db_error := "database unreachable" |};
     chain := Registry.deploy (Registry.mkEnv 1 1699999999);
     mined := 0;
     ipfs_blocks := ∅;
     fs_files := ∅;
     transactions := [];
     random_pos := 0;
     effects := [] |}.

Definition late_issued_world : World :=
  snd (route_issue sample_request late_world).

(** The sample file with its last byte changed, and a request carrying it. *)
Definition altered_file : list byte := [x50; x44; x47].

Definition altered_request : Request :=
  {| file := Some altered_file; body := sample_metadata |}.

(** ** Storages of the registry *)

Definition alice : address := 1.
Definition bob : address := 2.
Definition mallory : address := 3.
Definition deployed : Registry.Storage := Registry.deploy (Registry.mkEnv alice 1000).
Definition with_bob : Registry.Storage :=
  fst (Registry.execute deployed (Registry.mkEnv alice 1001)
         (Registry.AddAuthorizedIssuer bob)).

End Sample.

(* ================================================================= *)
(** * Properties of the registry contract *)
(* ================================================================= *)

Module RegistryProperties.
Import Registry.
Import Sample.

(** ** Reading the monad *)

Ltac tx_unfold :=
  unfold onlyAuthorizedIssuer, onlyOwner, bind, require, sload, sstore, emit,
         ret, revert_with in *.

(** What [issueCertificate] does, check by check in source order. *)
Lemma issueCertificate_eq (e : Env) (h : bytes32) (cid : string) (s : Storage) :
  issueCertificate e h cid s =
    if negb (authorizedIssuers_at s (msg_sender e))
    then Revert (Error "Not an authorized issuer")
    else if N.eqb h 0 then Revert (Error "Invalid document hash")
    else if Nat.eqb (String.length cid) 0 then Revert (Error "Invalid IPFS CID")
    else if exists_ (certificates_at s h)
    then Revert (Error "Certificate already exists")
    else Done tt
           (set_certificate h
              (mkCertificate h cid (msg_sender e) (block_timestamp e) true) s)
           [CertificateIssued h cid (msg_sender e) (block_timestamp e)].
Proof.
  unfold issueCertificate. tx_unfold.
  destruct (authorizedIssuers_at s (msg_sender e)); simpl; [|reflexivity].
  destruct (N.eqb h 0); simpl; [reflexivity|].
  destruct cid as [|c cid]; simpl; [reflexivity|].
  destruct (exists_ (certificates_at s h)); reflexivity.
Qed.

Lemma removeAuthorizedIssuer_eq (e : Env) (a : address) (s : Storage) :
  removeAuthorizedIssuer e a s =
    if negb (N.eqb (owner s) (msg_sender e))
    then Revert (OwnableUnauthorizedAccount (msg_sender e))
    else if negb (authorizedIssuers_at s a)
    then Revert (Error "Issuer not authorized")
    else Done tt (set_authorized a false s)
           [IssuerRemoved a (block_timestamp e)].
Proof.
  unfold removeAuthorizedIssuer. tx_unfold.
  destruct (N.eqb (owner s) (msg_sender e)); simpl; [|reflexivity].
  destruct (authorizedIssuers_at s a); reflexivity.
Qed.

Lemma addAuthorizedIssuer_eq (e : Env) (a : address) (s : Storage) :
  addAuthorizedIssuer e a s =
    if negb (N.eqb (owner s) (msg_sender e))
    then Revert (OwnableUnauthorizedAccount (msg_sender e))
    else if N.eqb a 0 then Revert (Error "Invalid issuer address")
    else if authorizedIssuers_at s a
    then Revert (Error "Issuer already authorized")
    else Done tt (set_authorized a true s)
           [IssuerAdded a (block_timestamp e)].
Proof.
  unfold addAuthorizedIssuer. tx_unfold.
  destruct (N.eqb (owner s) (msg_sender e)); simpl; [|reflexivity].
  destruct (N.eqb a 0); simpl; [reflexivity|].
  destruct (authorizedIssuers_at s a); reflexivity.
Qed.

Lemma execute_written (s : Storage) (e : Env) (c : Call) :
  written s (fst (execute s e c)).
Proof.
  destruct c; unfold execute.
  - rewrite addAuthorizedIssuer_eq.
    repeat (match goal with |- context [if ?b then _ else _] => destruct b end);
      simpl; constructor.
  - rewrite removeAuthorizedIssuer_eq.
    repeat (match goal with |- context [if ?b then _ else _] => destruct b end);
      simpl; constructor.
  - rewrite issueCertificate_eq.
    destruct (negb _); [constructor|].
    destruct (N.eqb _ _); [constructor|].
    destruct (Nat.eqb _ _); [constructor|].
    destruct (exists_ _) eqn:Hex; simpl; [constructor|].
    now constructor.
  - constructor.
  - constructor.
  - constructor.
  - unfold transferOwnership. tx_unfold.
    destruct (N.eqb (owner s) (msg_sender e)); simpl; [|constructor].
    destruct (N.eqb newOwner 0); simpl; constructor.
  - unfold renounceOwnership. tx_unfold.
    destruct (N.eqb (owner s) (msg_sender e)); simpl; constructor.
Qed.

(** A record that exists survives any write. *)
Lemma written_keeps_record (s s' : Storage) (h : bytes32) (c : Certificate) :
  written s s' ->
  certificates s !! h = Some c -> exists_ c = true ->
  certificates s' !! h = Some c.
Proof.
  intros W Hc Hex. destruct W as [|h' c' Hfree _ _| |]; simpl; try assumption.
  destruct (decide (h' = h)) as [->|Hne].
  - unfold certificates_at in Hfree. rewrite Hc in Hfree. simpl in Hfree.
    congruence.
  - now rewrite lookup_insert_ne.
Qed.

Lemma run_keeps_record (calls : list (Env * Call)) :
  forall (s : Storage) (h : bytes32) (c : Certificate),
    certificates s !! h = Some c -> exists_ c = true ->
    certificates (run s calls) !! h = Some c.
Proof.
  induction calls as [|[e c0] rest IH]; intros s h c Hc Hex; simpl; [assumption|].
  apply IH; [|assumption].
  eapply written_keeps_record; eauto using execute_written.
Qed.

Lemma deploy_slots_issued (e : Env) : slots_issued (deploy e).
Proof.
  intros h c. unfold deploy, constructor. tx_unfold.
  destruct (N.eqb (msg_sender e) 0); simpl; rewrite lookup_empty; discriminate.
Qed.

Lemma written_slots_issued (s s' : Storage) :
  written s s' -> slots_issued s -> slots_issued s'.
Proof.
  intros W I. destruct W as [|h' c' _ Hex Hk| |]; try exact I.
  intros h c. simpl. destruct (decide (h' = h)) as [->|Hne].
  - rewrite lookup_insert_eq. intros [= <-]. now split.
  - rewrite lookup_insert_ne by assumption. apply I.
Qed.

Lemma run_slots_issued (calls : list (Env * Call)) :
  forall s, slots_issued s -> slots_issued (run s calls).
Proof.
  induction calls as [|[e c0] rest IH]; intros s I; simpl; [assumption|].
  apply IH. eapply written_slots_issued; eauto using execute_written.
Qed.

Lemma execute_issue_eq (s : Storage) (e : Env) (h : bytes32) (cid : string) :
  execute s e (IssueCertificate h cid) = finish s (issueCertificate e h cid s).
Proof. reflexivity. Qed.

(** A call other than a grant to [a] cannot make [a] trusted. *)
Lemma execute_keeps_untrusted (s : Storage) (e : Env) (c : Call) (a : address) :
  authorizedIssuers_at s a = false ->
  c <> AddAuthorizedIssuer a ->
  authorizedIssuers_at (fst (execute s e c)) a = false.
Proof.
  intros Hu Hc. destruct c; unfold execute.
  - rewrite addAuthorizedIssuer_eq.
    repeat (match goal with |- context [if ?b then _ else _] => destruct b end);
      simpl; try assumption.
    unfold authorizedIssuers_at, set_authorized. simpl.
    rewrite lookup_insert_ne by congruence. exact Hu.
  - rewrite removeAuthorizedIssuer_eq.
    repeat (match goal with |- context [if ?b then _ else _] => destruct b end);
      simpl; try assumption.
    unfold authorizedIssuers_at, set_authorized. simpl.
    destruct (decide (_issuer = a)) as [->|Hne].
    + now rewrite lookup_insert_eq.
    + rewrite lookup_insert_ne by assumption. exact Hu.
  - rewrite issueCertificate_eq.
    repeat (match goal with |- context [if ?b then _ else _] => destruct b end);
      simpl; assumption.
  - assumption.
  - assumption.
  - assumption.
  - unfold transferOwnership. tx_unfold.
    destruct (N.eqb (owner s) (msg_sender e)); simpl; [|assumption].
    destruct (N.eqb newOwner 0); simpl; assumption.
  - unfold renounceOwnership. tx_unfold.
    destruct (N.eqb (owner s) (msg_sender e)); simpl; assumption.
Qed.

Lemma run_keeps_untrusted (calls : list (Env * Call)) (a : address) :
  Forall (fun ec => snd ec <> AddAuthorizedIssuer a) calls ->
  forall s, authorizedIssuers_at s a = false ->
            authorizedIssuers_at (run s calls) a = false.
Proof.
  induction 1 as [|[e c] rest Hc _ IH]; intros s Hu; simpl; [assumption|].
  apply IH. now apply execute_keeps_untrusted.
Qed.

(** ** The claims about the ledger *)

(** C1. The ledger is append-only per key.  Once [issueCertificate] has
    succeeded for a [docHash], the record it wrote is still the record of
    that [docHash] after any further calls whatever (issue, authorize,
    revoke, the reads, the ownership calls), and every later attempt to
    issue the same [docHash], by anyone and with any reference, reverts and
    leaves the storage as it was; with a trusted caller and a non-empty
    reference the reason is the duplicate.  Taking no calls in between, the
    state after both attempts is the state after the first alone. *)
Theorem ledger_append_only
  (s s1 : Storage) (e : Env) (h : bytes32) (cid : string) (evs : list Event) :
  execute s e (IssueCertificate h cid) = (s1, Succeeded evs) ->
  let record := mkCertificate h cid (msg_sender e) (block_timestamp e) true in
  certificates s1 !! h = Some record
  /\ forall calls : list (Env * Call),
       let s2 := run s1 calls in
       certificates s2 !! h = Some record
       /\ forall (e' : Env) (cid' : string),
            exists why,
              execute s2 e' (IssueCertificate h cid') = (s2, Reverted why)
              /\ (authorizedIssuers_at s2 (msg_sender e') = true ->
                  cid' <> EmptyString ->
                  why = Error "Certificate already exists").
Proof.
  intros Hx record.
  rewrite execute_issue_eq, issueCertificate_eq in Hx.
  destruct (negb (authorizedIssuers_at s (msg_sender e))); [discriminate|].
  destruct (N.eqb h 0) eqn:Hh; [discriminate|].
  destruct (Nat.eqb (String.length cid) 0); [discriminate|].
  destruct (exists_ (certificates_at s h)); [discriminate|].
  simpl in Hx. injection Hx as <- _.
  assert (H1 : certificates (set_certificate h record s) !! h = Some record)
    by (simpl; apply lookup_insert_eq).
  split; [exact H1|].
  intros calls s2.
  assert (H2 : certificates s2 !! h = Some record)
    by (apply run_keeps_record; [exact H1|reflexivity]).
  split; [exact H2|].
  intros e' cid'.
  rewrite execute_issue_eq, issueCertificate_eq.
  assert (Hex : exists_ (certificates_at s2 h) = true)
    by (unfold certificates_at; rewrite H2; reflexivity).
  rewrite Hex, Hh.
  destruct (authorizedIssuers_at s2 (msg_sender e')); simpl.
  - destruct cid' as [|c rest]; simpl.
    + eexists; split; [reflexivity|]. intros _ Hne. now contradiction Hne.
    + eexists; split; [reflexivity|]. reflexivity.
  - eexists; split; [reflexivity|]. discriminate.
Qed.

(** C3. The outcomes of [issueCertificate], in the order the checks are
    made: a caller who is not a trusted writer gets "Not an authorized
    issuer"; a trusted caller gets "Invalid document hash" for the zero
    hash; else "Invalid IPFS CID" for the empty reference; else "Certificate
    already exists" when the hash has a record; and when none of these
    holds the call succeeds, the slot of the hash holds the record with the
    caller as issuer and the block time as timestamp, nothing else in the
    storage changes, and the one event emitted is the issuance event.  The
    call fails exactly when one of the four conditions holds, and a failed
    call leaves the storage as it was. *)
Theorem issue_outcomes (s : Storage) (e : Env) (h : bytes32) (cid : string) :
  let trusted := authorizedIssuers_at s (msg_sender e) in
  let issued := exists_ (certificates_at s h) in
  let record := mkCertificate h cid (msg_sender e) (block_timestamp e) true in
  let call := IssueCertificate h cid in
  (trusted = false ->
     execute s e call = (s, Reverted (Error "Not an authorized issuer")))
  /\ (trusted = true -> h = 0 ->
      execute s e call = (s, Reverted (Error "Invalid document hash")))
  /\ (trusted = true -> h <> 0 -> cid = EmptyString ->
      execute s e call = (s, Reverted (Error "Invalid IPFS CID")))
  /\ (trusted = true -> h <> 0 -> cid <> EmptyString -> issued = true ->
      execute s e call = (s, Reverted (Error "Certificate already exists")))
  /\ (trusted = true -> h <> 0 -> cid <> EmptyString -> issued = false ->
      execute s e call =
        ({| owner := owner s;
            certificates := <[h := record]> (certificates s);
            authorizedIssuers := authorizedIssuers s |},
         Succeeded [CertificateIssued h cid (msg_sender e) (block_timestamp e)]))
  /\ ((exists why, execute s e call = (s, Reverted why))
      <-> trusted = false \/ h = 0 \/ cid = EmptyString \/ issued = true).
Proof.
  intros trusted issued record call. subst call.
  rewrite execute_issue_eq, issueCertificate_eq. fold trusted issued.
  repeat split.
  - intros ->. reflexivity.
  - intros -> ->. reflexivity.
  - intros -> Hh ->. apply N.eqb_neq in Hh. rewrite Hh. reflexivity.
  - intros -> Hh Hc ->. apply N.eqb_neq in Hh. rewrite Hh.
    destruct cid; [contradiction|reflexivity].
  - intros -> Hh Hc ->. apply N.eqb_neq in Hh. rewrite Hh.
    destruct cid; [contradiction|reflexivity].
  - intros [why Hwhy]. destruct trusted; [|now left]. right.
    destruct (N.eqb_spec h 0) as [Hh|Hh]; [now left|]. right.
    destruct cid as [|c rest]; [now left|]. right.
    destruct issued; [reflexivity|discriminate].
  - intros [-> | [-> | [-> | Hi]]].
    + eexists; reflexivity.
    + destruct trusted; eexists; reflexivity.
    + destruct trusted, (N.eqb h 0); eexists; reflexivity.
    + rewrite Hi.
      destruct trusted, (N.eqb h 0), (Nat.eqb (String.length cid) 0);
        eexists; reflexivity.
Qed.

(** C5. An identity that is not a trusted writer cannot issue: for any
    [docHash] and reference its call reverts with the authorization error,
    and the whole storage (certificate records, writer authorizations,
    owner) is what it was before the call. *)
Theorem untrusted_issue_rejected
  (s : Storage) (e : Env) (h : bytes32) (cid : string) :
  authorizedIssuers_at s (msg_sender e) = false ->
  execute s e (IssueCertificate h cid)
  = (s, Reverted (Error "Not an authorized issuer")).
Proof.
  intros Hu. rewrite execute_issue_eq, issueCertificate_eq, Hu. reflexivity.
Qed.

(** C6. Revoking a writer is a frame on the records.  When the owner
    revokes a trusted writer [W], the call succeeds, the certificate table
    is untouched, [verifyCertificate] answers for every [docHash] what it
    answered before, and from then on, until [W] is granted again, every
    [issueCertificate] sent by [W] reverts with the authorization error. *)
Theorem revoke_frame (s : Storage) (e : Env) (W : address) :
  owner s = msg_sender e ->
  authorizedIssuers_at s W = true ->
  exists s1,
    execute s e (RemoveAuthorizedIssuer W)
    = (s1, Succeeded [IssuerRemoved W (block_timestamp e)])
    /\ certificates s1 = certificates s
    /\ (forall h, exists r,
          verifyCertificate h s = Done r s []
          /\ verifyCertificate h s1 = Done r s1 [])
    /\ (forall calls : list (Env * Call),
          Forall (fun ec => snd ec <> AddAuthorizedIssuer W) calls ->
          forall (e' : Env) (h : bytes32) (cid : string),
            msg_sender e' = W ->
            execute (run s1 calls) e' (IssueCertificate h cid)
            = (run s1 calls, Reverted (Error "Not an authorized issuer"))).
Proof.
  intros Ho Ht. exists (set_authorized W false s).
  split.
  { unfold execute. rewrite removeAuthorizedIssuer_eq, Ho, N.eqb_refl, Ht.
    reflexivity. }
  split; [reflexivity|].
  split.
  { intros h. eexists. split; reflexivity. }
  intros calls Hc e' h cid <-.
  rewrite execute_issue_eq, issueCertificate_eq.
  rewrite run_keeps_untrusted; [reflexivity|assumption|].
  unfold authorizedIssuers_at, set_authorized. simpl.
  now rewrite lookup_insert_eq.
Qed.

(** C7. [verifyCertificate] is a read that always answers.  In every
    storage the deployed contract can reach, and for every [docHash], the
    call returns without reverting, writes nothing and emits nothing; when
    the [docHash] has a record the answer is [true] with the reference,
    issuer and timestamp of that record, and when it has none the answer is
    the zero-valued record: [false], the empty reference, the zero address
    and timestamp zero. *)
Theorem lookup_total (e0 : Env) (calls : list (Env * Call)) (h : bytes32) :
  let s := run (deploy e0) calls in
  exists r,
    verifyCertificate h s = Done r s []
    /\ match certificates s !! h with
       | Some c => exists_ c = true /\ docHash c = h
                   /\ r = (true, ipfsCID c, issuer c, timestamp c)
       | None => r = (false, EmptyString, 0, 0)
       end.
Proof.
  intros s.
  assert (I : slots_issued s)
    by (apply run_slots_issued, deploy_slots_issued).
  eexists. split; [reflexivity|].
  unfold certificates_at.
  destruct (certificates s !! h) as [c|] eqn:Hc; simpl; [|reflexivity].
  destruct (I h c Hc) as [Hex Hk]. rewrite Hex. auto.
Qed.

(** ** Concrete runs *)

Example lookup_after_deploy :
  verifyCertificate 7 deployed = Done (false, EmptyString, 0, 0) deployed [].
Proof. reflexivity. Qed.

Example issue_then_lookup :
  let s := fst (execute with_bob (mkEnv bob 1002) (IssueCertificate 7 "QmA")) in
  verifyCertificate 7 s = Done (true, "QmA", bob, 1002) s [].
Proof. vm_compute. reflexivity. Qed.

Example issue_empty_reference :
  snd (execute with_bob (mkEnv bob 1002) (IssueCertificate 7 EmptyString))
  = Reverted (Error "Invalid IPFS CID").
Proof. vm_compute. reflexivity. Qed.

Example stranger_cannot_add_issuer :
  snd (execute deployed (mkEnv mallory 1001) (AddAuthorizedIssuer mallory))
  = Reverted (OwnableUnauthorizedAccount mallory).
Proof. vm_compute. reflexivity. Qed.

Lemma ledger_append_only_witness :
  certificates
    (run (fst (execute with_bob (mkEnv bob 1002) (IssueCertificate 7 "QmA")))
       [(mkEnv alice 1003, RemoveAuthorizedIssuer bob);
        (mkEnv alice 1004, IssueCertificate 7 "QmB")]) !! 7
  = Some (mkCertificate 7 "QmA" bob 1002 true).
Proof.
  refine (proj1 (proj2 (ledger_append_only with_bob _ (mkEnv bob 1002) 7 "QmA"
                          [CertificateIssued 7 "QmA" bob 1002] _) _)).
  vm_compute. reflexivity.
Defined.

Lemma issue_outcomes_witness :
  execute with_bob (mkEnv bob 1002) (IssueCertificate 0 "QmA")
  = (with_bob, Reverted (Error "Invalid document hash")).
Proof.
  refine (proj1 (proj2 (issue_outcomes with_bob (mkEnv bob 1002) 0 "QmA")) _ _).
  - vm_compute. reflexivity.
  - reflexivity.
Defined.

Lemma untrusted_issue_rejected_witness :
  execute with_bob (mkEnv mallory 1002) (IssueCertificate 7 "QmA")
  = (with_bob, Reverted (Error "Not an authorized issuer")).
Proof.
  apply (untrusted_issue_rejected with_bob (mkEnv mallory 1002) 7 "QmA").
  vm_compute. reflexivity.
Defined.

Lemma revoke_frame_witness :
  exists s1,
    execute with_bob (mkEnv alice 1003) (RemoveAuthorizedIssuer bob)
    = (s1, Succeeded [IssuerRemoved bob 1003])
    /\ certificates s1 = certificates with_bob.
Proof.
  destruct (revoke_frame with_bob (mkEnv alice 1003) bob) as (s1 & H1 & H2 & _).
  - vm_compute. reflexivity.
  - vm_compute. reflexivity.
  - exists s1. split; assumption.
Defined.

End RegistryProperties.

(* ================================================================= *)
(** * Properties of the backend *)
(* ================================================================= *)

Module BackendProperties.
Import Backend.

(** ** Hexadecimal text *)

Lemma hex_pair (b : byte) (rest : string) :
  bytes_of_hex
    (String (hex_digit (Byte.to_N b / 16))
       (String (hex_digit (Byte.to_N b mod 16)) rest))
  = b :: bytes_of_hex rest.
Proof. destruct b; reflexivity. Qed.

Lemma bytes_of_hex_of_bytes (bs : list byte) :
  bytes_of_hex (hex_of_bytes bs) = bs.
Proof.
  induction bs as [|b rest IH]; [reflexivity|].
  cbn [hex_of_bytes]. rewrite hex_pair, IH. reflexivity.
Qed.

Lemma hex_of_bytes_length (bs : list byte) :
  String.length (hex_of_bytes bs) = (2 * length bs)%nat.
Proof.
  induction bs as [|b rest IH]; [reflexivity|].
  cbn [hex_of_bytes String.length length]. rewrite IH. lia.
Qed.

Lemma fingerprint_is_bytes32 `{P : Platform} `{!PlatformLaws P} (buffer : list byte) :
  bytes32_of_hex (hashDocumentForBlockchain buffer)
  = Some (N_of_bytes (sha256 buffer)).
Proof.
  unfold hashDocumentForBlockchain, hashDocument.
  change ("0x" +:+ hex_of_bytes (sha256 buffer))
    with (String "0" (String "x" (hex_of_bytes (sha256 buffer)))).
  unfold bytes32_of_hex.
  rewrite bytes_of_hex_of_bytes, hex_of_bytes_length, sha256_length.
  reflexivity.
Qed.

(** ** The metadata cipher *)

Section Cipher.
Context `{P : Platform} `{!PlatformLaws P}.

Lemma check_key_iv_ok (key iv : list byte) :
  length key = 32%nat -> length iv = 16%nat -> check_key_iv key iv = Returned tt.
Proof. intros Hk Hi. unfold check_key_iv. rewrite Hk, Hi. reflexivity. Qed.

Lemma check_key_iv_digest (key : string) (iv : list byte) :
  length iv = 16%nat ->
  check_key_iv (sha256 (utf8_encode key)) iv = Returned tt.
Proof. intros Hi. apply check_key_iv_ok; [apply sha256_length|exact Hi]. Qed.

(** With sixteen bytes of initialization vector [encryptMetadata] returns,
    whatever the key string. *)
Lemma encryptMetadata_with_returns (iv0 : list byte) (data : json) (key : string) :
  length iv0 = 16%nat ->
  encryptMetadata_with iv0 data key
  = Returned
      {| encrypted :=
           hex_of_bytes
             (aes256cbc_encrypt (sha256 (utf8_encode key)) iv0
                (utf8_encode (JSON_stringify data 0)));
         iv := hex_of_bytes iv0;
         algorithm := "aes-256-cbc" |}.
Proof.
  intros Hi. unfold encryptMetadata_with.
  rewrite check_key_iv_digest by exact Hi. reflexivity.
Qed.

Lemma utf8_decode_encode (s : string) : utf8_decode (utf8_encode s) = s.
Proof. apply string_of_list_byte_of_string. Qed.

Lemma hex_digit_unit (n : N) : utf16_units (hex_digit n) = 1%nat.
Proof.
  unfold hex_digit.
  repeat match goal with
         | |- context [match ?p with _ => _ end] => destruct p
         end; reflexivity.
Qed.

Lemma hex_of_bytes_js_length (bs : list byte) :
  js_length (hex_of_bytes bs) = (2 * length bs)%nat.
Proof.
  induction bs as [|b rest IH]; [reflexivity|].
  cbn [hex_of_bytes js_length length]. rewrite !hex_digit_unit, IH. lia.
Qed.

Lemma hex_of_bytes_even (bs : list byte) :
  Nat.odd (js_length (hex_of_bytes bs)) = false.
Proof. now rewrite hex_of_bytes_js_length, Nat.odd_mul. Qed.

(** [decipher] and [decryptMetadata] on strings, written out. *)
Lemma decipher_strings (encryptedData ivHex key : string) :
  decipher encryptedData ivHex key
  = match check_key_iv (sha256 (utf8_encode key)) (bytes_of_hex ivHex) with
    | Thrown message => Thrown message
    | Returned _ =>
        if Nat.odd (js_length encryptedData)
        then Thrown (error_message (InvalidHexLength encryptedData))
        else
          match aes256cbc_decrypt (sha256 (utf8_encode key)) (bytes_of_hex ivHex)
                  (bytes_of_hex encryptedData) with
          | Some plaintext => Returned (utf8_decode plaintext)
          | None =>
              Thrown (error_message
                        (DecryptFailed (sha256 (utf8_encode key))
                           (bytes_of_hex ivHex) (bytes_of_hex encryptedData)))
          end
    end.
Proof.
  unfold decipher, decipher_any, Buffer_from_hex, hex_input.
  destruct (check_key_iv _ _); [|reflexivity].
  destruct (Nat.odd _); reflexivity.
Qed.

Lemma decryptMetadata_strings (encryptedData ivHex key : string) :
  decryptMetadata encryptedData ivHex key
  = match decipher encryptedData ivHex key with
    | Thrown message => Thrown message
    | Returned decrypted =>
        match JSON_parse decrypted with
        | Some value => Returned value
        | None => Thrown (error_message (JSONSyntaxError decrypted))
        end
    end.
Proof. reflexivity. Qed.

(** Deciphering what was enciphered, when the two key strings have the
    same digest. *)
Lemma decipher_encrypted
  (iv0 : list byte) (data : json) (k1 k2 : string) (ed : EncryptedData) :
  length iv0 = 16%nat ->
  sha256 (utf8_encode k1) = sha256 (utf8_encode k2) ->
  encryptMetadata_with iv0 data k1 = Returned ed ->
  decipher (encrypted ed) (iv ed) k2 = Returned (JSON_stringify data 0).
Proof.
  intros Hi Hk He. rewrite encryptMetadata_with_returns in He by exact Hi.
  injection He as <-. rewrite decipher_strings. cbn [encrypted iv].
  rewrite !bytes_of_hex_of_bytes, hex_of_bytes_even,
    check_key_iv_digest by exact Hi.
  rewrite <- Hk, aes256cbc_roundtrip by (apply sha256_length || exact Hi).
  now rewrite utf8_decode_encode.
Qed.

Lemma decryptMetadata_encrypted
  (iv0 : list byte) (fields : list (string * string)) (key : string)
  (ed : EncryptedData) :
  length iv0 = 16%nat ->
  plain_names fields ->
  encryptMetadata_with iv0 (record_of fields) key = Returned ed ->
  decryptMetadata (encrypted ed) (iv ed) key = Returned (record_of fields).
Proof.
  intros Hi Hn He. rewrite decryptMetadata_strings.
  rewrite (decipher_encrypted iv0 (record_of fields) key key ed Hi eq_refl He).
  now rewrite JSON_roundtrip.
Qed.

(** The names of the defined metadata fields are distinct and none is a
    number. *)
Lemma metadata_fields_plain (m : Metadata) : plain_names (metadata_fields m).
Proof.
  destruct m as [[a|] [b|] [c|] [d|] [e|] [f|]]; (split; [|reflexivity]); cbn;
    repeat (apply NoDup_cons_2;
            [rewrite ?elem_of_cons, elem_of_nil; intuition discriminate|]);
    apply NoDup_nil_2.
Qed.

End Cipher.

(** ** The blob store *)

Ltac m_unfold :=
  unfold bind, try_catch, gets, modify, note, lift, ret, throw in *.

Section BlobStore.
Context `{P : Platform}.

(** C8. When the remote backend is selected ([USE_IPFS] set and a client
    at hand) and its store call fails, [uploadToIPFS] turns to the local
    file system in the same call, once: after the one failed [add] it makes
    the directory and writes one file, and what it returns is the name of
    that file, which starts with [local-].  The remote error is never what
    the caller sees: if the local write fails too, the error is the local
    one.  The remote store is left as it was. *)
Theorem upload_falls_back_to_local (data : json) (w : World) :
  USE_IPFS (config w) = true ->
  ipfsClient (config w) = true ->
  ipfs_up (surroundings w) = false ->
  let text := JSON_stringify data 2 in
  let filename :=
    "local-" +:+ pretty (Date_now (surroundings w)) +:+ "-"
      +:+ Math_random (surroundings w) (random_pos w) +:+ ".json" in
  ipfs_blocks (snd (uploadToIPFS data w)) = ipfs_blocks w
  /\ if fs_up (surroundings w) then
       fst (uploadToIPFS data w) = Returned filename
       /\ String.prefix "local-" filename = true
       /\ fs_files (snd (uploadToIPFS data w)) = <[filename := text]> (fs_files w)
       /\ effects (snd (uploadToIPFS data w))
          = (effects w ++ [IpfsAdd text; FsMkdir; FsWriteFile filename text])%list
     else
       fst (uploadToIPFS data w) = Thrown "Failed to save data to local storage"
       /\ fs_files (snd (uploadToIPFS data w)) = fs_files w
       /\ effects (snd (uploadToIPFS data w))
          = (effects w ++ [IpfsAdd text; FsMkdir])%list.
Proof.
  intros Hu Hc Hd text filename.
  unfold uploadToIPFS, saveToLocalStorage, ipfs_add, fs_mkdir, fs_writeFile,
    random_suffix.
  m_unfold. cbn. rewrite Hu, Hc. cbn. rewrite Hd. cbn.
  destruct (fs_up (surroundings w)) eqn:Hf; cbn; rewrite ?Hf; cbn;
    rewrite <- !app_assoc; cbn; repeat split; try reflexivity.
  subst filename.
  change (String.prefix EmptyString
            (pretty (Date_now (surroundings w)) +:+ "-"
               +:+ Math_random (surroundings w) (random_pos w) +:+ ".json")
          = true).
  now destruct (pretty _ +:+ _).
Qed.

End BlobStore.

(** ** Running the monad *)

Lemma bind_gets {A B} (f : World -> A) (k : A -> M B) (w : World) :
  bind (gets f) k w = k (f w) w.
Proof. reflexivity. Qed.

Lemma bind_note {B} (e : Effect) (k : unit -> M B) (w : World) :
  bind (note e) k w = k tt (with_effects (effects w ++ [e]) w).
Proof. reflexivity. Qed.

Lemma bind_modify {B} (f : World -> World) (k : unit -> M B) (w : World) :
  bind (modify f) k w = k tt (f w).
Proof. reflexivity. Qed.

Lemma bind_ret {A B} (a : A) (k : A -> M B) (w : World) :
  bind (ret a) k w = k a w.
Proof. reflexivity. Qed.

Lemma bind_throw {A B} (message : string) (k : A -> M B) (w : World) :
  bind (throw message) k w = (Thrown message, w).
Proof. reflexivity. Qed.

Lemma bind_lift {A B} (r : Result A) (k : A -> M B) (w : World) :
  bind (lift r) k w
  = match r with Returned a => k a w | Thrown message => (Thrown message, w) end.
Proof. destruct r; reflexivity. Qed.

Lemma bind_run {A B} (m : M A) (k : A -> M B) (w : World) :
  bind m k w
  = match m w with
    | (Returned a, w1) => k a w1
    | (Thrown message, w1) => (Thrown message, w1)
    end.
Proof. reflexivity. Qed.

Lemma try_catch_run {A} (m : M A) (h : string -> M A) (w : World) :
  try_catch m h w
  = match m w with
    | (Returned a, w1) => (Returned a, w1)
    | (Thrown message, w1) => h message w1
    end.
Proof. reflexivity. Qed.

Ltac w_simpl :=
  cbn [config surroundings chain mined ipfs_blocks fs_files transactions
       random_pos effects with_chain with_ipfs_blocks with_fs_files
       with_transactions with_random_pos with_effects fst snd negb] in *.

Ltac m_step :=
  first [ rewrite bind_gets | rewrite bind_note | rewrite bind_modify
        | rewrite bind_ret | rewrite bind_throw ].

(** ** Verification *)

Section Verify.
Context `{P : Platform} `{!PlatformLaws P}.

(** What the ledger client answers when the node is reachable. *)
Lemma verifyCertificate_run (buffer : list byte) (w : World) :
  contract (config w) = true ->
  node_up (surroundings w) = true ->
  let docHash := hashDocumentForBlockchain buffer in
  let cert := Registry.certificates_at (chain w) (N_of_bytes (sha256 buffer)) in
  verifyCertificate docHash w
  = (Returned {| cd_exists := Registry.exists_ cert;
                 cd_ipfsCID := Registry.ipfsCID cert;
                 cd_issuer := Registry.issuer cert;
                 cd_timestamp := Registry.timestamp cert |},
     with_effects (effects w ++ [ChainCall docHash]) w).
Proof.
  intros Hc Hn docHash cert.
  unfold verifyCertificate, contract_verifyCertificate. m_unfold.
  rewrite Hc. cbn. subst docHash. rewrite fingerprint_is_bytes32.
  cbn. rewrite Hn. reflexivity.
Qed.

(** Retrieval reads: of the world it changes the ghost record only. *)
Lemma retrieveFromIPFS_frame (cid : string) (w : World) :
  exists more,
    snd (retrieveFromIPFS cid w) = with_effects (effects w ++ more) w.
Proof.
  unfold retrieveFromIPFS, retrieveFromLocalStorage, ipfs_cat, fs_readFile,
    parse_or_throw.
  rewrite bind_gets.
  destruct (USE_IPFS (config w) && ipfsClient (config w)
            && negb (String.prefix "local-" cid)).
  - rewrite try_catch_run, bind_run, bind_note, bind_gets. w_simpl.
    destruct (ipfs_up (surroundings w)).
    + rewrite bind_gets. w_simpl.
      destruct (ipfs_blocks w !! cid) as [content|]; cbn.
      * destruct (JSON_parse content); cbn; eexists; reflexivity.
      * eexists; reflexivity.
    + cbn. eexists; reflexivity.
  - rewrite try_catch_run, bind_run, bind_note, bind_gets. w_simpl.
    destruct (fs_up (surroundings w)).
    + rewrite bind_gets. w_simpl.
      destruct (fs_files w !! cid) as [content|]; cbn.
      * destruct (JSON_parse content); cbn; eexists; reflexivity.
      * eexists; reflexivity.
    + cbn. eexists; reflexivity.
Qed.

(** The answer of the verification route once the request reaches the
    ledger: the presence flag chooses between the two answers, retrieval
    and decryption only fill in the metadata, and a timestamp that is not a
    date makes the last step throw. *)
Lemma route_verify_run (req : Request) (w : World) (buffer : list byte) :
  web3Ready (config w) = true ->
  contract (config w) = true ->
  node_up (surroundings w) = true ->
  file req = Some buffer ->
  let docHash := hashDocumentForBlockchain buffer in
  let cert := Registry.certificates_at (chain w) (N_of_bytes (sha256 buffer)) in
  let w1 := with_effects (effects w ++ [Hashed; ChainCall docHash]) w in
  let metadata :=
    match retrieveFromIPFS (Registry.ipfsCID cert) w1 with
    | (Returned blob, _) =>
        match decryptBlob blob (configured_key (config w)) with
        | Returned value => Some value
        | Thrown _ => None
        end
    | (Thrown _, _) => None
    end in
  fst (route_verify req w)
  = if Registry.exists_ cert then
      match issuedDate_of (Registry.timestamp cert) with
      | Returned issuedDate =>
          Returned
            (mkResponse 200
               (ValidBody
                  {| cv_docHash := docHash;
                     cv_issuer := Registry.issuer cert;
                     cv_timestamp := Registry.timestamp cert;
                     cv_ipfsCID := Registry.ipfsCID cert;
                     cv_metadata := metadata;
                     cv_issuedDate := issuedDate |}))
      | Thrown message =>
          Returned
            (mkResponse 500
               (ErrorBody "Failed to verify certificate" (Some message)))
      end
    else Returned (mkResponse 200 (NotFoundBody docHash)).
Proof.
  intros Hr Hc Hn Hf docHash cert w1 metadata.
  pose proof (eq_refl (route_verify req w)) as Hrun.
  unfold route_verify at 2 in Hrun.
  rewrite try_catch_run, bind_gets, Hr, Hf in Hrun. cbn [negb] in Hrun.
  rewrite bind_note in Hrun.
  rewrite Hrun. clear Hrun.
  rewrite bind_run.
  rewrite (verifyCertificate_run buffer) by (w_simpl; assumption).
  w_simpl. fold docHash cert. cbn [cd_exists cd_ipfsCID cd_issuer cd_timestamp].
  rewrite <- app_assoc. cbn [app].
  change (with_effects (effects w ++ [Hashed; ChainCall docHash])
            (with_effects (effects w ++ [Hashed]) w)) with w1.
  destruct (Registry.exists_ cert); [|reflexivity].
  cbn [negb]. rewrite bind_run, try_catch_run, bind_run.
  subst metadata.
  destruct (retrieveFromIPFS_frame (Registry.ipfsCID cert) w1) as [more Hw].
  destruct (retrieveFromIPFS (Registry.ipfsCID cert) w1) as [[blob|msg] w2];
    cbn [snd] in Hw; subst w2.
  - rewrite bind_gets, bind_lift. w_simpl.
    change (config w1) with (config w).
    destruct (decryptBlob blob (configured_key (config w))) as [value|msg];
      destruct (issuedDate_of (Registry.timestamp cert)); reflexivity.
  - destruct (issuedDate_of (Registry.timestamp cert)); reflexivity.
Qed.

(** C2, amended.  The ledger lookup decides the answer.  With the service
    ready, a file in the request and the ledger node answering: when the
    fingerprint of the file has no record, the answer is [valid: false];
    when it has one whose timestamp is a time a JavaScript [Date] can hold
    (at most 8 640 000 000 000 seconds), the answer is [valid: true] with
    the record's issuer, timestamp and reference, and the metadata is what
    retrieval and decryption give, or [null] when either of them throws;
    when it has one with a later timestamp, the route answers 500 "Invalid
    time value", whatever the blob store holds: the date is made outside
    the inner [try]. *)
Theorem verify_validity_from_ledger
  (req : Request) (w : World) (buffer : list byte) :
  web3Ready (config w) = true ->
  contract (config w) = true ->
  node_up (surroundings w) = true ->
  file req = Some buffer ->
  let docHash := hashDocumentForBlockchain buffer in
  let cert := Registry.certificates_at (chain w) (N_of_bytes (sha256 buffer)) in
  let w1 := with_effects (effects w ++ [Hashed; ChainCall docHash]) w in
  let metadata :=
    match retrieveFromIPFS (Registry.ipfsCID cert) w1 with
    | (Returned blob, _) =>
        match decryptBlob blob (configured_key (config w)) with
        | Returned value => Some value
        | Thrown _ => None
        end
    | (Thrown _, _) => None
    end in
  (Registry.exists_ cert = false ->
     fst (route_verify req w) = Returned (mkResponse 200 (NotFoundBody docHash)))
  /\ (Registry.exists_ cert = true ->
      (Registry.timestamp cert * 1000 <= 8640000000000000)%N ->
      fst (route_verify req w)
      = Returned
          (mkResponse 200
             (ValidBody
                {| cv_docHash := docHash;
                   cv_issuer := Registry.issuer cert;
                   cv_timestamp := Registry.timestamp cert;
                   cv_ipfsCID := Registry.ipfsCID cert;
                   cv_metadata := metadata;
                   cv_issuedDate := toISOString (Registry.timestamp cert * 1000) |})))
  /\ (Registry.exists_ cert = true ->
      (8640000000000000 < Registry.timestamp cert * 1000)%N ->
      fst (route_verify req w)
      = Returned
          (mkResponse 500
             (ErrorBody "Failed to verify certificate" (Some "Invalid time value")))).
Proof.
  intros Hr Hc Hn Hf docHash cert w1 metadata.
  rewrite (route_verify_run req w buffer Hr Hc Hn Hf).
  fold docHash cert w1 metadata. split; [|split].
  - intros ->. reflexivity.
  - intros -> Ht. unfold issuedDate_of.
    apply N.leb_le in Ht. now rewrite Ht.
  - intros -> Ht. unfold issuedDate_of.
    apply N.leb_gt in Ht. now rewrite Ht.
Qed.

End Verify.

(** ** What a computation leaves in the ghost record *)

Lemma grows_ret {A} (a : A) : grows (ret a).
Proof. intros w. exists []. cbn. now rewrite app_nil_r. Qed.

Lemma grows_throw {A} (message : string) : grows (@throw A message).
Proof. intros w. exists []. cbn. now rewrite app_nil_r. Qed.

Lemma grows_throw_from {A} (message : World -> string) :
  grows (@throw_from A message).
Proof. intros w. exists []. cbn. now rewrite app_nil_r. Qed.

Lemma grows_gets {A} (f : World -> A) : grows (gets f).
Proof. intros w. exists []. cbn. now rewrite app_nil_r. Qed.

Lemma grows_lift {A} (r : Result A) : grows (lift r).
Proof. intros w. exists []. cbn. now rewrite app_nil_r. Qed.

Lemma grows_note (e : Effect) : grows (note e).
Proof. intros w. exists [e]. reflexivity. Qed.

Lemma grows_modify (f : World -> World) :
  (forall w, effects (f w) = effects w) -> grows (modify f).
Proof. intros Hf w. exists []. cbn. now rewrite Hf, app_nil_r. Qed.

Lemma grows_bind {A B} (m : M A) (k : A -> M B) :
  grows m -> (forall a, grows (k a)) -> grows (bind m k).
Proof.
  intros Hm Hk w. rewrite bind_run. destruct (Hm w) as [more1 H1].
  destruct (m w) as [[a|message] w1]; cbn [snd] in *.
  - destruct (Hk a w1) as [more2 H2]. exists (more1 ++ more2)%list.
    now rewrite H2, H1, app_assoc.
  - now exists more1.
Qed.

Lemma grows_try_catch {A} (m : M A) (h : string -> M A) :
  grows m -> (forall message, grows (h message)) -> grows (try_catch m h).
Proof.
  intros Hm Hh w. rewrite try_catch_run. destruct (Hm w) as [more1 H1].
  destruct (m w) as [[a|message] w1]; cbn [snd] in *.
  - now exists more1.
  - destruct (Hh message w1) as [more2 H2]. exists (more1 ++ more2)%list.
    now rewrite H2, H1, app_assoc.
Qed.

Create HintDb grows discriminated.
#[local] Hint Resolve grows_ret grows_throw grows_throw_from grows_gets
  grows_lift grows_note : grows.

Ltac grows_step :=
  match goal with
  | |- grows (bind _ _) => apply grows_bind; [|intros]
  | |- grows (try_catch _ _) => apply grows_try_catch; [|intros]
  | |- grows (modify _) => apply grows_modify; intros; reflexivity
  | |- grows (if ?b then _ else _) => destruct b
  | |- grows (match ?x with _ => _ end) => destruct x
  | |- grows _ => solve [auto with grows]
  end.

Ltac grows_auto := repeat grows_step.

Section Grows.
Context `{P : Platform}.

Lemma grows_encryptMetadata (data : json) (key : string) :
  grows (encryptMetadata data key).
Proof. unfold encryptMetadata, randomBytes. grows_auto. Qed.

Lemma grows_uploadToIPFS (data : json) : grows (uploadToIPFS data).
Proof.
  unfold uploadToIPFS, saveToLocalStorage, ipfs_add, fs_mkdir, fs_writeFile,
    random_suffix.
  grows_auto.
Qed.

Lemma grows_issueCertificate (docHash ipfsCID : string) :
  grows (issueCertificate docHash ipfsCID).
Proof. unfold issueCertificate, contract_issueCertificate. grows_auto. Qed.

Lemma grows_insertTransaction (row : AuditEntry) : grows (insertTransaction row).
Proof. unfold insertTransaction, db_insert. grows_auto. Qed.

Lemma grows_getSignerAddress : grows getSignerAddress.
Proof. unfold getSignerAddress. grows_auto. Qed.

Lemma returns_only_ret {A} (Q : A -> Prop) (a : A) : Q a -> returns_only Q (ret a).
Proof. intros Ha w a' w' [= <- _]. exact Ha. Qed.

Lemma returns_only_bind {A B} (Q : B -> Prop) (m : M A) (k : A -> M B) :
  (forall a, returns_only Q (k a)) -> returns_only Q (bind m k).
Proof.
  intros Hk w b w'. rewrite bind_run.
  destruct (m w) as [[a|message] w1]; [apply Hk|discriminate].
Qed.

Lemma returns_only_try_catch {A} (Q : A -> Prop) (m : M A) (h : string -> M A) :
  returns_only Q m -> (forall message, returns_only Q (h message)) ->
  returns_only Q (try_catch m h).
Proof.
  intros Hm Hh w a w'. rewrite try_catch_run.
  destruct (m w) as [[a0|message] w1] eqn:Hrun.
  - intros [= <- <-]. eapply Hm, Hrun.
  - apply Hh.
Qed.

(** A [try] whose handler returns always returns. *)
Lemma try_catch_returns {A} (m : M A) (h : string -> A) (w : World) :
  exists a, fst (try_catch m (fun message => ret (h message)) w) = Returned a.
Proof.
  rewrite try_catch_run. destruct (m w) as [[a|message] w1]; eexists; reflexivity.
Qed.

End Grows.

#[local] Hint Resolve grows_encryptMetadata grows_uploadToIPFS
  grows_issueCertificate grows_insertTransaction grows_getSignerAddress : grows.

(** ** Issuance *)

(** ** Issuance, stage by stage *)

Section IssueStages.
Context `{P : Platform}.

(** The run of [insertTransaction]: the row stored carries the status
    given, or [confirmed] when that is empty. *)
Lemma insertTransaction_outcome (row : AuditEntry) (w : World) :
  let noted := with_effects (effects w ++ [DbInsert (tx_txHash row)]) w in
  let stored :=
    {| tx_txHash := tx_txHash row;
       tx_docHash := tx_docHash row;
       tx_ipfsCID := tx_ipfsCID row;
       tx_issuer := tx_issuer row;
       tx_timestamp := tx_timestamp row;
       tx_status := if Nat.eqb (String.length (tx_status row)) 0
                    then "confirmed" else tx_status row;
       tx_blockNumber := tx_blockNumber row;
       tx_gasUsed := tx_gasUsed row |} in
  insertTransaction row w
  = if negb (db_up (surroundings w))
    then (Thrown (db_error (surroundings w)), noted)
    else
      match tx_issuer row with
      | None => (Thrown (error_message (ConstraintFailed (NotNull "issuer"))), noted)
      | Some _ =>
          if existsb (fun r => String.eqb (tx_txHash r) (tx_txHash row))
               (transactions w)
          then (Thrown (error_message (ConstraintFailed (Unique "txHash"))), noted)
          else (Returned (N.of_nat (length (transactions w)) + 1)%N,
                with_transactions (transactions w ++ [stored]) noted)
      end.
Proof.
  unfold insertTransaction, db_insert. rewrite bind_note, !bind_gets. w_simpl.
  cbn [tx_txHash tx_issuer].
  destruct (db_up (surroundings w)); [|reflexivity]. cbn [negb].
  destruct (tx_issuer row); [|reflexivity].
  rewrite bind_gets. w_simpl.
  destruct (existsb _ _); reflexivity.
Qed.

(** An insert the database refuses: it is down, or the transaction hash
    is in the table already. *)
Lemma insertTransaction_refused (row : AuditEntry) (w : World) (who : N) :
  tx_issuer row = Some who ->
  db_up (surroundings w)
  && negb (existsb (fun r => String.eqb (tx_txHash r) (tx_txHash row))
             (transactions w)) = false ->
  insertTransaction row w
  = (Thrown (if db_up (surroundings w)
             then error_message (ConstraintFailed (Unique "txHash"))
             else db_error (surroundings w)),
     with_effects (effects w ++ [DbInsert (tx_txHash row)]) w).
Proof.
  intros Hwho Hdb. rewrite insertTransaction_outcome. cbv zeta. rewrite Hwho.
  destruct (db_up (surroundings w)); cbn [negb andb] in Hdb |- *; [|reflexivity].
  apply negb_false_iff in Hdb. now rewrite Hdb.
Qed.

(** The run of [issueCertificate] of [web3.js] on a well-formed hash. *)
Lemma issueCertificate_outcome (docHash ipfsCID : string) (h : N) (w : World) :
  bytes32_of_hex docHash = Some h ->
  let noted := with_effects (effects w ++ [ChainSend docHash ipfsCID]) w in
  issueCertificate docHash ipfsCID w
  = match contract (config w), signer (config w) with
    | true, Some sender =>
        if node_up (surroundings w) then
          match Registry.issueCertificate
                  (Registry.mkEnv sender (timestamp_of (surroundings w) (mined w)))
                  h ipfsCID (chain w) with
          | Registry.Revert why =>
              (Thrown ("Failed to issue certificate: " +:+ revert_message why),
               noted)
          | Registry.Done _ ledger _ =>
              (Returned (receipt_of (surroundings w) (mined w)),
               with_chain ledger noted)
          end
        else
          (Thrown ("Failed to issue certificate: " +:+ node_error (surroundings w)),
           noted)
    | _, _ => (Thrown "Contract not initialized or no signer available", w)
    end.
Proof.
  intros Hh noted. unfold issueCertificate, contract_issueCertificate.
  rewrite bind_gets.
  destruct (contract (config w)); [|reflexivity].
  destruct (signer (config w)) as [sender|] eqn:Hs; [|reflexivity].
  cbn [andb negb].
  rewrite try_catch_run, bind_note, bind_gets. w_simpl. rewrite Hs, Hh.
  rewrite bind_gets. w_simpl.
  destruct (node_up (surroundings w)); [|reflexivity].
  rewrite !bind_gets. w_simpl.
  destruct (Registry.issueCertificate _ _ _ _); reflexivity.
Qed.

(** The issuance route as the chain of its stages: each stage runs on the
    world the one before left, and the first that throws ends the request
    with 500 and its message. *)
Lemma route_issue_stages (req : Request) (w : World) :
  route_issue req w
  = if negb (web3Ready (config w))
    then (Returned (mkResponse 503 (ErrorBody "Web3 not initialized" None)), w)
    else
      match file req with
      | None =>
          (Returned (mkResponse 400 (ErrorBody "No certificate file provided" None)),
           w)
      | Some buffer =>
          if negb (truthy (studentName (body req)))
             || negb (truthy (courseName (body req)))
             || negb (truthy (institution (body req)))
          then
            (Returned
               (mkResponse 400 (ErrorBody "Missing required metadata fields" None)),
             w)
          else
            let failed message :=
              mkResponse 500 (ErrorBody "Failed to issue certificate" (Some message)) in
            let docHash := hashDocumentForBlockchain buffer in
            match encryptMetadata (metadata_json (body req))
                    (configured_key (config w))
                    (with_effects (effects w ++ [Hashed; Encrypted]) w) with
            | (Thrown message, w3) => (Returned (failed message), w3)
            | (Returned encryptedData, w3) =>
                match uploadToIPFS (blob_json encryptedData) w3 with
                | (Thrown message, w4) => (Returned (failed message), w4)
                | (Returned ipfsCID, w4) =>
                    match issueCertificate docHash ipfsCID w4 with
                    | (Thrown message, w5) => (Returned (failed message), w5)
                    | (Returned txReceipt, w5) =>
                        match
                          insertTransaction
                            {| tx_txHash := transactionHash txReceipt;
                               tx_docHash := docHash;
                               tx_ipfsCID := ipfsCID;
                               tx_issuer := signer (config w5);
                               tx_timestamp := Date_now (surroundings w5) / 1000;
                               tx_status := "confirmed";
                               tx_blockNumber := blockNumber txReceipt;
                               tx_gasUsed := gasUsed txReceipt |} w5
                        with
                        | (Thrown message, w6) => (Returned (failed message), w6)
                        | (Returned _, w6) =>
                            (Returned
                               (mkResponse 200
                                  (IssuedBody docHash ipfsCID
                                     (transactionHash txReceipt)
                                     (blockNumber txReceipt)
                                     (signer (config w5)))),
                             w6)
                        end
                    end
                end
            end
      end.
Proof.
  unfold route_issue. rewrite try_catch_run, bind_gets.
  destruct (web3Ready (config w)); [|reflexivity]. cbn [negb].
  destruct (file req) as [buffer|]; [|reflexivity].
  destruct (negb (truthy (studentName (body req)))
            || negb (truthy (courseName (body req)))
            || negb (truthy (institution (body req)))); [reflexivity|].
  rewrite bind_note, bind_gets, bind_note. w_simpl.
  rewrite <- app_assoc. cbn [app].
  change (with_effects (effects w ++ [Hashed; Encrypted])
            (with_effects (effects w ++ [Hashed]) w))
    with (with_effects (effects w ++ [Hashed; Encrypted]) w).
  rewrite bind_run.
  destruct (encryptMetadata _ _ _) as [[encryptedData|message] w3]; [|reflexivity].
  rewrite bind_run.
  destruct (uploadToIPFS _ _) as [[ipfsCID|message] w4]; [|reflexivity].
  rewrite bind_run.
  destruct (issueCertificate _ _ _) as [[txReceipt|message] w5]; [|reflexivity].
  unfold getSignerAddress. rewrite !bind_gets, bind_run.
  destruct (insertTransaction _ _) as [[id|message] w6]; reflexivity.
Qed.

End IssueStages.

Section Issue.
Context `{P : Platform}.

(** C9. Validation of the metadata comes first.  With the service ready
    and a file in the request: if one of [studentName], [courseName],
    [institution] is missing (undefined, or the empty string, which the
    source's test treats alike), the route answers 400 "Missing required
    metadata fields" and the world is exactly what it was: no fingerprint
    computed, nothing encrypted, no blob stored, no ledger call, no random
    bytes drawn.  If all three are there, validation passes and the
    pipeline proceeds: the answer and the world are those of the stages run
    one after the other on the world the one before left: [encryptMetadata]
    of the metadata under the configured key, [uploadToIPFS] of the blob it
    gave, [issueCertificate] of the fingerprint of the file and the
    reference the upload gave, [insertTransaction] of the row of the
    receipt; the first stage that throws ends the request with 500 and its
    message, and when none does the answer is 200 with the fingerprint,
    the reference and the receipt.  The answer is then never a 400, and
    hashing and encryption are the first two steps taken. *)
Theorem issue_validates_metadata_first
  (req : Request) (w : World) (buffer : list byte) :
  web3Ready (config w) = true ->
  file req = Some buffer ->
  let m := body req in
  let present :=
    truthy (studentName m) && truthy (courseName m) && truthy (institution m) in
  if present then
    route_issue req w
    = (let failed message :=
         mkResponse 500 (ErrorBody "Failed to issue certificate" (Some message)) in
       let docHash := hashDocumentForBlockchain buffer in
       match encryptMetadata (metadata_json m) (configured_key (config w))
               (with_effects (effects w ++ [Hashed; Encrypted]) w) with
       | (Thrown message, w3) => (Returned (failed message), w3)
       | (Returned encryptedData, w3) =>
           match uploadToIPFS (blob_json encryptedData) w3 with
           | (Thrown message, w4) => (Returned (failed message), w4)
           | (Returned ipfsCID, w4) =>
               match issueCertificate docHash ipfsCID w4 with
               | (Thrown message, w5) => (Returned (failed message), w5)
               | (Returned txReceipt, w5) =>
                   match
                     insertTransaction
                       {| tx_txHash := transactionHash txReceipt;
                          tx_docHash := docHash;
                          tx_ipfsCID := ipfsCID;
                          tx_issuer := signer (config w5);
                          tx_timestamp := Date_now (surroundings w5) / 1000;
                          tx_status := "confirmed";
                          tx_blockNumber := blockNumber txReceipt;
                          tx_gasUsed := gasUsed txReceipt |} w5
                   with
                   | (Thrown message, w6) => (Returned (failed message), w6)
                   | (Returned _, w6) =>
                       (Returned
                          (mkResponse 200
                             (IssuedBody docHash ipfsCID
                                (transactionHash txReceipt)
                                (blockNumber txReceipt)
                                (signer (config w5)))),
                        w6)
                   end
               end
           end
       end)
    /\ exists response more,
         fst (route_issue req w) = Returned response
         /\ status response <> 400%nat
         /\ effects (snd (route_issue req w))
            = (effects w ++ Hashed :: Encrypted :: more)%list
  else
    route_issue req w
    = (Returned (mkResponse 400 (ErrorBody "Missing required metadata fields" None)),
       w).
Proof.
  intros Hr Hf m present.
  pose proof (route_issue_stages req w) as Hrun.
  rewrite Hr, Hf in Hrun. cbn [negb] in Hrun. fold m in Hrun.
  replace (negb (truthy (studentName m)) || negb (truthy (courseName m))
           || negb (truthy (institution m))) with (negb present) in Hrun
    by (subst present; now rewrite !negb_andb).
  destruct present; cbn [negb] in Hrun; [|exact Hrun].
  split; [exact Hrun|].
  rewrite Hrun. cbv zeta.
  pose proof (grows_encryptMetadata (metadata_json m) (configured_key (config w))
                (with_effects (effects w ++ [Hashed; Encrypted]) w)) as [more1 H1].
  destruct (encryptMetadata _ _ _) as [[ed|message] w3]; cbn [snd] in H1.
  2:{ do 2 eexists. cbn [fst snd status]. split; [reflexivity|].
      split; [cbn [status]; lia|]. rewrite H1. w_simpl. now rewrite <- !app_assoc. }
  pose proof (grows_uploadToIPFS (blob_json ed) w3) as [more2 H2].
  destruct (uploadToIPFS _ _) as [[cid|message] w4]; cbn [snd] in H2.
  2:{ do 2 eexists. cbn [fst snd status]. split; [reflexivity|].
      split; [cbn [status]; lia|]. rewrite H2, H1. w_simpl. now rewrite <- !app_assoc. }
  pose proof (grows_issueCertificate (hashDocumentForBlockchain buffer) cid w4)
    as [more3 H3].
  destruct (issueCertificate _ _ _) as [[receipt|message] w5]; cbn [snd] in H3.
  2:{ do 2 eexists. cbn [fst snd status]. split; [reflexivity|].
      split; [cbn [status]; lia|]. rewrite H3, H2, H1. w_simpl. now rewrite <- !app_assoc. }
  match goal with
  | |- context [insertTransaction ?row w5] =>
      pose proof (grows_insertTransaction row w5) as [more4 H4];
      destruct (insertTransaction row w5) as [[id|message] w6]
  end; cbn [snd] in H4;
    do 2 eexists; cbn [fst snd status]; (split; [reflexivity|]);
    (split; [cbn [status]; lia|]); rewrite H4, H3, H2, H1; w_simpl; now rewrite <- !app_assoc.
Qed.

End Issue.

(** ** From issuance to verification *)

Lemma bind_returned {A B} (m : M A) (k : A -> M B) (w w' : World) (b : B) :
  bind m k w = (Returned b, w') ->
  exists a w1, m w = (Returned a, w1) /\ k a w1 = (Returned b, w').
Proof.
  rewrite bind_run. destruct (m w) as [[a|message] w1]; [|discriminate].
  intros H. now exists a, w1.
Qed.

Section RoundTrip.
Context `{P : Platform} `{!PlatformLaws P}.

Lemma retrieve_holds (w : World) (ref text : string) (v : json) :
  holds w ref text -> JSON_parse text = Some v ->
  fst (retrieveFromIPFS ref w) = Returned v.
Proof.
  unfold holds, retrieveFromIPFS, retrieveFromLocalStorage, ipfs_cat,
    fs_readFile, parse_or_throw.
  rewrite bind_gets.
  destruct (USE_IPFS (config w) && ipfsClient (config w)
            && negb (String.prefix "local-" ref));
    intros [Hup Hl] Hp;
    rewrite try_catch_run, bind_run, bind_note, bind_gets; w_simpl;
    rewrite Hup, bind_gets; w_simpl; rewrite Hl; unfold ret; cbn iota beta;
    rewrite Hp; reflexivity.
Qed.

Lemma local_name_prefix (a b : string) :
  String.prefix "local-" ("local-" +:+ a +:+ "-" +:+ b +:+ ".json") = true.
Proof.
  change (String.prefix EmptyString (a +:+ "-" +:+ b +:+ ".json") = true).
  now destruct (a +:+ _).
Qed.

(** What [saveToLocalStorage] leaves when it returns. *)
Lemma saveToLocalStorage_holds (data : json) (w w' : World) (ref : string) :
  saveToLocalStorage data w = (Returned ref, w') ->
  String.prefix "local-" ref = true
  /\ fs_up (surroundings w) = true
  /\ fs_files w' !! ref = Some (JSON_stringify data 2)
  /\ config w' = config w /\ surroundings w' = surroundings w
  /\ chain w' = chain w /\ mined w' = mined w
  /\ ipfs_blocks w' = ipfs_blocks w.
Proof.
  unfold saveToLocalStorage, fs_mkdir, fs_writeFile, random_suffix.
  m_unfold. cbn.
  destruct (fs_up (surroundings w)) eqn:Hf; cbn; rewrite ?Hf; cbn;
    [|discriminate].
  intros [= <- <-]. w_simpl.
  split; [apply local_name_prefix|].
  split; [reflexivity|].
  split; [apply lookup_insert_eq|].
  repeat split; reflexivity.
Qed.

(** What [uploadToIPFS] leaves when it returns: the blob can be retrieved
    under the reference it gave. *)
Lemma uploadToIPFS_holds (data : json) (w w' : World) (ref : string) :
  uploadToIPFS data w = (Returned ref, w') ->
  holds w' ref (JSON_stringify data 2)
  /\ config w' = config w /\ surroundings w' = surroundings w
  /\ chain w' = chain w /\ mined w' = mined w.
Proof.
  unfold uploadToIPFS. rewrite bind_gets.
  assert (Hlocal : forall w0,
            config w0 = config w -> surroundings w0 = surroundings w ->
            chain w0 = chain w -> mined w0 = mined w ->
            saveToLocalStorage data w0 = (Returned ref, w') ->
            holds w' ref (JSON_stringify data 2)
            /\ config w' = config w /\ surroundings w' = surroundings w
            /\ chain w' = chain w /\ mined w' = mined w).
  { intros w0 Hc Hs Hch Hm Hsave.
    destruct (saveToLocalStorage_holds _ _ _ _ Hsave)
      as (Hp & Hup & Hl & Hc' & Hs' & Hch' & Hm' & _).
    unfold holds. rewrite Hp, Hs', andb_false_r.
    repeat split; congruence. }
  destruct (USE_IPFS (config w) && ipfsClient (config w)) eqn:Huse.
  - rewrite bind_run, try_catch_run. unfold ipfs_add.
    rewrite bind_run, bind_note, bind_gets. w_simpl.
    destruct (ipfs_up (surroundings w)) eqn:Hup.
    + m_unfold. cbn -[saveToLocalStorage].
      intros [= <- <-]. unfold holds. w_simpl.
      rewrite Huse, ipfs_cid_not_local, Hup. cbn [negb andb].
      rewrite lookup_insert_eq. repeat split; reflexivity.
    + m_unfold. cbn -[saveToLocalStorage]. apply Hlocal; reflexivity.
  - rewrite bind_ret. apply Hlocal; reflexivity.
Qed.

(** What a successful ledger write leaves. *)
Lemma issueCertificate_run
  (docHash ipfsCID : string) (h : N) (w w' : World) (receipt : TxReceipt) :
  bytes32_of_hex docHash = Some h ->
  issueCertificate docHash ipfsCID w = (Returned receipt, w') ->
  config w' = config w /\ surroundings w' = surroundings w
  /\ ipfs_blocks w' = ipfs_blocks w /\ fs_files w' = fs_files w
  /\ contract (config w) = true /\ node_up (surroundings w) = true
  /\ exists sender,
       signer (config w) = Some sender
       /\ Registry.certificates_at (chain w') h
          = Registry.mkCertificate h ipfsCID sender
              (timestamp_of (surroundings w) (mined w)) true.
Proof.
  intros Hh. rewrite (issueCertificate_outcome docHash ipfsCID h w Hh).
  cbv zeta.
  destruct (contract (config w)) eqn:Hc; [|discriminate].
  destruct (signer (config w)) as [sender|] eqn:Hs; [|discriminate].
  destruct (node_up (surroundings w)) eqn:Hn; [|discriminate].
  rewrite RegistryProperties.issueCertificate_eq.
  cbn [Registry.msg_sender Registry.block_timestamp].
  repeat (match goal with
          | |- context [if ?b then Registry.Revert _ else _] => destruct b
          end; [discriminate|]).
  intros [= <- <-]. w_simpl.
  repeat split; try reflexivity.
  exists sender. split; [reflexivity|].
  unfold Registry.certificates_at, Registry.set_certificate. cbn.
  now rewrite lookup_insert_eq.
Qed.

Lemma insertTransaction_run (row : AuditEntry) (w w' : World) (id : N) :
  insertTransaction row w = (Returned id, w') ->
  config w' = config w /\ surroundings w' = surroundings w
  /\ ipfs_blocks w' = ipfs_blocks w /\ fs_files w' = fs_files w
  /\ chain w' = chain w.
Proof.
  rewrite insertTransaction_outcome. cbv zeta.
  destruct (db_up (surroundings w)); [|discriminate]. cbn [negb].
  destruct (tx_issuer row); [|discriminate].
  destruct (existsb _ _); [discriminate|].
  intros [= <- <-]. w_simpl.
  repeat split; reflexivity.
Qed.

End RoundTrip.

Section EndToEnd.
Context `{P : Platform} `{!PlatformLaws P}.

Lemma holds_transfer (w w' : World) (ref text : string) :
  config w' = config w -> surroundings w' = surroundings w ->
  ipfs_blocks w' = ipfs_blocks w -> fs_files w' = fs_files w ->
  holds w ref text -> holds w' ref text.
Proof. unfold holds. now intros -> -> -> ->. Qed.

Lemma encryptMetadata_run (data : json) (key : string) (w : World) :
  exists iv0,
    length iv0 = 16%nat
    /\ encryptMetadata data key w
       = (encryptMetadata_with iv0 data key,
          with_random_pos (random_pos w + 16) w).
Proof.
  eexists. split; [|reflexivity]. now rewrite length_map, length_seq.
Qed.

Lemma blob_json_parses (ed : EncryptedData) :
  JSON_parse (JSON_stringify (blob_json ed) 2) = Some (blob_json ed).
Proof.
  apply JSON_roundtrip. split; [|reflexivity]. cbn.
  repeat (apply NoDup_cons_2;
          [rewrite ?elem_of_cons, elem_of_nil; intuition discriminate|]).
  apply NoDup_nil_2.
Qed.

Lemma decryptBlob_blob_json (ed : EncryptedData) (key : string) :
  decryptBlob (blob_json ed) key = decryptMetadata (encrypted ed) (iv ed) key.
Proof. reflexivity. Qed.

(** C4, amended.  Metadata round-trips.  First the cipher: for every
    metadata record and key string and in every world (so for every
    initialization vector drawn), [encryptMetadata] returns, and
    [decryptMetadata], given its ciphertext and vector and the same key,
    returns the metadata.  Then the whole path: when the issuance route has
    answered 200 for a request and the block time of the issuance is a time
    a JavaScript [Date] can hold (at most 8 640 000 000 000 seconds),
    verifying the same file right after answers [valid: true] with the
    metadata of that request, the reference and the fingerprint the
    issuance returned; with a later block time it answers 500 "Invalid time
    value" and no metadata. *)
Theorem issued_metadata_round_trips :
  (forall (m : Metadata) (key : string) (w : World),
     exists ed w',
       encryptMetadata (metadata_json m) key w = (Returned ed, w')
       /\ decryptMetadata (encrypted ed) (iv ed) key = Returned (metadata_json m))
  /\ (forall (req : Request) (w w1 : World)
             (docHash cid txHash : string) (blockNo : N) (who : option N),
        route_issue req w
        = (Returned (mkResponse 200 (IssuedBody docHash cid txHash blockNo who)), w1) ->
        if N.leb (timestamp_of (surroundings w) (mined w) * 1000) 8640000000000000
        then
          exists view,
            fst (route_verify req w1) = Returned (mkResponse 200 (ValidBody view))
            /\ cv_metadata view = Some (metadata_json (body req))
            /\ cv_docHash view = docHash
            /\ cv_ipfsCID view = cid
            /\ Some (cv_issuer view) = who
        else
          fst (route_verify req w1)
          = Returned
              (mkResponse 500
                 (ErrorBody "Failed to verify certificate"
                    (Some "Invalid time value")))).
Proof.
  split.
  { intros m key w.
    destruct (encryptMetadata_run (metadata_json m) key w) as (iv0 & Hi & Hrun).
    pose proof (encryptMetadata_with_returns iv0 (metadata_json m) key Hi) as Hwith.
    rewrite Hwith in Hrun. do 2 eexists. split; [exact Hrun|].
    exact (decryptMetadata_encrypted iv0 (metadata_fields m) key _ Hi
             (metadata_fields_plain m) Hwith). }
  intros req w w1 docHash cid txHash blockNo who Hissue.
  unfold route_issue in Hissue.
  rewrite try_catch_run, bind_gets in Hissue.
  destruct (web3Ready (config w)) eqn:Hready; [|discriminate].
  destruct (file req) as [buffer|] eqn:Hfile; [|discriminate].
  cbn [negb] in Hissue.
  destruct (negb (truthy (studentName (body req)))
            || negb (truthy (courseName (body req)))
            || negb (truthy (institution (body req)))); [discriminate|].
  rewrite bind_note, bind_gets, bind_note in Hissue. w_simpl.
  match type of Hissue with
  | context [bind ?m ?k ?w2] =>
      destruct (bind m k w2) as [[response|message] wx] eqn:Hbody;
        [|discriminate]
  end.
  injection Hissue as -> ->.
  apply bind_returned in Hbody as (ed & w3 & Henc & Hbody).
  apply bind_returned in Hbody as (cid' & w4 & Hup & Hbody).
  apply bind_returned in Hbody as (receipt & w5 & Hsend & Hbody).
  apply bind_returned in Hbody as (who' & w5' & Hwho & Hbody).
  apply bind_returned in Hbody as (now & w5'' & Hnow & Hbody).
  apply bind_returned in Hbody as (id & w6 & Hins & Hbody).
  injection Hwho as <- <-. injection Hnow as <- <-.
  injection Hbody as <- <- <- <- <- <-.
  (* encryption *)
  match type of Henc with
  | encryptMetadata ?data ?key ?w2 = _ =>
      destruct (encryptMetadata_run data key w2) as (iv0 & Hiv & Henc')
  end.
  rewrite Henc' in Henc. injection Henc as Hed <-.
  (* storage, ledger write, audit row *)
  apply uploadToIPFS_holds in Hup as (Hholds & Hc4 & Hs4 & Hch4 & Hm4).
  apply (issueCertificate_run _ _ _ _ _ _ (fingerprint_is_bytes32 buffer))
    in Hsend as (Hc5 & Hs5 & Hb5 & Hf5 & Hcontract & Hnode & sender & Hsigner & Hcert).
  apply insertTransaction_run in Hins as (Hc6 & Hs6 & Hb6 & Hf6 & Hch6).
  w_simpl.
  (* verification on the world the issuance left *)
  assert (Hcfg : config w6 = config w) by congruence.
  assert (Hsur : surroundings w6 = surroundings w) by congruence.
  pose proof (route_verify_run req w6 buffer) as Hrun.
  rewrite Hcfg, Hsur, Hch6, Hcert in Hrun. cbn [Registry.exists_
    Registry.timestamp Registry.ipfsCID Registry.issuer] in Hrun.
  specialize (Hrun Hready).
  assert (Hcontract' : contract (config w) = true) by congruence.
  assert (Hnode' : node_up (surroundings w) = true) by congruence.
  specialize (Hrun Hcontract' Hnode' Hfile). cbv zeta in Hrun.
  unfold issuedDate_of in Hrun.
  rewrite Hs4, Hm4 in Hrun. w_simpl.
  destruct (N.leb (timestamp_of (surroundings w) (mined w) * 1000)
              8640000000000000); [|exact Hrun].
  eexists. split; [exact Hrun|]. cbn [cv_metadata cv_docHash cv_ipfsCID cv_issuer].
  split; [|split; [reflexivity|split; [reflexivity|congruence]]].
  match goal with
  | |- context [retrieveFromIPFS cid' ?w7] =>
      pose proof (retrieve_holds w7 cid' _ _
                    (holds_transfer w4 w7 _ _
                       ltac:(w_simpl; congruence) ltac:(w_simpl; congruence)
                       ltac:(w_simpl; congruence) ltac:(w_simpl; congruence)
                       Hholds)
                    (blob_json_parses ed)) as Hget;
      destruct (retrieveFromIPFS cid' w7) as [r w8]
  end.
  cbn [fst] in Hget. subst r.
  rewrite decryptBlob_blob_json.
  rewrite (decryptMetadata_encrypted iv0 (metadata_fields (body req)) _ ed Hiv
             (metadata_fields_plain _)); [reflexivity|].
  exact Hed.
Qed.

End EndToEnd.

End BackendProperties.

(* ================================================================= *)
(** * The sample platform meets the contracts; runs on the sample world *)
(* ================================================================= *)

Module SampleProperties.
Import Backend.
Import Sample.

(** ** The contracts hold of the sample platform *)

Lemma digest_length (m : list byte) : length (digest m) = 32%nat.
Proof.
  unfold digest. rewrite length_take, length_app, length_replicate. lia.
Qed.

Lemma unseal_seal (key iv pt : list byte) : unseal key iv (seal key iv pt) = Some pt.
Proof.
  unfold unseal, seal. rewrite take_app_length, drop_app_length.
  now rewrite decide_True.
Qed.

Lemma append_snoc (a : string) (c : ascii) (b : string) :
  (a +:+ String c EmptyString) +:+ b = a +:+ String c b.
Proof.
  induction a as [|x a IH]; [reflexivity|].
  change (String x ((a +:+ String c EmptyString) +:+ b) = String x (a +:+ String c b)).
  now f_equal.
Qed.

Lemma read_write_string (s rest : string) (key : option string) (cur : string)
    (acc : list (string * string)) :
  read_fields (write_string s rest) key cur acc
  = read_fields rest key (cur +:+ s) acc.
Proof.
  revert cur. induction s as [|c s IH]; intros cur.
  - cbn [write_string]. f_equal.
    induction cur as [|x cur IHc]; [reflexivity|].
    change (String x cur = String x (cur +:+ EmptyString)). now f_equal.
  - cbn [write_string read_fields]. cbn [Ascii.eqb Bool.eqb].
    rewrite IH. now rewrite append_snoc.
Qed.

Lemma read_write_fields (l : list (string * string)) (acc : list (string * string)) :
  read_fields (write_fields l) None EmptyString acc = Some (rev acc ++ l)%list.
Proof.
  revert acc. induction l as [|[k v] l IH]; intros acc.
  - cbn. now rewrite app_nil_r.
  - cbn [write_fields]. rewrite read_write_string.
    cbn [read_fields Ascii.eqb Bool.eqb]. rewrite read_write_string.
    cbn [read_fields Ascii.eqb Bool.eqb String.append].
    rewrite IH. cbn [rev]. now rewrite <- app_assoc.
Qed.

Lemma string_fields_record_of (fields : list (string * string)) :
  string_fields (map (fun kv => (fst kv, JString (snd kv))) fields) = fields.
Proof.
  induction fields as [|[k v] l IH]; [reflexivity|].
  cbn. unfold string_fields in IH. now rewrite IH.
Qed.

#[export] Instance platform_laws : PlatformLaws platform.
Proof.
  split.
  - exact digest_length.
  - intros key iv pt _ _. apply unseal_seal.
  - intros fields indent _. unfold record_of. cbn [JSON_parse JSON_stringify platform].
    unfold read_json, write_json.
    now rewrite string_fields_record_of, read_write_fields.
  - intros content. reflexivity.
Qed.

(** ** Evaluations *)

Example hex_of_bytes_example : hex_of_bytes [x50; x44; xff] = "5044ff".
Proof. reflexivity. Qed.

Example bytes_of_hex_upper_case : bytes_of_hex "5044FF" = [x50; x44; xff].
Proof. reflexivity. Qed.

Example bytes_of_hex_stops_at_bad_pair : bytes_of_hex "50zz44" = [x50].
Proof. reflexivity. Qed.

Example bytes_of_hex_drops_odd_digit : bytes_of_hex "504" = [x50].
Proof. reflexivity. Qed.

Example bytes32_of_hex_too_short : bytes32_of_hex "0x5044" = None.
Proof. reflexivity. Qed.

Example truthy_empty_string : truthy (Some EmptyString) = false.
Proof. reflexivity. Qed.

Example metadata_json_drops_undefined :
  metadata_json sample_metadata
  = JObject [("studentName", JString "Ada"); ("courseName", JString "Logic");
             ("institution", JString "UCL"); ("issueDate", JString "2024-01-01")].
Proof. reflexivity. Qed.

Example issuedDate_of_last_date :
  issuedDate_of 8640000000000 = Returned "8640000000000000".
Proof. vm_compute. reflexivity. Qed.

Example issuedDate_of_beyond_dates :
  issuedDate_of 8640000000001 = Thrown "Invalid time value".
Proof. vm_compute. reflexivity. Qed.

(** Before anything is issued the file is not found. *)
Example verify_before_issue :
  fst (route_verify sample_request sample_world)
  = Returned
      (mkResponse 200
         (NotFoundBody
            "0x5044460000000000000000000000000000000000000000000000000000000000")).
Proof. vm_compute. reflexivity. Qed.

(** Issuing the same file again is refused by the ledger. *)
Example issue_twice :
  match fst (route_issue sample_request issued_world) with
  | Returned response => status response
  | Thrown _ => 0%nat
  end = 500%nat.
Proof. vm_compute. reflexivity. Qed.

(** A required field sent empty is a missing field. *)
Example issue_with_empty_name :
  fst (route_issue
         {| file := Some sample_file;
            body := {| studentName := Some EmptyString;
                       courseName := Some "Logic";
                       institution := Some "UCL";
                       issueDate := None; grade := None;
                       additionalInfo := None |} |}
         sample_world)
  = Returned (mkResponse 400 (ErrorBody "Missing required metadata fields" None)).
Proof. vm_compute. reflexivity. Qed.

(** The steps of the sample issuance, in order. *)
Example issue_steps :
  map (fun e => match e with
                | Hashed => "hash" | Encrypted => "encrypt"
                | IpfsAdd _ => "ipfs.add" | IpfsCat _ => "ipfs.cat"
                | FsMkdir => "mkdir" | FsWriteFile _ _ => "writeFile"
                | FsReadFile _ => "readFile" | ChainSend _ _ => "send"
                | ChainCall _ => "call" | DbInsert _ => "insert"
                end) (effects issued_world)
  = ["hash"; "encrypt"; "ipfs.add"; "mkdir"; "writeFile"; "send"; "insert"].
Proof. vm_compute. reflexivity. Qed.

(** ** The routes on the sample world *)

Lemma sample_issue_answer :
  fst (route_issue sample_request sample_world)
  = Returned
      (mkResponse 200
         (IssuedBody
            "0x5044460000000000000000000000000000000000000000000000000000000000"
            "local-1700000000000-abc.json" "0xt0" 1 (Some 1%N))).
Proof. vm_compute. reflexivity. Qed.

Lemma sample_issue_run :
  route_issue sample_request sample_world
  = (Returned
       (mkResponse 200
          (IssuedBody
             "0x5044460000000000000000000000000000000000000000000000000000000000"
             "local-1700000000000-abc.json" "0xt0" 1 (Some 1%N))),
     issued_world).
Proof.
  unfold issued_world. rewrite <- sample_issue_answer.
  now destruct (route_issue sample_request sample_world).
Qed.

Lemma verify_validity_witness :
  fst (route_verify altered_request issued_world)
  = Returned (mkResponse 200 (NotFoundBody (hashDocumentForBlockchain altered_file)))
  /\ (exists view,
        fst (route_verify sample_request issued_world)
        = Returned (mkResponse 200 (ValidBody view))
        /\ cv_metadata view = Some (metadata_json sample_metadata))
  /\ fst (route_verify sample_request late_issued_world)
     = Returned
         (mkResponse 500
            (ErrorBody "Failed to verify certificate" (Some "Invalid time value"))).
Proof.
  assert (Hr' : web3Ready (config late_issued_world) = true)
    by (vm_compute; reflexivity).
  assert (Hc' : contract (config late_issued_world) = true)
    by (vm_compute; reflexivity).
  assert (Hn' : node_up (surroundings late_issued_world) = true)
    by (vm_compute; reflexivity).
  assert (Hr : web3Ready (config issued_world) = true) by (vm_compute; reflexivity).
  assert (Hc : contract (config issued_world) = true) by (vm_compute; reflexivity).
  assert (Hn : node_up (surroundings issued_world) = true) by (vm_compute; reflexivity).
  split.
  - destruct (BackendProperties.verify_validity_from_ledger
                altered_request issued_world altered_file Hr Hc Hn eq_refl)
      as (Habsent & _ & _).
    apply Habsent. vm_compute. reflexivity.
  - split.
    + destruct (BackendProperties.verify_validity_from_ledger
                  sample_request issued_world sample_file Hr Hc Hn eq_refl)
        as (_ & Hvalid & _).
      eexists. split.
      * apply Hvalid.
        -- vm_compute. reflexivity.
        -- apply N.leb_le. vm_compute. reflexivity.
      * vm_compute. reflexivity.
    + destruct (BackendProperties.verify_validity_from_ledger
                  sample_request late_issued_world sample_file Hr' Hc' Hn' eq_refl)
        as (_ & _ & Hlate).
      apply Hlate.
      * vm_compute. reflexivity.
      * vm_compute. reflexivity.
Defined.

(** On a ledger whose clock is past the last time a [Date] can hold, the
    sample file has an issued record and verifying it answers 500: no
    [valid: true]. *)
Lemma verify_late_record :
  web3Ready (config late_issued_world) = true
  /\ contract (config late_issued_world) = true
  /\ node_up (surroundings late_issued_world) = true
  /\ file sample_request = Some sample_file
  /\ Registry.exists_
       (Registry.certificates_at (chain late_issued_world)
          (N_of_bytes (sha256 sample_file))) = true
  /\ fst (route_verify sample_request late_issued_world)
     = Returned
         (mkResponse 500
            (ErrorBody "Failed to verify certificate" (Some "Invalid time value"))).
Proof. repeat split; vm_compute; reflexivity. Qed.

Lemma issued_metadata_round_trips_witness :
  exists view,
    fst (route_verify sample_request issued_world)
    = Returned (mkResponse 200 (ValidBody view))
    /\ cv_metadata view = Some (metadata_json sample_metadata)
    /\ cv_ipfsCID view = "local-1700000000000-abc.json".
Proof.
  assert (Htime : N.leb (timestamp_of (surroundings sample_world)
                           (mined sample_world) * 1000) 8640000000000000 = true)
    by (vm_compute; reflexivity).
  pose proof (proj2 BackendProperties.issued_metadata_round_trips
                sample_request sample_world issued_world _ _ _ _ _
                sample_issue_run) as Hverify.
  rewrite Htime in Hverify.
  destruct Hverify as (view & Hv & Hm & _ & Hc & _).
  exists view. repeat split; assumption.
Defined.

(** On that late ledger the sample request is issued, the route answering
    200, and verifying the same file right after answers 500: no metadata
    comes back. *)
Lemma issued_late_then_verify :
  fst (route_issue sample_request late_world)
  = Returned
      (mkResponse 200
         (IssuedBody
            "0x5044460000000000000000000000000000000000000000000000000000000000"
            "local-1700000000000-abc.json" "0xt0" 1 (Some 1%N)))
  /\ fst (route_verify sample_request (snd (route_issue sample_request late_world)))
     = Returned
         (mkResponse 500
            (ErrorBody "Failed to verify certificate" (Some "Invalid time value"))).
Proof. split; vm_compute; reflexivity. Qed.

Lemma upload_falls_back_witness :
  fst (uploadToIPFS (metadata_json sample_metadata) sample_world)
  = Returned "local-1700000000000-abc.json".
Proof.
  destruct (BackendProperties.upload_falls_back_to_local
              (metadata_json sample_metadata) sample_world
              eq_refl eq_refl eq_refl) as [_ Hlocal].
  change (fs_up (surroundings sample_world)) with true in Hlocal.
  destruct Hlocal as [Hret _]. rewrite Hret. vm_compute. reflexivity.
Defined.

Lemma issue_validates_witness :
  route_issue incomplete_request sample_world
  = (Returned (mkResponse 400 (ErrorBody "Missing required metadata fields" None)),
     sample_world)
  /\ exists more,
       effects (snd (route_issue sample_request sample_world))
       = (effects sample_world ++ Hashed :: Encrypted :: more)%list.
Proof.
  split.
  - exact (BackendProperties.issue_validates_metadata_first
             incomplete_request sample_world sample_file eq_refl eq_refl).
  - destruct (BackendProperties.issue_validates_metadata_first
                sample_request sample_world sample_file eq_refl eq_refl)
      as (_ & response & more & _ & _ & Heffects).
    exists more. exact Heffects.
Defined.

End SampleProperties.

(* ================================================================= *)
(** * Further properties of the registry contract *)
(* ================================================================= *)

Module RegistryExtras.
Import Registry.
Import Sample.
Import RegistryProperties.

(** ** Reading the remaining functions *)

Lemma transferOwnership_eq (e : Env) (a : address) (s : Storage) :
  transferOwnership e a s =
    if negb (N.eqb (owner s) (msg_sender e))
    then Revert (OwnableUnauthorizedAccount (msg_sender e))
    else if N.eqb a 0 then Revert (OwnableInvalidOwner 0)
    else Done tt (set_owner a s) [OwnershipTransferred (owner s) a].
Proof.
  unfold transferOwnership. tx_unfold.
  destruct (N.eqb (owner s) (msg_sender e)); simpl; [|reflexivity].
  destruct (N.eqb a 0); reflexivity.
Qed.

Lemma renounceOwnership_eq (e : Env) (s : Storage) :
  renounceOwnership e s =
    if negb (N.eqb (owner s) (msg_sender e))
    then Revert (OwnableUnauthorizedAccount (msg_sender e))
    else Done tt (set_owner 0 s) [OwnershipTransferred (owner s) 0].
Proof.
  unfold renounceOwnership. tx_unfold.
  destruct (N.eqb (owner s) (msg_sender e)); reflexivity.
Qed.

Lemma constructor_eq (e : Env) :
  constructor e empty_storage =
    if N.eqb (msg_sender e) 0 then Revert (OwnableInvalidOwner 0)
    else Done tt
           {| owner := msg_sender e;
              certificates := ∅;
              authorizedIssuers := <[msg_sender e := true]> ∅ |}
           [OwnershipTransferred 0 (msg_sender e);
            IssuerAdded (msg_sender e) (block_timestamp e)].
Proof.
  unfold constructor. tx_unfold.
  destruct (N.eqb (msg_sender e) 0); reflexivity.
Qed.

(** Unfold the call and split on every test it makes. *)
Ltac split_tests :=
  repeat match goal with
         | |- context [if ?b then _ else _] =>
             lazymatch type of b with
             | bool => let H := fresh "Htest" in destruct b eqn:H
             end
         end.

Ltac call_cases c :=
  destruct c; unfold execute;
  rewrite ?addAuthorizedIssuer_eq, ?removeAuthorizedIssuer_eq,
    ?issueCertificate_eq, ?transferOwnership_eq, ?renounceOwnership_eq;
  split_tests; cbn [finish fst snd verifyCertificate isAuthorizedIssuer
                    getCertificate].

(** ** Deployment *)

(** X1. Deployment by a non-zero account makes that account the owner
    and the one trusted writer and leaves the certificate table empty:
    every lookup reads the zero record, and the deployer can at once issue
    any certificate with a non-zero hash and a non-empty reference. *)
Theorem deploy_initial_state (e : Env) :
  msg_sender e <> 0 ->
  let s := deploy e in
  constructor e empty_storage
  = Done tt s [OwnershipTransferred 0 (msg_sender e);
               IssuerAdded (msg_sender e) (block_timestamp e)]
  /\ owner s = msg_sender e
  /\ (forall a, authorizedIssuers_at s a = true <-> a = msg_sender e)
  /\ (forall h, certificates_at s h = zeroCertificate)
  /\ (forall (h : bytes32) (cid : string) (now : uint256),
        h <> 0 -> cid <> EmptyString ->
        exists s',
          execute s (mkEnv (msg_sender e) now) (IssueCertificate h cid)
          = (s', Succeeded [CertificateIssued h cid (msg_sender e) now])).
Proof.
  intros Hsender s. subst s. unfold deploy. rewrite constructor_eq.
  apply N.eqb_neq in Hsender. rewrite Hsender. cbn [finish fst].
  split; [reflexivity|]. split; [reflexivity|].
  assert (Hauth : forall a,
            authorizedIssuers_at
              {| owner := msg_sender e; certificates := ∅;
                 authorizedIssuers := <[msg_sender e := true]> ∅ |} a = true
            <-> a = msg_sender e).
  { intros a. unfold authorizedIssuers_at. cbn.
    destruct (decide (msg_sender e = a)) as [<-|Hne].
    - rewrite lookup_insert_eq. cbn. tauto.
    - rewrite lookup_insert_ne, lookup_empty by assumption. cbn.
      split; [discriminate|congruence]. }
  split; [exact Hauth|].
  split.
  { intros h. unfold certificates_at. cbn. now rewrite lookup_empty. }
  intros h cid now Hh Hcid. rewrite execute_issue_eq, issueCertificate_eq.
  cbn [msg_sender block_timestamp].
  rewrite (proj2 (Hauth (msg_sender e)) eq_refl). cbn [negb].
  apply N.eqb_neq in Hh. rewrite Hh.
  destruct cid as [|c rest]; [contradiction|]. cbn [String.length Nat.eqb].
  unfold certificates_at. cbn [certificates]. rewrite lookup_empty. cbn.
  eexists. reflexivity.
Qed.

(** ** Granting and revoking *)

(** X2. The outcomes of [addAuthorizedIssuer], in the order of its
    checks: a caller who is not the owner is refused with
    [OwnableUnauthorizedAccount]; the owner is refused "Invalid issuer
    address" for the zero address and "Issuer already authorized" for a
    writer that is trusted already; otherwise the call succeeds with the one
    event [IssuerAdded], the identity reads as trusted, and the owner, the
    certificates and every other identity's flag are as before.  A refused
    call leaves the storage as it was. *)
Theorem add_issuer_outcomes (s : Storage) (e : Env) (a : address) :
  let call := AddAuthorizedIssuer a in
  (owner s <> msg_sender e ->
     execute s e call = (s, Reverted (OwnableUnauthorizedAccount (msg_sender e))))
  /\ (owner s = msg_sender e -> a = 0 ->
      execute s e call = (s, Reverted (Error "Invalid issuer address")))
  /\ (owner s = msg_sender e -> a <> 0 -> authorizedIssuers_at s a = true ->
      execute s e call = (s, Reverted (Error "Issuer already authorized")))
  /\ (owner s = msg_sender e -> a <> 0 -> authorizedIssuers_at s a = false ->
      exists s',
        execute s e call = (s', Succeeded [IssuerAdded a (block_timestamp e)])
        /\ authorizedIssuers_at s' a = true
        /\ (forall b, b <> a -> authorizedIssuers_at s' b = authorizedIssuers_at s b)
        /\ certificates s' = certificates s
        /\ owner s' = owner s).
Proof.
  intros call. subst call. unfold execute. rewrite addAuthorizedIssuer_eq.
  repeat split.
  - intros Ho. apply N.eqb_neq in Ho. now rewrite Ho.
  - intros -> ->. now rewrite N.eqb_refl.
  - intros -> Ha ->. apply N.eqb_neq in Ha. now rewrite N.eqb_refl, Ha.
  - intros Ho Ha Hu. apply N.eqb_neq in Ha.
    rewrite (proj2 (N.eqb_eq _ _) Ho), Ha, Hu.
    eexists. split; [reflexivity|].
    unfold authorizedIssuers_at, set_authorized. cbn.
    split; [now rewrite lookup_insert_eq|].
    split; [|split; reflexivity].
    intros b Hb. now rewrite lookup_insert_ne by congruence.
Qed.

(** X3. The refusals of [removeAuthorizedIssuer]: a caller who is not
    the owner gets [OwnableUnauthorizedAccount], and the owner gets "Issuer
    not authorized" for an identity that is not trusted, so revoking the
    same writer twice in a row fails the second time.  A successful
    revocation changes the flag of that one identity only; in particular the
    owner may revoke itself as a writer and remains the owner. *)
Theorem remove_issuer_outcomes (s : Storage) (e : Env) (a : address) :
  let call := RemoveAuthorizedIssuer a in
  (owner s <> msg_sender e ->
     execute s e call = (s, Reverted (OwnableUnauthorizedAccount (msg_sender e))))
  /\ (owner s = msg_sender e -> authorizedIssuers_at s a = false ->
      execute s e call = (s, Reverted (Error "Issuer not authorized")))
  /\ (owner s = msg_sender e -> authorizedIssuers_at s a = true ->
      exists s',
        execute s e call = (s', Succeeded [IssuerRemoved a (block_timestamp e)])
        /\ authorizedIssuers_at s' a = false
        /\ (forall b, b <> a -> authorizedIssuers_at s' b = authorizedIssuers_at s b)
        /\ owner s' = owner s
        /\ forall e', msg_sender e' = msg_sender e ->
             execute s' e' call = (s', Reverted (Error "Issuer not authorized"))).
Proof.
  intros call. subst call. unfold execute. rewrite removeAuthorizedIssuer_eq.
  repeat split.
  - intros Ho. apply N.eqb_neq in Ho. now rewrite Ho.
  - intros -> Hu. now rewrite N.eqb_refl, Hu.
  - intros Ho Ht. rewrite (proj2 (N.eqb_eq _ _) Ho), Ht.
    eexists. split; [reflexivity|].
    assert (Hoff : authorizedIssuers_at (set_authorized a false s) a = false).
    { unfold authorizedIssuers_at, set_authorized. cbn.
      now rewrite lookup_insert_eq. }
    split; [exact Hoff|].
    split.
    { intros b Hb. unfold authorizedIssuers_at, set_authorized. cbn.
      now rewrite lookup_insert_ne by congruence. }
    split; [reflexivity|].
    intros e' He'. rewrite removeAuthorizedIssuer_eq. cbn [owner set_authorized].
    now rewrite He', (proj2 (N.eqb_eq _ _) Ho), Hoff.
Qed.

(** X4. Nobody but the owner changes who is trusted or who owns
    the contract: whatever a caller other than the owner sends, the owner
    and the whole table of writer flags are afterwards what they were. *)
Theorem only_owner_changes_trust (s : Storage) (e : Env) (c : Call) :
  owner s <> msg_sender e ->
  owner (fst (execute s e c)) = owner s
  /\ authorizedIssuers (fst (execute s e c)) = authorizedIssuers s.
Proof.
  intros Ho. apply N.eqb_neq in Ho.
  call_cases c; try (split; reflexivity);
    rewrite Ho in *; discriminate.
Qed.

(** X5. Granting and then revoking undoes the grant: when the
    owner adds an identity that was not trusted and then removes it, both
    calls succeed and afterwards the owner, the certificates and the answer
    of [isAuthorizedIssuer] for every identity are what they were before
    the two calls. *)
Theorem grant_then_revoke (s : Storage) (e1 e2 : Env) (a : address) :
  owner s = msg_sender e1 -> owner s = msg_sender e2 ->
  a <> 0 -> authorizedIssuers_at s a = false ->
  let s1 := fst (execute s e1 (AddAuthorizedIssuer a)) in
  let s2 := fst (execute s1 e2 (RemoveAuthorizedIssuer a)) in
  snd (execute s e1 (AddAuthorizedIssuer a))
  = Succeeded [IssuerAdded a (block_timestamp e1)]
  /\ snd (execute s1 e2 (RemoveAuthorizedIssuer a))
     = Succeeded [IssuerRemoved a (block_timestamp e2)]
  /\ owner s2 = owner s
  /\ certificates s2 = certificates s
  /\ forall b, isAuthorizedIssuer b s2
               = Done (authorizedIssuers_at s b) s2 [].
Proof.
  intros Ho1 Ho2 Ha Hu s1 s2. subst s2 s1. unfold execute.
  rewrite addAuthorizedIssuer_eq. apply N.eqb_neq in Ha.
  rewrite (proj2 (N.eqb_eq _ _) Ho1), Ha, Hu. cbn [negb finish fst snd].
  rewrite removeAuthorizedIssuer_eq.
  change (owner (set_authorized a true s)) with (owner s).
  rewrite (proj2 (N.eqb_eq _ _) Ho2).
  assert (Hon : authorizedIssuers_at (set_authorized a true s) a = true).
  { unfold authorizedIssuers_at, set_authorized. cbn.
    now rewrite lookup_insert_eq. }
  rewrite Hon. cbn [negb finish fst snd].
  repeat split; try reflexivity.
  intros b. unfold isAuthorizedIssuer, sload. f_equal.
  unfold authorizedIssuers_at, set_authorized. cbn.
  destruct (decide (a = b)) as [<-|Hne].
  - rewrite lookup_insert_eq. cbn. symmetry. exact Hu.
  - now rewrite !lookup_insert_ne by assumption.
Qed.

(** ** Issuing and looking up *)

Lemma issue_succeeded (s s1 : Storage) (e : Env) (h : bytes32) (cid : string)
    (evs : list Event) :
  execute s e (IssueCertificate h cid) = (s1, Succeeded evs) ->
  authorizedIssuers_at s (msg_sender e) = true
  /\ h <> 0 /\ cid <> EmptyString
  /\ exists_ (certificates_at s h) = false
  /\ s1 = set_certificate h
            (mkCertificate h cid (msg_sender e) (block_timestamp e) true) s
  /\ evs = [CertificateIssued h cid (msg_sender e) (block_timestamp e)].
Proof.
  rewrite execute_issue_eq, issueCertificate_eq.
  destruct (authorizedIssuers_at s (msg_sender e)); [|discriminate].
  destruct (N.eqb_spec h 0) as [|Hh]; [discriminate|].
  destruct cid as [|c rest]; [discriminate|].
  destruct (exists_ (certificates_at s h)); [discriminate|].
  cbn. intros [= <- <-]. repeat split; try reflexivity; auto.
Qed.

(** X6. What is issued is what is looked up.  After a successful
    [issueCertificate] for a hash, [verifyCertificate] and [getCertificate]
    return for that hash the reference given, the caller as issuer and the
    block time as timestamp; for every other hash both return what they
    returned before, and [isAuthorizedIssuer] is unchanged for every
    identity. *)
Theorem issued_record_is_looked_up
  (s s1 : Storage) (e : Env) (h : bytes32) (cid : string) (evs : list Event) :
  execute s e (IssueCertificate h cid) = (s1, Succeeded evs) ->
  verifyCertificate h s1
  = Done (true, cid, msg_sender e, block_timestamp e) s1 []
  /\ getCertificate h s1
     = Done (mkCertificate h cid (msg_sender e) (block_timestamp e) true) s1 []
  /\ (forall h', h' <> h ->
        getCertificate h' s1 = Done (certificates_at s h') s1 []
        /\ exists r, verifyCertificate h' s = Done r s []
                     /\ verifyCertificate h' s1 = Done r s1 [])
  /\ (forall a, isAuthorizedIssuer a s1 = Done (authorizedIssuers_at s a) s1 []).
Proof.
  intros Hx. apply issue_succeeded in Hx as (_ & _ & _ & _ & -> & _).
  assert (Hat : forall h',
            certificates_at
              (set_certificate h
                 (mkCertificate h cid (msg_sender e) (block_timestamp e) true) s) h'
            = if decide (h = h')
              then mkCertificate h cid (msg_sender e) (block_timestamp e) true
              else certificates_at s h').
  { intros h'. unfold certificates_at, set_certificate. cbn.
    rewrite lookup_insert. destruct (decide (h = h')); reflexivity. }
  unfold verifyCertificate, getCertificate, isAuthorizedIssuer, bind, sload, ret.
  cbn [app]. rewrite !Hat, decide_True by reflexivity. cbn.
  repeat split; try reflexivity.
  - rewrite Hat, decide_False by congruence. reflexivity.
  - eexists. split; [reflexivity|].
    rewrite !Hat, decide_False by congruence. reflexivity.
Qed.

(** X7. Issuances of different hashes do not interfere: two
    issuances that can each be made in a storage can be made one after the
    other in either order, each with the event it has alone, and the
    storage at the end is the same in both orders. *)
Theorem issues_commute
  (s s1 s2 : Storage) (e1 e2 : Env) (h1 h2 : bytes32) (cid1 cid2 : string)
  (evs1 evs2 : list Event) :
  h1 <> h2 ->
  execute s e1 (IssueCertificate h1 cid1) = (s1, Succeeded evs1) ->
  execute s e2 (IssueCertificate h2 cid2) = (s2, Succeeded evs2) ->
  exists s12,
    execute s1 e2 (IssueCertificate h2 cid2) = (s12, Succeeded evs2)
    /\ execute s2 e1 (IssueCertificate h1 cid1) = (s12, Succeeded evs1).
Proof.
  intros Hne H1 H2.
  apply issue_succeeded in H1 as (Ht1 & Hh1 & Hc1 & Hf1 & -> & ->).
  apply issue_succeeded in H2 as (Ht2 & Hh2 & Hc2 & Hf2 & -> & ->).
  rewrite !execute_issue_eq, !issueCertificate_eq.
  change (authorizedIssuers_at (set_certificate ?h ?c s) ?a)
    with (authorizedIssuers_at s a).
  rewrite Ht1, Ht2.
  apply N.eqb_neq in Hh1, Hh2. rewrite Hh1, Hh2.
  destruct cid1 as [|c1 r1]; [contradiction|].
  destruct cid2 as [|c2 r2]; [contradiction|].
  cbn [negb String.length Nat.eqb].
  assert (Hother : forall h h' c, h <> h' ->
            certificates_at (set_certificate h c s) h' = certificates_at s h').
  { intros h h' c Hd. unfold certificates_at, set_certificate. cbn.
    now rewrite lookup_insert_ne. }
  rewrite !Hother, Hf1, Hf2 by congruence. cbn [finish].
  eexists. split; [reflexivity|].
  f_equal. unfold set_certificate. cbn. f_equal.
  apply insert_insert_ne. congruence.
Qed.

(** ** What every reachable storage satisfies *)

Lemma deploy_well_formed (e : Env) : well_formed (deploy e).
Proof.
  unfold deploy. rewrite constructor_eq.
  destruct (N.eqb_spec (msg_sender e) 0) as [Hz|Hz]; cbn [finish fst].
  - split; [reflexivity|]. intros h c. cbn. now rewrite lookup_empty.
  - split.
    + unfold authorizedIssuers_at. cbn. now rewrite lookup_insert_ne.
    + intros h c. cbn. now rewrite lookup_empty.
Qed.

Lemma execute_well_formed (s : Storage) (e : Env) (c : Call) :
  well_formed s -> well_formed (fst (execute s e c)).
Proof.
  intros [Hz Hrec].
  call_cases c; try (split; assumption).
  - (* a writer is added: not the zero address *)
    split; [|exact Hrec]. unfold authorizedIssuers_at, set_authorized. cbn.
    apply N.eqb_neq in Htest0. now rewrite lookup_insert_ne.
  - (* a writer is removed *)
    split; [|exact Hrec]. unfold authorizedIssuers_at, set_authorized. cbn.
    destruct (decide (_issuer = 0)) as [->|Hne].
    + now rewrite lookup_insert_eq.
    + now rewrite lookup_insert_ne.
  - (* a certificate is issued *)
    split; [exact Hz|]. intros h c. cbn.
    destruct (decide (_docHash = h)) as [<-|Hne].
    + rewrite lookup_insert_eq. intros [= <-]. cbn.
      apply negb_false_iff in Htest. apply N.eqb_neq in Htest0.
      repeat split; auto.
      * intros Hcid. rewrite Hcid in Htest1. discriminate.
      * intros Hs. rewrite Hs, Hz in Htest. discriminate.
    + rewrite lookup_insert_ne by assumption. apply Hrec.
Qed.

Lemma run_well_formed (calls : list (Env * Call)) :
  forall s, well_formed s -> well_formed (run s calls).
Proof.
  induction calls as [|[e c] rest IH]; intros s Hs; cbn; [assumption|].
  apply IH, execute_well_formed, Hs.
Qed.

(** X8. In every storage the deployed contract can reach, the
    zero address is not a trusted writer, and every certificate record is
    complete: it is stored under its own hash, which is not zero, its
    reference is not empty and its issuer is not the zero address.  So the
    presence flag says no more than the other fields do: a hash has a
    record exactly when its issuer is not zero, and exactly when its
    reference is not empty; and the zero hash never has one. *)
Theorem reachable_records_complete
  (e0 : Env) (calls : list (Env * Call)) (h : bytes32) :
  let s := run (deploy e0) calls in
  let c := certificates_at s h in
  authorizedIssuers_at s 0 = false
  /\ (exists_ c = true -> docHash c = h /\ h <> 0)
  /\ (exists_ c = true <-> issuer c <> 0)
  /\ (exists_ c = true <-> ipfsCID c <> EmptyString)
  /\ certificates_at s 0 = zeroCertificate.
Proof.
  intros s c.
  destruct (run_well_formed calls _ (deploy_well_formed e0)) as [Hz Hrec].
  fold s in Hz, Hrec.
  assert (Hzero : certificates_at s 0 = zeroCertificate).
  { unfold certificates_at.
    destruct (certificates s !! 0) as [c0|] eqn:H0; [|reflexivity].
    destruct (Hrec 0 c0 H0) as (_ & _ & Hne & _). now contradiction Hne. }
  split; [exact Hz|].
  subst c. unfold certificates_at in *.
  destruct (certificates s !! h) as [c|] eqn:Hc; cbn.
  - destruct (Hrec h c Hc) as (Hex & Hk & Hh & Hcid & Hiss).
    rewrite Hex. repeat split; auto.
  - repeat split; try discriminate; try congruence; auto.
Qed.

(** X9. The table holds one record for each issuance that succeeded
    and nothing else: after any history of calls on a deployed contract,
    the number of records is the number of [issueCertificate] calls of the
    history that did not revert. *)
Theorem records_count_issuances (e0 : Env) (calls : list (Env * Call)) :
  size (certificates (run (deploy e0) calls)) = issued_in (deploy e0) calls.
Proof.
  assert (Hgen : forall s, slots_issued s ->
            size (certificates (run s calls))
            = (size (certificates s) + issued_in s calls)%nat).
  { induction calls as [|[e c] rest IH]; intros s Hs; cbn [run issued_in].
    - lia.
    - rewrite IH
        by (eapply written_slots_issued; eauto using execute_written).
      assert (Hstep : size (certificates (fst (execute s e c)))
                      = (size (certificates s)
                         + match c, snd (execute s e c) with
                           | IssueCertificate _ _, Succeeded _ => 1
                           | _, _ => 0
                           end)%nat).
      { call_cases c; cbn; try lia.
        rewrite map_size_insert_None; [lia|].
        destruct (certificates s !! _docHash) as [c0|] eqn:Hc0; [|reflexivity].
        destruct (Hs _ _ Hc0) as [Hex _].
        unfold certificates_at in Htest2. rewrite Hc0 in Htest2. cbn in Htest2.
        congruence. }
      rewrite Hstep. destruct c; lia. }
  rewrite Hgen by apply deploy_slots_issued.
  replace (size (certificates (deploy e0))) with 0%nat; [reflexivity|].
  unfold deploy. rewrite constructor_eq.
  destruct (N.eqb (msg_sender e0) 0); cbn; now rewrite map_size_empty.
Qed.

(** ** The properties above on the sample storages *)

Ltac by_compute :=
  first [ reflexivity
        | vm_compute; reflexivity
        | let H := fresh in intros H; vm_compute in H; discriminate H ].

Lemma deploy_initial_state_witness :
  owner deployed = alice
  /\ (forall h, certificates_at deployed h = zeroCertificate).
Proof.
  destruct (deploy_initial_state (mkEnv alice 1000)) as (_ & Ho & _ & Hc & _).
  - by_compute.
  - split; [exact Ho|exact Hc].
Defined.

Lemma add_issuer_outcomes_witness :
  exists s',
    execute deployed (mkEnv alice 1001) (AddAuthorizedIssuer bob)
    = (s', Succeeded [IssuerAdded bob 1001])
    /\ authorizedIssuers_at s' bob = true.
Proof.
  destruct (add_issuer_outcomes deployed (mkEnv alice 1001) bob)
    as (_ & _ & _ & Hadd).
  destruct Hadd as (s' & Hrun & Hon & _); [by_compute..|].
  exists s'. split; assumption.
Defined.

Lemma remove_issuer_outcomes_witness :
  exists s',
    execute with_bob (mkEnv alice 1003) (RemoveAuthorizedIssuer bob)
    = (s', Succeeded [IssuerRemoved bob 1003])
    /\ execute s' (mkEnv alice 1004) (RemoveAuthorizedIssuer bob)
       = (s', Reverted (Error "Issuer not authorized")).
Proof.
  destruct (remove_issuer_outcomes with_bob (mkEnv alice 1003) bob)
    as (_ & _ & Hremove).
  destruct Hremove as (s' & Hrun & _ & _ & _ & Hagain); [by_compute..|].
  exists s'. split; [exact Hrun|]. apply Hagain. reflexivity.
Defined.

Lemma only_owner_changes_trust_witness :
  authorizedIssuers
    (fst (execute with_bob (mkEnv mallory 1003) (AddAuthorizedIssuer mallory)))
  = authorizedIssuers with_bob.
Proof.
  refine (proj2 (only_owner_changes_trust with_bob (mkEnv mallory 1003)
                   (AddAuthorizedIssuer mallory) _)).
  by_compute.
Defined.

Lemma grant_then_revoke_witness :
  isAuthorizedIssuer bob
    (fst (execute
            (fst (execute deployed (mkEnv alice 1001) (AddAuthorizedIssuer bob)))
            (mkEnv alice 1002) (RemoveAuthorizedIssuer bob)))
  = Done (authorizedIssuers_at deployed bob)
      (fst (execute
              (fst (execute deployed (mkEnv alice 1001) (AddAuthorizedIssuer bob)))
              (mkEnv alice 1002) (RemoveAuthorizedIssuer bob))) [].
Proof.
  refine (proj2 (proj2 (proj2 (proj2
            (grant_then_revoke deployed (mkEnv alice 1001) (mkEnv alice 1002) bob
               _ _ _ _)))) bob); by_compute.
Defined.

Lemma issued_record_is_looked_up_witness :
  verifyCertificate 7
    (fst (execute with_bob (mkEnv bob 1002) (IssueCertificate 7 "QmA")))
  = Done (true, "QmA", bob, 1002)
      (fst (execute with_bob (mkEnv bob 1002) (IssueCertificate 7 "QmA"))) [].
Proof.
  refine (proj1 (issued_record_is_looked_up with_bob _ (mkEnv bob 1002) 7 "QmA"
                   [CertificateIssued 7 "QmA" bob 1002] _)).
  by_compute.
Defined.

Lemma issues_commute_witness :
  exists s12,
    execute (fst (execute with_bob (mkEnv bob 1002) (IssueCertificate 7 "QmA")))
      (mkEnv alice 1003) (IssueCertificate 8 "QmB")
    = (s12, Succeeded [CertificateIssued 8 "QmB" alice 1003])
    /\ execute (fst (execute with_bob (mkEnv alice 1003) (IssueCertificate 8 "QmB")))
         (mkEnv bob 1002) (IssueCertificate 7 "QmA")
       = (s12, Succeeded [CertificateIssued 7 "QmA" bob 1002]).
Proof.
  refine (issues_commute with_bob _ _ (mkEnv bob 1002) (mkEnv alice 1003)
            7 8 "QmA" "QmB" _ _ _ _ _); by_compute.
Defined.

Lemma reachable_records_complete_witness :
  docHash
    (certificates_at
       (run deployed [(mkEnv alice 1001, IssueCertificate 7 "QmA")]) 7) = 7
  /\ 7 <> 0.
Proof.
  refine (proj1 (proj2
            (reachable_records_complete (mkEnv alice 1000)
               [(mkEnv alice 1001, IssueCertificate 7 "QmA")] 7)) _).
  by_compute.
Defined.

End RegistryExtras.

(* ================================================================= *)
(** * Further properties of the backend *)
(* ================================================================= *)

Module BackendExtras.
Import Backend.
Import Sample.
Import BackendProperties.
Import SampleProperties.

(** ** Bytes, numbers and their text *)

Lemma N_of_bytes_snoc (bs : list byte) (b : byte) :
  N_of_bytes (bs ++ [b]) = (256 * N_of_bytes bs + Byte.to_N b)%N.
Proof. unfold N_of_bytes. now rewrite fold_left_app. Qed.

Lemma byte_of_N_to_N (b : byte) : byte_of_N (Byte.to_N b) = b.
Proof. unfold byte_of_N. now rewrite Byte.of_to_N. Qed.

Lemma to_N_bound (b : byte) : (Byte.to_N b < 256)%N.
Proof. destruct b; reflexivity. Qed.

(** Laying out the value of a run of bytes gives the bytes back. *)
Lemma bytes_of_N_of_bytes (bs : list byte) :
  bytes_of_N (length bs) (N_of_bytes bs) = bs.
Proof.
  induction bs as [|b bs IH] using rev_ind; [reflexivity|].
  rewrite length_app, Nat.add_comm. cbn [length Nat.add bytes_of_N].
  rewrite N_of_bytes_snoc.
  pose proof (to_N_bound b) as Hb.
  replace ((256 * N_of_bytes bs + Byte.to_N b) / 256)%N with (N_of_bytes bs).
  2:{ symmetry. rewrite N.mul_comm, N.div_add_l by discriminate.
      rewrite N.div_small by exact Hb. lia. }
  replace ((256 * N_of_bytes bs + Byte.to_N b) mod 256)%N with (Byte.to_N b).
  2:{ symmetry. rewrite N.add_comm, N.mul_comm, N.Div0.mod_add.
      now apply N.mod_small. }
  now rewrite IH, byte_of_N_to_N.
Qed.

Lemma N_of_bytes_inj (a b : list byte) :
  length a = length b -> N_of_bytes a = N_of_bytes b -> a = b.
Proof.
  intros Hl Hn. rewrite <- (bytes_of_N_of_bytes a), <- (bytes_of_N_of_bytes b).
  now rewrite Hl, Hn.
Qed.

Lemma hex_of_bytes_inj (a b : list byte) : hex_of_bytes a = hex_of_bytes b -> a = b.
Proof.
  intros H. rewrite <- (bytes_of_hex_of_bytes a), <- (bytes_of_hex_of_bytes b).
  now rewrite H.
Qed.

Lemma bytes_of_hex_length (s : string) :
  (2 * length (bytes_of_hex s) <= String.length s)%nat.
Proof.
  remember (String.length s) as n eqn:Hn. revert s Hn.
  induction n as [n IH] using lt_wf_ind. intros s ->.
  destruct s as [|hi [|lo rest]]; cbn [bytes_of_hex length String.length]; try lia.
  destruct (hex_value hi), (hex_value lo); cbn [length]; try lia.
  specialize (IH (String.length rest) ltac:(cbn; lia) rest eq_refl). lia.
Qed.

Section Fingerprint.
Context `{P : Platform} `{!PlatformLaws P}.

Lemma hex_of_fingerprint (buffer : list byte) :
  hex_of_bytes32 (N_of_bytes (sha256 buffer)) = hashDocumentForBlockchain buffer.
Proof.
  unfold hex_of_bytes32, hashDocumentForBlockchain, hashDocument.
  rewrite <- (sha256_length buffer) at 1. now rewrite bytes_of_N_of_bytes.
Qed.

Lemma fingerprint_key_inj (a b : list byte) :
  N_of_bytes (sha256 a) = N_of_bytes (sha256 b) -> sha256 a = sha256 b.
Proof. apply N_of_bytes_inj. now rewrite !sha256_length. Qed.

(** X10. The fingerprint of a file is always a well-formed ledger
    key: [hashDocument] gives 64 hexadecimal digits, [hashDocumentForBlockchain]
    that text behind [0x], which the ledger client accepts as the [bytes32]
    whose bytes are the SHA-256 digest and prints back as the same text.
    Two files get the same fingerprint text, and the same ledger key,
    exactly when their digests are equal. *)
Theorem fingerprint_is_ledger_key (a b : list byte) :
  String.length (hashDocument a) = 64%nat
  /\ bytes_of_hex (hashDocument a) = sha256 a
  /\ bytes32_of_hex (hashDocumentForBlockchain a) = Some (N_of_bytes (sha256 a))
  /\ hex_of_bytes32 (N_of_bytes (sha256 a)) = hashDocumentForBlockchain a
  /\ (hashDocumentForBlockchain a = hashDocumentForBlockchain b
      <-> sha256 a = sha256 b)
  /\ (bytes32_of_hex (hashDocumentForBlockchain a)
      = bytes32_of_hex (hashDocumentForBlockchain b)
      <-> sha256 a = sha256 b).
Proof.
  split; [unfold hashDocument; now rewrite hex_of_bytes_length, sha256_length|].
  split; [apply bytes_of_hex_of_bytes|].
  split; [apply fingerprint_is_bytes32|].
  split; [apply hex_of_fingerprint|].
  split.
  - split.
    + unfold hashDocumentForBlockchain, hashDocument. intros [= H].
      now apply hex_of_bytes_inj.
    + unfold hashDocumentForBlockchain, hashDocument. now intros ->.
  - rewrite !fingerprint_is_bytes32. split.
    + intros [= H]. now apply fingerprint_key_inj.
    + now intros ->.
Qed.

End Fingerprint.

(** ** The cipher at its edges *)

Section CipherEdges.
Context `{P : Platform} `{!PlatformLaws P}.

(** X11. [encryptMetadata] always returns.  For every value and key
    string and in every world it draws exactly sixteen random bytes and
    changes nothing else; the object it returns carries the algorithm name
    [aes-256-cbc] and, as [iv], 32 hexadecimal digits that decode to the
    bytes drawn; and [decipher] gives back from it, under the same key
    string, the JSON text of the value. *)
Theorem encryptMetadata_always_returns (data : json) (key : string) (w : World) :
  let drawn :=
    map (fun i => random_bytes (surroundings w) (random_pos w + i)%nat) (seq 0 16) in
  exists ed,
    encryptMetadata data key w
    = (Returned ed, with_random_pos (random_pos w + 16) w)
    /\ algorithm ed = "aes-256-cbc"
    /\ String.length (iv ed) = 32%nat
    /\ bytes_of_hex (iv ed) = drawn
    /\ decipher (encrypted ed) (iv ed) key = Returned (JSON_stringify data 0).
Proof.
  intros drawn.
  assert (Hlen : length drawn = 16%nat)
    by (subst drawn; now rewrite length_map, length_seq).
  pose proof (encryptMetadata_with_returns drawn data key Hlen) as Hwith.
  eexists. split.
  { unfold encryptMetadata. rewrite bind_run.
    change (randomBytes 16 w)
      with (Returned drawn, with_random_pos (random_pos w + 16) w).
    unfold lift. rewrite Hwith. reflexivity. }
  cbn [algorithm iv encrypted].
  split; [reflexivity|].
  split; [now rewrite hex_of_bytes_length, Hlen|].
  split; [apply bytes_of_hex_of_bytes|].
  exact (decipher_encrypted drawn data key key _ Hlen eq_refl Hwith).
Qed.

(** X12. [decryptMetadata] refuses a vector that is not sixteen bytes:
    whatever the ciphertext and the key string, when the [iv] text does not
    decode to exactly sixteen bytes it throws "Invalid initialization
    vector", and so it does for every text of fewer than 32 characters, the
    empty one included.  Whenever it does return, the cipher has decrypted
    and the result is what [JSON.parse] made of the plaintext. *)
Theorem decryptMetadata_needs_sixteen_byte_iv
  (encryptedData ivHex key : string) :
  (length (bytes_of_hex ivHex) <> 16%nat ->
     decryptMetadata encryptedData ivHex key
     = Thrown "Invalid initialization vector")
  /\ ((String.length ivHex < 32)%nat ->
      decryptMetadata encryptedData ivHex key
      = Thrown "Invalid initialization vector")
  /\ (forall value,
        decryptMetadata encryptedData ivHex key = Returned value ->
        exists plaintext,
          aes256cbc_decrypt (sha256 (utf8_encode key)) (bytes_of_hex ivHex)
            (bytes_of_hex encryptedData) = Some plaintext
          /\ JSON_parse (utf8_decode plaintext) = Some value).
Proof.
  assert (Hbad : length (bytes_of_hex ivHex) <> 16%nat ->
                 decryptMetadata encryptedData ivHex key
                 = Thrown "Invalid initialization vector").
  { intros Hl. rewrite decryptMetadata_strings, decipher_strings.
    unfold check_key_iv. rewrite sha256_length. cbn [Nat.eqb negb].
    apply Nat.eqb_neq in Hl. now rewrite Hl. }
  split; [exact Hbad|].
  split.
  - intros Hshort. apply Hbad.
    pose proof (bytes_of_hex_length ivHex). lia.
  - intros value. rewrite decryptMetadata_strings, decipher_strings.
    destruct (check_key_iv _ _); [|discriminate].
    destruct (Nat.odd _); [discriminate|].
    destruct (aes256cbc_decrypt _ _ _) as [plaintext|]; [|discriminate].
    destruct (JSON_parse _) as [v|] eqn:Hparse; [|discriminate].
    intros [= <-]. now exists plaintext.
Qed.

(** X27. The key of the metadata cipher is the SHA-256 digest of the key
    string.  [encryptMetadata] takes a key string of any length, the empty
    one included, and makes no check of it: it always returns, and its
    ciphertext is the AES-256-CBC encryption, under the 32 bytes of the
    digest of the key string and the sixteen bytes drawn, of the JSON text
    of the data.  [decryptMetadata] of that ciphertext and vector under a
    second key string is decided by the cipher under the digest of the
    second string alone: it returns what [JSON.parse] makes of the
    plaintext the cipher gives, and throws when the cipher or the parser
    refuses.  So two key strings with the same digest are interchangeable:
    under the second, [decryptMetadata] returns the metadata record that
    was encrypted under the first. *)
Theorem metadata_key_is_digest (data : json) (k1 k2 : string) (w : World) :
  let drawn :=
    map (fun i => random_bytes (surroundings w) (random_pos w + i)%nat) (seq 0 16) in
  let ciphertext :=
    aes256cbc_encrypt (sha256 (utf8_encode k1)) drawn
      (utf8_encode (JSON_stringify data 0)) in
  exists ed,
    encryptMetadata data k1 w
    = (Returned ed, with_random_pos (random_pos w + 16) w)
    /\ length (sha256 (utf8_encode k1)) = 32%nat
    /\ encrypted ed = hex_of_bytes ciphertext
    /\ iv ed = hex_of_bytes drawn
    /\ decryptMetadata (encrypted ed) (iv ed) k2
       = match aes256cbc_decrypt (sha256 (utf8_encode k2)) drawn ciphertext with
         | Some plaintext =>
             match JSON_parse (utf8_decode plaintext) with
             | Some value => Returned value
             | None =>
                 Thrown (error_message (JSONSyntaxError (utf8_decode plaintext)))
             end
         | None =>
             Thrown (error_message
                       (DecryptFailed (sha256 (utf8_encode k2)) drawn ciphertext))
         end
    /\ (sha256 (utf8_encode k1) = sha256 (utf8_encode k2) ->
        decipher (encrypted ed) (iv ed) k2 = Returned (JSON_stringify data 0)
        /\ forall m : Metadata,
             data = metadata_json m ->
             decryptMetadata (encrypted ed) (iv ed) k2 = Returned data).
Proof.
  intros drawn ciphertext.
  assert (Hlen : length drawn = 16%nat)
    by (subst drawn; now rewrite length_map, length_seq).
  pose proof (encryptMetadata_with_returns drawn data k1 Hlen) as Hwith.
  eexists. split.
  { unfold encryptMetadata. rewrite bind_run.
    change (randomBytes 16 w)
      with (Returned drawn, with_random_pos (random_pos w + 16) w).
    unfold lift. rewrite Hwith. reflexivity. }
  cbn [encrypted iv]. fold ciphertext.
  split; [apply sha256_length|].
  split; [reflexivity|]. split; [reflexivity|].
  assert (Hdecipher :
    decipher (hex_of_bytes ciphertext) (hex_of_bytes drawn) k2
    = match aes256cbc_decrypt (sha256 (utf8_encode k2)) drawn ciphertext with
      | Some plaintext => Returned (utf8_decode plaintext)
      | None =>
          Thrown (error_message
                    (DecryptFailed (sha256 (utf8_encode k2)) drawn ciphertext))
      end).
  { rewrite decipher_strings.
    rewrite !bytes_of_hex_of_bytes, hex_of_bytes_even,
      check_key_iv_digest by exact Hlen.
    reflexivity. }
  split.
  { rewrite decryptMetadata_strings, Hdecipher.
    now destruct (aes256cbc_decrypt _ _ _). }
  intros Hk.
  assert (Hround :
    decipher (hex_of_bytes ciphertext) (hex_of_bytes drawn) k2
    = Returned (JSON_stringify data 0)).
  { rewrite Hdecipher. subst ciphertext.
    rewrite <- Hk, aes256cbc_roundtrip by (apply sha256_length || exact Hlen).
    now rewrite utf8_decode_encode. }
  split; [exact Hround|].
  intros m ->. rewrite decryptMetadata_strings, Hround.
  unfold metadata_json. rewrite JSON_roundtrip; [reflexivity|].
  apply metadata_fields_plain.
Qed.

End CipherEdges.

Section KeyGeneration.
Context `{P : Platform}.

(** X13. [generateEncryptionKey] returns 64 hexadecimal digits, the
    text of the 32 random bytes it draws, and it leaves the world as it was
    but for the bytes drawn; so a later [encryptMetadata] draws fresh bytes
    for its vector. *)
Theorem generateEncryptionKey_is_64_digits (w : World) :
  let drawn :=
    map (fun i => random_bytes (surroundings w) (random_pos w + i)%nat) (seq 0 32) in
  generateEncryptionKey w
  = (Returned (hex_of_bytes drawn), with_random_pos (random_pos w + 32) w)
  /\ String.length (hex_of_bytes drawn) = 64%nat
  /\ bytes_of_hex (hex_of_bytes drawn) = drawn.
Proof.
  intros drawn. split; [reflexivity|]. split.
  - subst drawn. now rewrite hex_of_bytes_length, length_map, length_seq.
  - apply bytes_of_hex_of_bytes.
Qed.

End KeyGeneration.

(** ** Computations that only read *)

Lemma only_noted_refl (w : World) : only_noted w w.
Proof. exists []. destruct w. cbn. now rewrite app_nil_r. Qed.

Lemma only_noted_trans (w1 w2 w3 : World) :
  only_noted w1 w2 -> only_noted w2 w3 -> only_noted w1 w3.
Proof.
  intros [m1 ->] [m2 ->]. exists (m1 ++ m2)%list. cbn. now rewrite app_assoc.
Qed.

Lemma only_noted_fields (w w' : World) :
  only_noted w w' ->
  config w' = config w /\ surroundings w' = surroundings w
  /\ chain w' = chain w /\ mined w' = mined w
  /\ ipfs_blocks w' = ipfs_blocks w /\ fs_files w' = fs_files w
  /\ transactions w' = transactions w /\ random_pos w' = random_pos w.
Proof. intros [more ->]. repeat split; reflexivity. Qed.

Lemma reads_only_ret {A} (a : A) : reads_only (ret a).
Proof. intros w. apply only_noted_refl. Qed.

Lemma reads_only_throw {A} (message : string) : reads_only (@throw A message).
Proof. intros w. apply only_noted_refl. Qed.

Lemma reads_only_throw_from {A} (message : World -> string) :
  reads_only (@throw_from A message).
Proof. intros w. apply only_noted_refl. Qed.

Lemma reads_only_gets {A} (f : World -> A) : reads_only (gets f).
Proof. intros w. apply only_noted_refl. Qed.

Lemma reads_only_lift {A} (r : Result A) : reads_only (lift r).
Proof. intros w. apply only_noted_refl. Qed.

Lemma reads_only_note (e : Effect) : reads_only (note e).
Proof. intros w. now exists [e]. Qed.

Lemma reads_only_bind {A B} (m : M A) (k : A -> M B) :
  reads_only m -> (forall a, reads_only (k a)) -> reads_only (bind m k).
Proof.
  intros Hm Hk w. rewrite bind_run. specialize (Hm w).
  destruct (m w) as [[a|message] w1]; cbn [snd] in *; [|exact Hm].
  eapply only_noted_trans; [exact Hm|apply Hk].
Qed.

Lemma reads_only_try_catch {A} (m : M A) (h : string -> M A) :
  reads_only m -> (forall message, reads_only (h message)) ->
  reads_only (try_catch m h).
Proof.
  intros Hm Hh w. rewrite try_catch_run. specialize (Hm w).
  destruct (m w) as [[a|message] w1]; cbn [snd] in *; [exact Hm|].
  eapply only_noted_trans; [exact Hm|apply Hh].
Qed.

Ltac reads_step :=
  match goal with
  | |- reads_only (bind _ _) => apply reads_only_bind; [|intros]
  | |- reads_only (try_catch _ _) => apply reads_only_try_catch; [|intros]
  | |- reads_only (ret _) => apply reads_only_ret
  | |- reads_only (throw _) => apply reads_only_throw
  | |- reads_only (throw_from _) => apply reads_only_throw_from
  | |- reads_only (gets _) => apply reads_only_gets
  | |- reads_only (lift _) => apply reads_only_lift
  | |- reads_only (note _) => apply reads_only_note
  | |- reads_only (fun w => ret _ w) => apply reads_only_ret
  | |- reads_only (if ?b then _ else _) => destruct b
  | |- reads_only (match ?x with _ => _ end) => destruct x
  | |- reads_only (let '(_, _) := ?x in _) => destruct x
  end.

Ltac reads_auto := repeat reads_step.

Section ReadsOnly.
Context `{P : Platform}.

Lemma reads_only_retrieveFromIPFS (cid : string) : reads_only (retrieveFromIPFS cid).
Proof.
  unfold retrieveFromIPFS, retrieveFromLocalStorage, ipfs_cat, fs_readFile,
    parse_or_throw.
  reads_auto.
Qed.

Lemma reads_only_verifyCertificate (docHash : string) :
  reads_only (verifyCertificate docHash).
Proof.
  unfold verifyCertificate, contract_verifyCertificate. reads_auto.
Qed.

Lemma reads_only_getCertificate (docHash : string) :
  reads_only (getCertificate docHash).
Proof.
  unfold getCertificate, contract_getCertificate. reads_auto.
Qed.

Lemma reads_only_isAuthorizedIssuer (a : address) :
  reads_only (isAuthorizedIssuer a).
Proof.
  unfold isAuthorizedIssuer, contract_isAuthorizedIssuer. reads_auto.
Qed.

Lemma reads_only_route_verify (req : Request) : reads_only (route_verify req).
Proof.
  unfold route_verify.
  pose proof reads_only_retrieveFromIPFS.
  pose proof reads_only_verifyCertificate.
  reads_auto; auto.
Qed.

Lemma reads_only_route_cert (hash : string) : reads_only (route_cert hash).
Proof.
  unfold route_cert.
  pose proof reads_only_retrieveFromIPFS.
  pose proof reads_only_getCertificate.
  reads_auto; auto.
Qed.

(** X14. The read paths write nothing.  [POST /verify],
    [GET /cert/:hash] and the functions under them ([verifyCertificate],
    [getCertificate], [isAuthorizedIssuer], [retrieveFromIPFS]) leave the
    ledger, both blob stores, the audit table, the configuration and the
    supply of random bytes exactly as they found them, whatever the request
    and whatever the answer, errors included. *)
Theorem read_paths_write_nothing (w : World) :
  (forall req, only_noted w (snd (route_verify req w)))
  /\ (forall hash, only_noted w (snd (route_cert hash w)))
  /\ (forall docHash, only_noted w (snd (verifyCertificate docHash w)))
  /\ (forall docHash, only_noted w (snd (getCertificate docHash w)))
  /\ (forall a, only_noted w (snd (isAuthorizedIssuer a w)))
  /\ (forall cid, only_noted w (snd (retrieveFromIPFS cid w)))
  /\ forall w', only_noted w w' ->
       chain w' = chain w /\ ipfs_blocks w' = ipfs_blocks w
       /\ fs_files w' = fs_files w /\ transactions w' = transactions w
       /\ config w' = config w /\ random_pos w' = random_pos w.
Proof.
  split; [intros; apply reads_only_route_verify|].
  split; [intros; apply reads_only_route_cert|].
  split; [intros; apply reads_only_verifyCertificate|].
  split; [intros; apply reads_only_getCertificate|].
  split; [intros; apply reads_only_isAuthorizedIssuer|].
  split; [intros; apply reads_only_retrieveFromIPFS|].
  intros w' Hw. apply only_noted_fields in Hw. tauto.
Qed.

End ReadsOnly.

(** ** The blob store: which backend, and what comes back *)

Section BlobStoreExtras.
Context `{P : Platform} `{!PlatformLaws P}.

(** The run of [saveToLocalStorage]. *)
Lemma saveToLocalStorage_run (data : json) (w : World) :
  let text := JSON_stringify data 2 in
  let filename :=
    "local-" +:+ pretty (Date_now (surroundings w)) +:+ "-"
      +:+ Math_random (surroundings w) (random_pos w) +:+ ".json" in
  saveToLocalStorage data w
  = if fs_up (surroundings w) then
      (Returned filename,
       with_fs_files (<[filename := text]> (fs_files w))
         (with_effects (effects w ++ [FsMkdir; FsWriteFile filename text])
            (with_random_pos (random_pos w + 1) w)))
    else
      (Thrown "Failed to save data to local storage",
       with_effects (effects w ++ [FsMkdir]) w).
Proof.
  intros text filename.
  unfold saveToLocalStorage, fs_mkdir, fs_writeFile, random_suffix.
  m_unfold. cbn.
  destruct (fs_up (surroundings w)) eqn:Hf; cbn; rewrite ?Hf; cbn;
    rewrite <- ?app_assoc; reflexivity.
Qed.

(** The run of [uploadToIPFS]. *)
Lemma uploadToIPFS_run (data : json) (w : World) :
  let text := JSON_stringify data 2 in
  uploadToIPFS data w
  = if USE_IPFS (config w) && ipfsClient (config w) then
      if ipfs_up (surroundings w) then
        (Returned (ipfs_cid text),
         with_ipfs_blocks (<[ipfs_cid text := text]> (ipfs_blocks w))
           (with_effects (effects w ++ [IpfsAdd text]) w))
      else saveToLocalStorage data (with_effects (effects w ++ [IpfsAdd text]) w)
    else saveToLocalStorage data w.
Proof.
  intros text. unfold uploadToIPFS. rewrite bind_gets.
  destruct (USE_IPFS (config w) && ipfsClient (config w)); [|reflexivity].
  rewrite bind_run, try_catch_run. unfold ipfs_add.
  rewrite bind_run, bind_note, bind_gets. w_simpl.
  destruct (ipfs_up (surroundings w)); reflexivity.
Qed.

(** Whatever [uploadToIPFS] answers, it leaves ledger, audit table and
    configuration alone. *)
Lemma uploadToIPFS_frame (data : json) (w : World) :
  let w' := snd (uploadToIPFS data w) in
  config w' = config w /\ surroundings w' = surroundings w
  /\ chain w' = chain w /\ mined w' = mined w
  /\ transactions w' = transactions w.
Proof.
  cbv zeta. rewrite uploadToIPFS_run.
  destruct (USE_IPFS (config w) && ipfsClient (config w));
    [destruct (ipfs_up (surroundings w))|];
    rewrite ?saveToLocalStorage_run; w_simpl;
    try destruct (fs_up (surroundings w)); w_simpl; repeat split; reflexivity.
Qed.

(** The run of [retrieveFromIPFS]. *)
Lemma retrieveFromIPFS_run (cid : string) (w : World) :
  let remote :=
    USE_IPFS (config w) && ipfsClient (config w)
    && negb (String.prefix "local-" cid) in
  let found :=
    if remote
    then (if ipfs_up (surroundings w) then ipfs_blocks w !! cid else None)
    else (if fs_up (surroundings w) then fs_files w !! cid else None) in
  retrieveFromIPFS cid w
  = (match found with
     | Some text =>
         match JSON_parse text with
         | Some value => Returned value
         | None =>
             Thrown (if remote then "Failed to retrieve data from IPFS"
                     else "Failed to retrieve data from local storage")
         end
     | None =>
         Thrown (if remote then "Failed to retrieve data from IPFS"
                 else "Failed to retrieve data from local storage")
     end,
     with_effects
       (effects w ++ [if remote then IpfsCat cid else FsReadFile cid]) w).
Proof.
  intros remote found. subst found remote.
  unfold retrieveFromIPFS, retrieveFromLocalStorage, ipfs_cat, fs_readFile,
    parse_or_throw.
  rewrite bind_gets.
  destruct (USE_IPFS (config w) && ipfsClient (config w)
            && negb (String.prefix "local-" cid));
    rewrite try_catch_run, bind_run, bind_note, bind_gets; w_simpl.
  - destruct (ipfs_up (surroundings w)); [|reflexivity].
    rewrite bind_gets. w_simpl.
    destruct (ipfs_blocks w !! cid) as [content|]; [|reflexivity].
    cbn. destruct (JSON_parse content); reflexivity.
  - destruct (fs_up (surroundings w)); [|reflexivity].
    rewrite bind_gets. w_simpl.
    destruct (fs_files w !! cid) as [content|]; [|reflexivity].
    cbn. destruct (JSON_parse content); reflexivity.
Qed.

(** What retrieval answers does not depend on the ghost record. *)
Lemma retrieveFromIPFS_noted (cid : string) (w w' : World) :
  only_noted w w' ->
  fst (retrieveFromIPFS cid w') = fst (retrieveFromIPFS cid w).
Proof. intros [more ->]. rewrite !retrieveFromIPFS_run. reflexivity. Qed.

(** X15. What [uploadToIPFS] has stored, [retrieveFromIPFS]
    gives back.  When the upload of an object of strings returns a
    reference, retrieving that reference right after returns the object;
    and the reference tells the backend: it is the content identifier of
    the text when the remote store took it, and a name starting with
    [local-] otherwise, which is how retrieval knows where to look. *)
Theorem stored_blob_is_retrieved
  (fields : list (string * string)) (w w' : World) (ref : string) :
  plain_names fields ->
  uploadToIPFS (record_of fields) w = (Returned ref, w') ->
  fst (retrieveFromIPFS ref w') = Returned (record_of fields)
  /\ (if USE_IPFS (config w) && ipfsClient (config w) && ipfs_up (surroundings w)
      then ref = ipfs_cid (JSON_stringify (record_of fields) 2)
           /\ String.prefix "local-" ref = false
      else String.prefix "local-" ref = true).
Proof.
  intros Hplain Hup. split.
  - apply uploadToIPFS_holds in Hup as (Hholds & _).
    eapply retrieve_holds; [exact Hholds|].
    now apply JSON_roundtrip.
  - rewrite uploadToIPFS_run in Hup.
    destruct (USE_IPFS (config w) && ipfsClient (config w)); cbn [andb].
    + destruct (ipfs_up (surroundings w)).
      * injection Hup as <- <-. split; [reflexivity|apply ipfs_cid_not_local].
      * rewrite saveToLocalStorage_run in Hup. w_simpl.
        destruct (fs_up (surroundings w)); [|discriminate].
        injection Hup as <- <-. apply local_name_prefix.
    + rewrite saveToLocalStorage_run in Hup.
      destruct (fs_up (surroundings w)); [|discriminate].
      injection Hup as <- <-. apply local_name_prefix.
Qed.

(** X16. [uploadToIPFS] writes to one store.  With the remote
    backend selected and answering, the blob goes to the remote store under
    its content identifier and the file system is not touched; in every
    other case the remote store is left as it was and the blob goes to one
    file, whose name is returned.  The call throws only when the file
    system is what it had to use and the file system fails, and the error
    is then the local one.  In no case does it touch the ledger or the
    audit table. *)
Theorem upload_writes_one_store (data : json) (w : World) :
  let text := JSON_stringify data 2 in
  let filename :=
    "local-" +:+ pretty (Date_now (surroundings w)) +:+ "-"
      +:+ Math_random (surroundings w) (random_pos w) +:+ ".json" in
  let remote := USE_IPFS (config w) && ipfsClient (config w) in
  let w' := snd (uploadToIPFS data w) in
  (if remote && ipfs_up (surroundings w) then
     fst (uploadToIPFS data w) = Returned (ipfs_cid text)
     /\ ipfs_blocks w' = <[ipfs_cid text := text]> (ipfs_blocks w)
     /\ fs_files w' = fs_files w
     /\ effects w' = (effects w ++ [IpfsAdd text])%list
   else if fs_up (surroundings w) then
     fst (uploadToIPFS data w) = Returned filename
     /\ ipfs_blocks w' = ipfs_blocks w
     /\ fs_files w' = <[filename := text]> (fs_files w)
     /\ effects w'
        = (effects w ++ (if remote then [IpfsAdd text] else [])
             ++ [FsMkdir; FsWriteFile filename text])%list
   else
     fst (uploadToIPFS data w) = Thrown "Failed to save data to local storage"
     /\ ipfs_blocks w' = ipfs_blocks w
     /\ fs_files w' = fs_files w
     /\ effects w'
        = (effects w ++ (if remote then [IpfsAdd text] else []) ++ [FsMkdir])%list)
  /\ chain w' = chain w /\ transactions w' = transactions w
  /\ config w' = config w.
Proof.
  intros text filename remote w'.
  split; [|pose proof (uploadToIPFS_frame data w) as Hf; cbv zeta in Hf;
           subst w'; tauto].
  subst w' remote. rewrite uploadToIPFS_run.
  destruct (USE_IPFS (config w) && ipfsClient (config w)); cbn [andb].
  - destruct (ipfs_up (surroundings w)).
    + w_simpl. repeat split; reflexivity.
    + rewrite saveToLocalStorage_run. w_simpl.
      destruct (fs_up (surroundings w)); w_simpl;
        rewrite <- ?app_assoc; repeat split; reflexivity.
  - rewrite saveToLocalStorage_run.
    destruct (fs_up (surroundings w)); w_simpl; repeat split; reflexivity.
Qed.

(** X17. Retrieval looks in one place and never falls back.  A
    reference is looked up in the remote store when the remote backend is
    selected and the reference does not start with [local-], and in the
    files otherwise; the other store is not consulted, whatever it holds.
    A store that fails, a reference it does not have and a text that is
    not JSON all end in the same error, one fixed message per store. *)
Theorem retrieval_looks_in_one_store (cid : string) (w : World) :
  let remote :=
    USE_IPFS (config w) && ipfsClient (config w)
    && negb (String.prefix "local-" cid) in
  (forall value, fst (retrieveFromIPFS cid w) = Returned value <->
     exists text,
       JSON_parse text = Some value
       /\ if remote
          then ipfs_up (surroundings w) = true /\ ipfs_blocks w !! cid = Some text
          else fs_up (surroundings w) = true /\ fs_files w !! cid = Some text)
  /\ (forall message, fst (retrieveFromIPFS cid w) = Thrown message ->
        message = if remote then "Failed to retrieve data from IPFS"
                  else "Failed to retrieve data from local storage")
  /\ effects (snd (retrieveFromIPFS cid w))
     = (effects w ++ [if remote then IpfsCat cid else FsReadFile cid])%list.
Proof.
  intros remote. pose proof (retrieveFromIPFS_run cid w) as Hrun.
  cbv zeta in Hrun. fold remote in Hrun. rewrite Hrun. cbn [fst snd].
  split; [|split].
  - intros value. split.
    + destruct remote.
      * destruct (ipfs_up (surroundings w)); [|discriminate].
        destruct (ipfs_blocks w !! cid) as [text|]; [|discriminate].
        destruct (JSON_parse text) as [v|] eqn:Hp; [|discriminate].
        intros [= <-]. now exists text.
      * destruct (fs_up (surroundings w)); [|discriminate].
        destruct (fs_files w !! cid) as [text|]; [|discriminate].
        destruct (JSON_parse text) as [v|] eqn:Hp; [|discriminate].
        intros [= <-]. now exists text.
    + intros (text & Hp & Hst). destruct remote; destruct Hst as [-> ->];
        now rewrite Hp.
  - intros message.
    destruct remote;
      [destruct (ipfs_up (surroundings w)); [destruct (ipfs_blocks w !! cid) as [text|]|]
      |destruct (fs_up (surroundings w)); [destruct (fs_files w !! cid) as [text|]|]];
      try destruct (JSON_parse text); intros [= <-]; reflexivity.
  - reflexivity.
Qed.

End BlobStoreExtras.

(** ** The ledger reads of [web3.js] and the certificate route *)

Lemma hex_digit_not_x (n : N) : hex_digit n <> "x"%char.
Proof.
  unfold hex_digit.
  repeat match goal with
         | |- context [match ?p with _ => _ end] => destruct p
         end; discriminate.
Qed.

Lemma hex_of_bytes_no_prefix (bs : list byte) :
  String.prefix "0x" (hex_of_bytes bs) = false.
Proof.
  destruct bs as [|b rest]; [reflexivity|].
  cbn [hex_of_bytes String.prefix].
  destruct (ascii_dec _ _); [|reflexivity].
  destruct (ascii_dec _ _) as [Hx|]; [|reflexivity].
  symmetry in Hx. now apply hex_digit_not_x in Hx.
Qed.

Section LedgerReads.
Context `{P : Platform} `{!PlatformLaws P}.

(** X18. [isAuthorizedIssuer] fails closed.  With a contract
    handle it never throws: it answers what the ledger says of the address
    when the node is reachable, and [false] when it is not, so that a
    caller cannot tell an unreachable ledger from an address that is not
    trusted.  Without a handle it throws before asking.  It changes
    nothing. *)
Theorem isAuthorizedIssuer_fails_closed (a : address) (w : World) :
  isAuthorizedIssuer a w
  = if contract (config w)
    then (Returned (node_up (surroundings w)
                    && Registry.authorizedIssuers_at (chain w) a), w)
    else (Thrown "Contract not initialized", w).
Proof.
  unfold isAuthorizedIssuer, contract_isAuthorizedIssuer.
  rewrite bind_gets. destruct (contract (config w)); [|reflexivity].
  cbn [negb]. rewrite try_catch_run, bind_gets.
  destruct (node_up (surroundings w)); reflexivity.
Qed.

(** What [getCertificate] answers when the node is reachable. *)
Lemma getCertificate_run (docHash : string) (h : N) (w : World) :
  contract (config w) = true ->
  node_up (surroundings w) = true ->
  bytes32_of_hex docHash = Some h ->
  let cert := Registry.certificates_at (chain w) h in
  getCertificate docHash w
  = (Returned {| cr_docHash := hex_of_bytes32 (Registry.docHash cert);
                 cr_ipfsCID := Registry.ipfsCID cert;
                 cr_issuer := Registry.issuer cert;
                 cr_timestamp := Registry.timestamp cert;
                 cr_exists := Registry.exists_ cert |},
     with_effects (effects w ++ [ChainCall docHash]) w).
Proof.
  intros Hc Hn Hh cert.
  unfold getCertificate, contract_getCertificate. m_unfold.
  rewrite Hc. cbn. rewrite Hh. cbn. rewrite Hn. reflexivity.
Qed.

(** The answer of the certificate route once the request reaches the
    ledger. *)
Lemma route_cert_run (hash : string) (h : N) (w : World) :
  web3Ready (config w) = true ->
  contract (config w) = true ->
  node_up (surroundings w) = true ->
  let formattedHash := if String.prefix "0x" hash then hash else "0x" +:+ hash in
  bytes32_of_hex formattedHash = Some h ->
  let cert := Registry.certificates_at (chain w) h in
  let metadata :=
    match retrieveFromIPFS (Registry.ipfsCID cert) w with
    | (Returned blob, _) =>
        match decryptBlob blob (configured_key (config w)) with
        | Returned value => Some value
        | Thrown _ => None
        end
    | (Thrown _, _) => None
    end in
  fst (route_cert hash w)
  = if Registry.exists_ cert then
      match issuedDate_of (Registry.timestamp cert) with
      | Returned issuedDate =>
          Returned
            (mkCertResponse 200
               (CertFound
                  {| cv_docHash := hex_of_bytes32 (Registry.docHash cert);
                     cv_issuer := Registry.issuer cert;
                     cv_timestamp := Registry.timestamp cert;
                     cv_ipfsCID := Registry.ipfsCID cert;
                     cv_metadata := metadata;
                     cv_issuedDate := issuedDate |}))
      | Thrown message =>
          Returned
            (mkCertResponse 500
               (CertError "Failed to get certificate" (Some message)))
      end
    else Returned (mkCertResponse 404 (CertNotFound formattedHash)).
Proof.
  intros Hr Hc Hn formattedHash Hh cert metadata.
  pose proof (eq_refl (route_cert hash w)) as Hrun.
  unfold route_cert at 2 in Hrun.
  rewrite try_catch_run, bind_gets, Hr in Hrun. cbn [negb] in Hrun.
  cbv zeta in Hrun. fold formattedHash in Hrun.
  rewrite Hrun. clear Hrun.
  rewrite bind_run.
  rewrite (getCertificate_run formattedHash h w Hc Hn Hh).
  fold cert. cbn [cr_exists cr_ipfsCID cr_issuer cr_timestamp cr_docHash].
  destruct (Registry.exists_ cert); [|reflexivity].
  cbn [negb]. rewrite bind_run, try_catch_run, bind_run.
  subst metadata.
  pose proof (retrieveFromIPFS_noted (Registry.ipfsCID cert) w
                (with_effects (effects w ++ [ChainCall formattedHash]) w)
                ltac:(now eexists)) as Hsame.
  destruct (retrieveFromIPFS_frame (Registry.ipfsCID cert)
              (with_effects (effects w ++ [ChainCall formattedHash]) w))
    as [more Hw].
  destruct (retrieveFromIPFS (Registry.ipfsCID cert)
              (with_effects (effects w ++ [ChainCall formattedHash]) w))
    as [[blob|msg] w2]; cbn [fst snd] in Hsame, Hw; subst w2;
    destruct (retrieveFromIPFS (Registry.ipfsCID cert) w) as [[blob'|msg'] w3];
    cbn [fst] in Hsame; try discriminate.
  - injection Hsame as ->.
    rewrite bind_gets, bind_lift. w_simpl.
    destruct (decryptBlob blob' (configured_key (config w))) as [value|msg];
      destruct (issuedDate_of (Registry.timestamp cert)); reflexivity.
  - destruct (issuedDate_of (Registry.timestamp cert)); reflexivity.
Qed.

(** X19. The two read routes agree.  With the service ready and
    the ledger node answering, on a ledger whose records sit under their
    own fingerprint (as every ledger the contract produces), asking
    [GET /cert/:hash] for the fingerprint of a file, written with or
    without [0x], gives what [POST /verify] gives for the file itself: 404
    where verification says [valid: false], the same certificate object
    (issuer, timestamp, reference, metadata, date) where it says
    [valid: true], and 500 with the same details where it fails. *)
Theorem cert_route_agrees_with_verify
  (req : Request) (w : World) (buffer : list byte) (hash : string) :
  web3Ready (config w) = true ->
  contract (config w) = true ->
  node_up (surroundings w) = true ->
  Registry.slots_issued (chain w) ->
  file req = Some buffer ->
  hash = hashDocument buffer \/ hash = hashDocumentForBlockchain buffer ->
  match fst (route_verify req w) with
  | Returned (mkResponse 200 (ValidBody view)) =>
      fst (route_cert hash w) = Returned (mkCertResponse 200 (CertFound view))
  | Returned (mkResponse 200 (NotFoundBody docHash)) =>
      fst (route_cert hash w) = Returned (mkCertResponse 404 (CertNotFound docHash))
  | Returned (mkResponse 500 (ErrorBody _ details)) =>
      fst (route_cert hash w)
      = Returned (mkCertResponse 500 (CertError "Failed to get certificate" details))
  | _ => False
  end.
Proof.
  intros Hr Hc Hn Hslots Hf Hhash.
  assert (Hfmt : (if String.prefix "0x" hash then hash else "0x" +:+ hash)
                 = hashDocumentForBlockchain buffer).
  { destruct Hhash as [-> | ->].
    - unfold hashDocument. now rewrite hex_of_bytes_no_prefix.
    - unfold hashDocumentForBlockchain.
      change (String.prefix "0x" ("0x" +:+ hashDocument buffer))
        with (String.prefix EmptyString (hashDocument buffer)).
      now destruct (hashDocument buffer). }
  pose proof (route_cert_run hash (N_of_bytes (sha256 buffer)) w Hr Hc Hn) as Hcert.
  cbv zeta in Hcert. rewrite Hfmt in Hcert.
  specialize (Hcert (fingerprint_is_bytes32 buffer)).
  rewrite (route_verify_run req w buffer Hr Hc Hn Hf), Hcert.
  set (cert := Registry.certificates_at (chain w) (N_of_bytes (sha256 buffer))).
  destruct (Registry.exists_ cert) eqn:Hex; [|reflexivity].
  assert (Hdoc : Registry.docHash cert = N_of_bytes (sha256 buffer)).
  { subst cert. unfold Registry.certificates_at in *.
    destruct (Registry.certificates (chain w) !! N_of_bytes (sha256 buffer))
      as [c|] eqn:Hl; [|discriminate].
    now destruct (Hslots _ _ Hl). }
  rewrite Hdoc, hex_of_fingerprint.
  pose proof (retrieveFromIPFS_noted (Registry.ipfsCID cert) w
                (with_effects
                   (effects w
                    ++ [Hashed; ChainCall (hashDocumentForBlockchain buffer)]) w)
                ltac:(now eexists)) as Hsame.
  destruct (retrieveFromIPFS (Registry.ipfsCID cert)
              (with_effects
                 (effects w
                  ++ [Hashed; ChainCall (hashDocumentForBlockchain buffer)]) w))
    as [[blob|msg] w2];
    destruct (retrieveFromIPFS (Registry.ipfsCID cert) w) as [[blob'|msg'] w3];
    cbn [fst] in Hsame; try discriminate;
    [injection Hsame as ->|];
    destruct (issuedDate_of (Registry.timestamp cert)); reflexivity.
Qed.

(** X20. The forms of a hash the certificate route takes.  A hash
    written without [0x] is answered as the same hash with it.  A hash that
    is not 64 hexadecimal digits (behind the [0x] the route makes sure of)
    is answered 500, not 400 or 404: the ledger client refuses the
    argument before any call reaches the ledger, and the route reports
    that as a failure of its own, its details being "Failed to get
    certificate: " and then the message the client gave for that
    argument. *)
Theorem cert_route_hash_forms (hash : string) (w : World) :
  (String.prefix "0x" hash = false ->
     route_cert hash w = route_cert ("0x" +:+ hash) w)
  /\ (web3Ready (config w) = true ->
      contract (config w) = true ->
      bytes32_of_hex (if String.prefix "0x" hash then hash else "0x" +:+ hash)
      = None ->
      fst (route_cert hash w)
      = Returned
          (mkCertResponse 500
             (CertError "Failed to get certificate"
                (Some
                   ("Failed to get certificate: "
                    +:+ error_message
                          (InvalidBytes32
                             (if String.prefix "0x" hash then hash
                              else "0x" +:+ hash))))))
      /\ only_noted w (snd (route_cert hash w))).
Proof.
  split.
  - intros Hp. unfold route_cert. cbv zeta. rewrite Hp.
    change (String.prefix "0x" ("0x" +:+ hash)) with (String.prefix EmptyString hash).
    now destruct hash.
  - intros Hr Hc Hbad. unfold route_cert. cbv zeta.
    rewrite try_catch_run, bind_gets, Hr. cbn [negb].
    rewrite bind_run. unfold getCertificate, contract_getCertificate.
    rewrite bind_gets, Hc. cbn [negb].
    rewrite try_catch_run, bind_run, bind_note, Hbad.
    cbn. split; [reflexivity|]. now eexists.
Qed.

End LedgerReads.

Section IssueOutcome.
Context `{P : Platform} `{!PlatformLaws P}.

Lemma certificates_at_set_eq (h : N) (c : Registry.Certificate) (s : Registry.Storage) :
  Registry.certificates_at (Registry.set_certificate h c s) h = c.
Proof.
  unfold Registry.certificates_at, Registry.set_certificate. cbn.
  now rewrite lookup_insert_eq.
Qed.

Lemma certificates_at_set_ne (h h' : N) (c : Registry.Certificate) (s : Registry.Storage) :
  h' <> h ->
  Registry.certificates_at (Registry.set_certificate h c s) h'
  = Registry.certificates_at s h'.
Proof.
  intros Hne. unfold Registry.certificates_at, Registry.set_certificate. cbn.
  now rewrite lookup_insert_ne by congruence.
Qed.

(** What a request to issue can leave behind: nothing on the ledger and no
    row; or one new record on the ledger, under the fingerprint of the
    file, with either no row and the answer 500 or the row of that record
    and the answer 200. *)
Lemma route_issue_outcome (req : Request) (w : World) :
  exists resp w1,
    route_issue req w = (Returned resp, w1)
    /\ config w1 = config w /\ surroundings w1 = surroundings w
    /\ ((chain w1 = chain w /\ transactions w1 = transactions w
         /\ status resp <> 200%nat
         /\ exists error details, payload resp = ErrorBody error details)
        \/ exists buffer cid sender,
             let h := N_of_bytes (sha256 buffer) in
             let receipt := receipt_of (surroundings w) (mined w) in
             let row :=
               {| tx_txHash := transactionHash receipt;
                  tx_docHash := hashDocumentForBlockchain buffer;
                  tx_ipfsCID := cid;
                  tx_issuer := Some sender;
                  tx_timestamp := Date_now (surroundings w) / 1000;
                  tx_status := "confirmed";
                  tx_blockNumber := blockNumber receipt;
                  tx_gasUsed := gasUsed receipt |} in
             file req = Some buffer
             /\ web3Ready (config w) = true
             /\ contract (config w) = true
             /\ node_up (surroundings w) = true
             /\ signer (config w) = Some sender
             /\ Registry.exists_ (Registry.certificates_at (chain w) h) = false
             /\ Registry.certificates_at (chain w1) h
                = Registry.mkCertificate h cid sender
                    (timestamp_of (surroundings w) (mined w)) true
             /\ (forall h', h' <> h ->
                   Registry.certificates_at (chain w1) h'
                   = Registry.certificates_at (chain w) h')
             /\ if db_up (surroundings w)
                   && negb (existsb
                              (fun r => String.eqb (tx_txHash r)
                                          (transactionHash receipt))
                              (transactions w))
                then
                  transactions w1 = (transactions w ++ [row])%list
                  /\ resp = mkResponse 200
                              (IssuedBody (hashDocumentForBlockchain buffer) cid
                                 (transactionHash receipt) (blockNumber receipt)
                                 (Some sender))
                else
                  transactions w1 = transactions w
                  /\ resp = mkResponse 500
                              (ErrorBody "Failed to issue certificate"
                                 (Some
                                    (if db_up (surroundings w)
                                     then error_message
                                            (ConstraintFailed (Unique "txHash"))
                                     else db_error (surroundings w))))).
Proof.
  rewrite route_issue_stages.
  destruct (web3Ready (config w)) eqn:Hready; cbn [negb].
  2:{ do 2 eexists. split; [reflexivity|]. do 2 (split; [reflexivity|]).
      left. cbn [status payload]. repeat split; try lia; now do 2 eexists. }
  destruct (file req) as [buffer|] eqn:Hfile.
  2:{ do 2 eexists. split; [reflexivity|]. do 2 (split; [reflexivity|]).
      left. cbn [status payload]. repeat split; try lia; now do 2 eexists. }
  destruct (negb (truthy (studentName (body req)))
            || negb (truthy (courseName (body req)))
            || negb (truthy (institution (body req)))).
  { do 2 eexists. split; [reflexivity|]. do 2 (split; [reflexivity|]).
    left. cbn [status payload]. repeat split; try lia; now do 2 eexists. }
  cbv zeta.
  destruct (encryptMetadata_run (metadata_json (body req))
              (configured_key (config w))
              (with_effects (effects w ++ [Hashed; Encrypted]) w))
    as (iv0 & _ & ->).
  destruct (encryptMetadata_with iv0 _ _) as [ed|message].
  2:{ do 2 eexists. split; [reflexivity|]. do 2 (split; [reflexivity|]).
      left. cbn [status payload]. repeat split; try lia; now do 2 eexists. }
  match goal with
  | |- context [uploadToIPFS ?d ?w3] =>
      pose proof (uploadToIPFS_frame d w3) as Hup; cbv zeta in Hup;
      destruct (uploadToIPFS d w3) as [[cid|message] w4]
  end; cbn [snd] in Hup; w_simpl;
    destruct Hup as (Hc4 & Hs4 & Hch4 & Hm4 & Ht4).
  2:{ do 2 eexists. split; [reflexivity|]. do 2 (split; [assumption|]).
      left. cbn [status payload]. repeat split; try assumption; try lia; now do 2 eexists. }
  rewrite (issueCertificate_outcome _ cid _ w4 (fingerprint_is_bytes32 buffer)).
  cbv zeta. rewrite Hc4, Hs4, Hch4, Hm4.
  destruct (contract (config w)) eqn:Hcontract.
  2:{ do 2 eexists. split; [reflexivity|]. do 2 (split; [assumption|]).
      left. cbn [status payload]. repeat split; try assumption; try lia; now do 2 eexists. }
  destruct (signer (config w)) as [sender|] eqn:Hsigner.
  2:{ do 2 eexists. split; [reflexivity|]. do 2 (split; [assumption|]).
      left. cbn [status payload]. repeat split; try assumption; try lia; now do 2 eexists. }
  destruct (node_up (surroundings w)) eqn:Hnode.
  2:{ do 2 eexists. split; [reflexivity|]. w_simpl.
      do 2 (split; [assumption|]).
      left. cbn [status payload]. repeat split; try assumption; try lia; now do 2 eexists. }
  rewrite RegistryProperties.issueCertificate_eq.
  cbn [Registry.msg_sender Registry.block_timestamp].
  destruct (negb (Registry.authorizedIssuers_at (chain w) sender)).
  { do 2 eexists. split; [reflexivity|]. w_simpl.
    do 2 (split; [assumption|]).
    left. cbn [status payload]. repeat split; try assumption; try lia; now do 2 eexists. }
  destruct (N.eqb (N_of_bytes (sha256 buffer)) 0).
  { do 2 eexists. split; [reflexivity|]. w_simpl.
    do 2 (split; [assumption|]).
    left. cbn [status payload]. repeat split; try assumption; try lia; now do 2 eexists. }
  destruct (Nat.eqb (String.length cid) 0).
  { do 2 eexists. split; [reflexivity|]. w_simpl.
    do 2 (split; [assumption|]).
    left. cbn [status payload]. repeat split; try assumption; try lia; now do 2 eexists. }
  destruct (Registry.exists_
              (Registry.certificates_at (chain w) (N_of_bytes (sha256 buffer))))
    eqn:Hex.
  { do 2 eexists. split; [reflexivity|]. w_simpl.
    do 2 (split; [assumption|]).
    left. cbn [status payload]. repeat split; try assumption; try lia; now do 2 eexists. }
  rewrite insertTransaction_outcome. cbv zeta. w_simpl.
  rewrite Hc4, Hs4, Ht4, Hsigner. cbn [tx_txHash tx_issuer].
  destruct (db_up (surroundings w)); cbn [negb andb];
    [destruct (existsb _ (transactions w)); cbn [negb]|];
    do 2 eexists; (split; [reflexivity|]); w_simpl;
    do 2 (split; [assumption|]);
    right; exists buffer, cid, sender; cbv zeta;
    (split; [reflexivity|]); (split; [reflexivity|]);
    (split; [reflexivity|]); (split; [reflexivity|]); (split; [reflexivity|]);
    (split; [exact Hex|]);
    (split; [apply certificates_at_set_eq|]);
    (split; [intros h' Hne; now apply certificates_at_set_ne|]).
  - split; [assumption|reflexivity].
  - split; reflexivity.
  - split; [assumption|reflexivity].
Qed.

End IssueOutcome.

(** ** The audit table against the ledger *)

Section Audit.
Context `{P : Platform} `{!PlatformLaws P}.

Lemma audit_sound_noted (w w' : World) :
  only_noted w w' -> audit_sound w -> audit_sound w'.
Proof. intros [more ->] Hs. exact Hs. Qed.

Lemma audit_sound_same (w w' : World) :
  chain w' = chain w -> transactions w' = transactions w ->
  audit_sound w -> audit_sound w'.
Proof.
  unfold audit_sound, mirror_consistent. intros -> ->. trivial.
Qed.

Lemma route_issue_keeps_sound (req : Request) (w : World) :
  audit_sound w -> audit_sound (snd (route_issue req w)).
Proof.
  intros [Hmirror Hnodup].
  destruct (route_issue_outcome req w)
    as (resp & w1 & -> & Hc & Hs & [(Hch & Ht & _) | Hnew]); cbn [snd].
  { now apply (audit_sound_same w). }
  destruct Hnew as (buffer & cid & sender & Hnew). cbv zeta in Hnew.
  destruct Hnew as (Hfile & _ & _ & _ & Hsigner & Habsent & Hrecord & Hothers & Hrows).
  set (h := N_of_bytes (sha256 buffer)) in *.
  (* the rows there were still stand for their records *)
  assert (Hold : forall row, In row (transactions w) ->
            exists h0,
              bytes32_of_hex (tx_docHash row) = Some h0
              /\ Registry.exists_ (Registry.certificates_at (chain w1) h0) = true
              /\ Registry.ipfsCID (Registry.certificates_at (chain w1) h0)
                 = tx_ipfsCID row
              /\ Some (Registry.issuer (Registry.certificates_at (chain w1) h0))
                 = tx_issuer row).
  { intros row Hin. destruct (Hmirror row Hin) as (h0 & Hh0 & Hex & Hrest).
    exists h0. split; [exact Hh0|].
    assert (Hne : h0 <> h) by (intros ->; congruence).
    now rewrite (Hothers h0 Hne). }
  destruct (db_up (surroundings w) && _); destruct Hrows as (Ht & _); split;
    unfold mirror_consistent; rewrite Ht.
  3: exact Hold.
  3: exact Hnodup.
  - intros row [Hin | Hin]%in_app_or; [now apply Hold|].
    destruct Hin as [<- | []]. cbn [tx_docHash tx_ipfsCID tx_issuer].
    exists h. split; [apply fingerprint_is_bytes32|].
    rewrite Hrecord. repeat split; reflexivity.
  - rewrite map_app. cbn [map tx_docHash].
    apply NoDup_app. split; [exact Hnodup|]. split.
    + intros d Hd Hd'. apply list_elem_of_singleton in Hd'. subst d.
      apply list_elem_of_In, in_map_iff in Hd as (row & Hrow & Hin).
      destruct (Hmirror row Hin) as (h0 & Hh0 & Hex & _).
      rewrite Hrow, fingerprint_is_bytes32 in Hh0. injection Hh0 as <-.
      fold h in Hex. congruence.
    + apply NoDup_singleton.
Qed.

Lemma serve_keeps_sound (w : World) (c : RouteCall) :
  audit_sound w -> audit_sound (serve w c).
Proof.
  destruct c as [req|req|hash]; cbn [serve].
  - apply route_issue_keeps_sound.
  - apply audit_sound_noted, reads_only_route_verify.
  - apply audit_sound_noted, reads_only_route_cert.
Qed.

Lemma serve_all_keeps_sound (calls : list RouteCall) :
  forall w, audit_sound w -> audit_sound (serve_all w calls).
Proof.
  unfold serve_all.
  induction calls as [|c rest IH]; intros w Hs; [exact Hs|].
  cbn [fold_left]. apply IH, serve_keeps_sound, Hs.
Qed.

Lemma count_distinct_NoDup {A} `{EqDecision A} (values : list A) :
  NoDup values -> count_distinct values = N.of_nat (length values).
Proof.
  intros Hn. unfold count_distinct.
  f_equal. apply Permutation_length, NoDup_Permutation.
  - apply NoDup_remove_dups.
  - exact Hn.
  - intros x. apply elem_of_remove_dups.
Qed.

Lemma count_distinct_le {A} `{EqDecision A} (values : list A) :
  (count_distinct values <= N.of_nat (length values))%N.
Proof.
  unfold count_distinct.
  assert (length (remove_dups values) <= length values)%nat; [|lia].
  apply submseteq_length, sublist_submseteq.
  induction values as [|x l IH]; cbn [remove_dups]; [constructor|].
  destruct (decide_rel elem_of x l).
  - now apply sublist_cons.
  - now apply sublist_skip.
Qed.

(** X21. The audit table never says more than the ledger.  A
    table is sound when every row stands for a record the ledger holds,
    with the row's reference and issuer, and no two rows name the same
    document.  Requests to the three routes, handled one after another,
    keep a sound table sound, whatever they carry and however they end:
    the only writer is the issuance route, which writes its row after the
    ledger has taken the record, and the ledger takes a fingerprint
    once. *)
Theorem requests_keep_audit_sound (w : World) (calls : list RouteCall) :
  audit_sound w ->
  audit_sound (serve_all w calls)
  /\ forall row, In row (transactions (serve_all w calls)) ->
       exists h,
         bytes32_of_hex (tx_docHash row) = Some h
         /\ Registry.exists_
              (Registry.certificates_at (chain (serve_all w calls)) h) = true.
Proof.
  intros Hs. pose proof (serve_all_keeps_sound calls w Hs) as Hs'.
  split; [exact Hs'|].
  intros row Hin. destruct Hs' as [Hmirror _].
  destruct (Hmirror row Hin) as (h & Hh & Hex & _). now exists h.
Qed.

Lemma omap_length_le {A B} (f : A -> option B) (l : list A) :
  (length (omap f l) <= length l)%nat.
Proof.
  induction l as [|x l IH]; cbn [omap list_omap length]; [lia|].
  destruct (f x); cbn [length]; lia.
Qed.

(** X22. What [getStats] counts.  On any table, sound or not: when the
    database answers, [getStats] returns and changes nothing, the number
    of transactions it reports is the number of rows, and the number of
    issuers and the number of certificates never exceed it; when the
    database fails, it throws the database's error and changes nothing.
    And after any requests served from a sound table, an empty one for
    instance, with the database answering, the number of certificates
    equals the number of transactions: every row is a different
    document. *)
Theorem getStats_counts (w : World) (calls : list RouteCall) :
  (if db_up (surroundings w)
   then
     exists stats,
       getStats w = (Returned stats, w)
       /\ totalTransactions stats = N.of_nat (length (transactions w))
       /\ (totalIssuers stats <= totalTransactions stats)%N
       /\ (totalCertificates stats <= totalTransactions stats)%N
   else getStats w = (Thrown (db_error (surroundings w)), w))
  /\ (audit_sound w ->
      db_up (surroundings w) = true ->
      let w' := serve_all w calls in
      exists stats,
        getStats w' = (Returned stats, w')
        /\ totalTransactions stats = N.of_nat (length (transactions w'))
        /\ totalCertificates stats = totalTransactions stats).
Proof.
  split.
  { unfold getStats. rewrite bind_gets.
    destruct (db_up (surroundings w)); [|reflexivity].
    rewrite bind_gets. eexists. split; [reflexivity|].
    cbn [totalTransactions totalCertificates totalIssuers].
    split; [reflexivity|]. split.
    - etransitivity; [apply count_distinct_le|].
      pose proof (omap_length_le tx_issuer (transactions w)). lia.
    - etransitivity; [apply count_distinct_le|].
      rewrite length_map. lia. }
  intros Hs Hdb w'.
  assert (Hsur : forall calls0 w0, surroundings (serve_all w0 calls0) = surroundings w0).
  { intros calls0. unfold serve_all.
    induction calls0 as [|c rest IH]; intros w0; [reflexivity|].
    cbn [fold_left]. rewrite IH.
    destruct c as [req|req|hash]; cbn [serve].
    - destruct (route_issue_outcome req w0) as (resp & w1 & -> & _ & Hsur & _).
      exact Hsur.
    - now destruct (reads_only_route_verify req w0) as [more ->].
    - now destruct (reads_only_route_cert hash w0) as [more ->]. }
  destruct (serve_all_keeps_sound calls w Hs) as [_ Hnodup]. fold w' in Hnodup.
  eexists. split.
  { unfold getStats. rewrite bind_gets. subst w'. rewrite Hsur, Hdb.
    rewrite bind_gets. reflexivity. }
  cbn [totalTransactions totalCertificates totalIssuers].
  split; [reflexivity|].
  rewrite count_distinct_NoDup by exact Hnodup. now rewrite length_map.
Qed.

End Audit.

(** ** What an issuance leaves, and what it answers *)

Section IssueExtras.
Context `{P : Platform} `{!PlatformLaws P}.

(** X23. The answer of the issuance route can be trusted.  The
    route never throws.  When it answers 200, the body is that of an
    issuance and tells what was written: the ledger, which had no record
    under the document hash of the body, now has one with the body's
    reference and issuer, and the audit table has gained exactly one row,
    with the fields of the body and the status [confirmed].  Every other
    answer carries another status and leaves the audit table as it was. *)
Theorem issue_answer_tells_what_was_written (req : Request) (w : World) :
  let w1 := snd (route_issue req w) in
  match fst (route_issue req w) with
  | Thrown _ => False
  | Returned (mkResponse code (IssuedBody docHash cid txHash blockNo who)) =>
      code = 200%nat
      /\ exists h sender,
           bytes32_of_hex docHash = Some h
           /\ who = Some sender
           /\ Registry.exists_ (Registry.certificates_at (chain w) h) = false
           /\ Registry.certificates_at (chain w1) h
              = Registry.mkCertificate h cid sender
                  (timestamp_of (surroundings w) (mined w)) true
           /\ transactions w1
              = (transactions w
                 ++ [{| tx_txHash := txHash;
                        tx_docHash := docHash;
                        tx_ipfsCID := cid;
                        tx_issuer := who;
                        tx_timestamp := Date_now (surroundings w) / 1000;
                        tx_status := "confirmed";
                        tx_blockNumber := blockNo;
                        tx_gasUsed := gasUsed (receipt_of (surroundings w) (mined w))
                     |}])%list
  | Returned (mkResponse code _) =>
      code <> 200%nat /\ transactions w1 = transactions w
  end.
Proof.
  intros w1. subst w1.
  destruct (route_issue_outcome req w)
    as (resp & w1 & -> & _ & _ & [(_ & Ht & Hcode & Hbody) | Hnew]);
    cbn [fst snd].
  { destruct resp as [code body]. cbn [status payload] in Hcode, Hbody.
    destruct Hbody as (error & details & ->). split; assumption. }
  destruct Hnew as (buffer & cid & sender & Hnew). cbv zeta in Hnew.
  destruct Hnew as (_ & _ & _ & _ & _ & Habsent & Hrecord & _ & Hrows).
  destruct (db_up (surroundings w) && _); destruct Hrows as (Ht & ->).
  2: now split; [lia|exact Ht].
  - split; [reflexivity|].
    exists (N_of_bytes (sha256 buffer)), sender.
    split; [apply fingerprint_is_bytes32|].
    repeat split; assumption.
Qed.

End IssueExtras.

(** ** Issuance when a later stage fails *)

Section IssueFaults.
Context `{P : Platform} `{!PlatformLaws P}.

Lemma local_name_not_empty (cid : string) :
  String.prefix "local-" cid = true -> Nat.eqb (String.length cid) 0 = false.
Proof. now destruct cid. Qed.

(** A request that passes the guards, with a file system that answers,
    gets as far as the ledger: the metadata is encrypted, the blob is
    stored and can be retrieved, and the rest of the route runs on the
    world the upload left. *)
Lemma route_issue_after_upload (req : Request) (w : World) (buffer : list byte) :
  web3Ready (config w) = true ->
  file req = Some buffer ->
  truthy (studentName (body req)) = true ->
  truthy (courseName (body req)) = true ->
  truthy (institution (body req)) = true ->
  fs_up (surroundings w) = true ->
  exists ed cid w4,
    decryptMetadata (encrypted ed) (iv ed) (configured_key (config w))
    = Returned (metadata_json (body req))
    /\ holds w4 cid (JSON_stringify (blob_json ed) 2)
    /\ (String.prefix "local-" cid = true
        \/ cid = ipfs_cid (JSON_stringify (blob_json ed) 2))
    /\ config w4 = config w /\ surroundings w4 = surroundings w
    /\ chain w4 = chain w /\ mined w4 = mined w
    /\ transactions w4 = transactions w
    /\ route_issue req w
       = let failed message :=
           mkResponse 500 (ErrorBody "Failed to issue certificate" (Some message)) in
         let docHash := hashDocumentForBlockchain buffer in
         match issueCertificate docHash cid w4 with
         | (Thrown message, w5) => (Returned (failed message), w5)
         | (Returned txReceipt, w5) =>
             match
               insertTransaction
                 {| tx_txHash := transactionHash txReceipt;
                    tx_docHash := docHash;
                    tx_ipfsCID := cid;
                    tx_issuer := signer (config w5);
                    tx_timestamp := Date_now (surroundings w5) / 1000;
                    tx_status := "confirmed";
                    tx_blockNumber := blockNumber txReceipt;
                    tx_gasUsed := gasUsed txReceipt |} w5
             with
             | (Thrown message, w6) => (Returned (failed message), w6)
             | (Returned _, w6) =>
                 (Returned
                    (mkResponse 200
                       (IssuedBody docHash cid (transactionHash txReceipt)
                          (blockNumber txReceipt) (signer (config w5)))),
                  w6)
             end
         end.
Proof.
  intros Hready Hfile Hn1 Hn2 Hn3 Hfs.
  rewrite route_issue_stages, Hready, Hfile, Hn1, Hn2, Hn3.
  cbn [negb orb]. cbv zeta.
  destruct (encryptMetadata_run (metadata_json (body req))
              (configured_key (config w))
              (with_effects (effects w ++ [Hashed; Encrypted]) w))
    as (iv0 & Hiv & ->).
  pose proof (encryptMetadata_with_returns iv0 (metadata_json (body req))
                (configured_key (config w)) Hiv) as Henc.
  rewrite Henc.
  match goal with
  | |- context [uploadToIPFS (blob_json ?e) ?w0] =>
      set (ed := e) in *; set (w3 := w0) in *
  end.
  pose proof (uploadToIPFS_frame (blob_json ed) w3) as Hframe.
  cbv zeta in Hframe.
  destruct (uploadToIPFS (blob_json ed) w3) as [[cid|message] w4] eqn:Hup.
  2:{ exfalso. subst w3. rewrite uploadToIPFS_run in Hup. cbv zeta in Hup.
      w_simpl.
      destruct (USE_IPFS (config w) && ipfsClient (config w));
        [destruct (ipfs_up (surroundings w)); [discriminate|]|];
        rewrite saveToLocalStorage_run in Hup; w_simpl;
        rewrite Hfs in Hup; discriminate. }
  cbn [snd] in Hframe. subst w3. w_simpl.
  destruct Hframe as (Hc4 & Hs4 & Hch4 & Hm4 & Ht4).
  exists ed, cid, w4.
  split.
  { exact (decryptMetadata_encrypted iv0 (metadata_fields (body req)) _ ed Hiv
             (metadata_fields_plain _) Henc). }
  split; [now apply uploadToIPFS_holds in Hup|].
  split.
  { rewrite uploadToIPFS_run in Hup. cbv zeta in Hup. w_simpl.
    destruct (USE_IPFS (config w) && ipfsClient (config w));
      [destruct (ipfs_up (surroundings w));
       [injection Hup as <- _; now right|]|];
      rewrite saveToLocalStorage_run in Hup; w_simpl;
      rewrite Hfs in Hup; injection Hup as <- _;
      left; apply local_name_prefix. }
  repeat (split; [assumption|]). reflexivity.
Qed.

(** For a file whose fingerprint has a record, the route changes neither
    ledger nor audit table and does not answer 200. *)
Lemma known_document_not_issued (req : Request) (w : World) (buffer : list byte) :
  file req = Some buffer ->
  Registry.exists_
    (Registry.certificates_at (chain w) (N_of_bytes (sha256 buffer))) = true ->
  (exists code error details,
     fst (route_issue req w) = Returned (mkResponse code (ErrorBody error details))
     /\ code <> 200%nat)
  /\ chain (snd (route_issue req w)) = chain w
  /\ transactions (snd (route_issue req w)) = transactions w.
Proof.
  intros Hfile Hex.
  destruct (route_issue_outcome req w)
    as (resp & w1 & -> & _ & _ & [(Hch & Ht & Hcode & Hbody) | Hnew]);
    cbn [fst snd].
  - destruct resp as [code body]. cbn [status payload] in Hcode, Hbody.
    destruct Hbody as (error & details & ->).
    split; [now exists code, error, details|]. now split.
  - destruct Hnew as (buffer' & cid & sender & Hnew). cbv zeta in Hnew.
    destruct Hnew as (Hfile' & _ & _ & _ & _ & Habsent & _).
    rewrite Hfile in Hfile'. injection Hfile' as <-. congruence.
Qed.

(** X24. A document the ledger already has is never issued again,
    and the request is refused late.  For a file whose fingerprint has a
    record, the route does not answer 200 and writes neither to the ledger
    nor to the audit table.  But the duplicate is found by the ledger, the
    last collaborator asked: when the request passes the guards and the
    file system answers, the answer is 500 and by then the encrypted
    metadata of the refused request has been stored, under a reference
    that retrieval resolves and that decrypts to the metadata sent. *)
Theorem duplicate_is_refused_after_storing
  (req : Request) (w : World) (buffer : list byte) :
  file req = Some buffer ->
  Registry.exists_
    (Registry.certificates_at (chain w) (N_of_bytes (sha256 buffer))) = true ->
  let w1 := snd (route_issue req w) in
  (exists code error details,
     fst (route_issue req w) = Returned (mkResponse code (ErrorBody error details))
     /\ code <> 200%nat)
  /\ chain w1 = chain w
  /\ transactions w1 = transactions w
  /\ (web3Ready (config w) = true ->
      truthy (studentName (body req)) = true ->
      truthy (courseName (body req)) = true ->
      truthy (institution (body req)) = true ->
      fs_up (surroundings w) = true ->
      exists message cid blob,
        fst (route_issue req w)
        = Returned
            (mkResponse 500
               (ErrorBody "Failed to issue certificate" (Some message)))
        /\ fst (retrieveFromIPFS cid w1) = Returned blob
        /\ decryptBlob blob (configured_key (config w))
           = Returned (metadata_json (body req))).
Proof.
  intros Hfile Hex w1.
  assert (Hnone : (exists code error details,
                     fst (route_issue req w)
                     = Returned (mkResponse code (ErrorBody error details))
                     /\ code <> 200%nat)
                  /\ chain w1 = chain w /\ transactions w1 = transactions w).
  { subst w1. now apply (known_document_not_issued req w buffer). }
  destruct Hnone as (Hanswer & Hchain & Hrows).
  repeat (split; [assumption|]).
  intros Hready Hn1 Hn2 Hn3 Hfs.
  destruct (route_issue_after_upload req w buffer Hready Hfile Hn1 Hn2 Hn3 Hfs)
    as (ed & cid & w4 & Hdec & Hholds & _ & Hc4 & Hs4 & Hch4 & Hm4 & Ht4 & Hrun).
  cbv zeta in Hrun.
  rewrite (issueCertificate_outcome _ cid _ w4 (fingerprint_is_bytes32 buffer))
    in Hrun.
  cbv zeta in Hrun. rewrite Hc4, Hs4, Hch4, Hm4 in Hrun.
  assert (Hstored : forall w5, only_noted w4 w5 ->
            fst (retrieveFromIPFS cid w5) = Returned (blob_json ed)).
  { intros w5 Hn. rewrite (retrieveFromIPFS_noted cid w4 w5 Hn).
    apply (retrieve_holds w4 cid _ _ Hholds), blob_json_parses. }
  assert (Hgoal : forall message w5,
            route_issue req w
            = (Returned
                 (mkResponse 500
                    (ErrorBody "Failed to issue certificate" (Some message))), w5) ->
            only_noted w4 w5 ->
            exists message cid blob,
              fst (route_issue req w)
              = Returned
                  (mkResponse 500
                     (ErrorBody "Failed to issue certificate" (Some message)))
              /\ fst (retrieveFromIPFS cid w1) = Returned blob
              /\ decryptBlob blob (configured_key (config w))
                 = Returned (metadata_json (body req))).
  { intros message w5 Heq Hn. exists message, cid, (blob_json ed).
    subst w1. rewrite Heq. cbn [fst snd].
    split; [reflexivity|]. split; [now apply Hstored|].
    now rewrite decryptBlob_blob_json. }
  destruct (contract (config w));
    [|eapply Hgoal; [exact Hrun|apply only_noted_refl]].
  destruct (signer (config w)) as [sender|];
    [|eapply Hgoal; [exact Hrun|apply only_noted_refl]].
  destruct (node_up (surroundings w));
    [|eapply Hgoal; [exact Hrun|now eexists]].
  rewrite RegistryProperties.issueCertificate_eq in Hrun.
  rewrite Hex in Hrun.
  repeat match type of Hrun with
         | context [if ?b then _ else _] => destruct b
         end;
    (eapply Hgoal; [exact Hrun|now eexists]).
Qed.

End IssueFaults.

Section IssueAndVerify.
Context `{P : Platform} `{!PlatformLaws P}.

(** X25. Issuance is not atomic: the ledger keeps what the audit
    table lost.  Take a request that the ledger accepts (guards passed,
    blob stored, signer trusted, fingerprint new and not zero) and let the
    insert into the audit table fail, because the database is down or the
    transaction hash is already in the table.  The route answers 500 with
    the database's message for that failure, and the table has no row; but
    the certificate is on the ledger: verifying the same file right after
    answers [valid: true] with the signer as issuer and the metadata of the
    request (or, when the block time of the issuance is past the last time
    a JavaScript [Date] can hold, 500 "Invalid time value"), and asking
    again to issue it is refused, so the missing row is never written. *)
Theorem ledger_keeps_what_the_mirror_lost
  (req : Request) (w : World) (buffer : list byte) (sender : address) :
  web3Ready (config w) = true ->
  file req = Some buffer ->
  truthy (studentName (body req)) = true ->
  truthy (courseName (body req)) = true ->
  truthy (institution (body req)) = true ->
  fs_up (surroundings w) = true ->
  contract (config w) = true ->
  signer (config w) = Some sender ->
  node_up (surroundings w) = true ->
  (forall content, ipfs_cid content <> EmptyString) ->
  Registry.authorizedIssuers_at (chain w) sender = true ->
  N_of_bytes (sha256 buffer) <> 0%N ->
  Registry.exists_
    (Registry.certificates_at (chain w) (N_of_bytes (sha256 buffer))) = false ->
  db_up (surroundings w)
  && negb (existsb
             (fun r => String.eqb (tx_txHash r)
                         (transactionHash (receipt_of (surroundings w) (mined w))))
             (transactions w)) = false ->
  let w1 := snd (route_issue req w) in
  fst (route_issue req w)
  = Returned
      (mkResponse 500
         (ErrorBody "Failed to issue certificate"
            (Some
               (if db_up (surroundings w)
                then error_message (ConstraintFailed (Unique "txHash"))
                else db_error (surroundings w)))))
  /\ transactions w1 = transactions w
  /\ (if N.leb (timestamp_of (surroundings w) (mined w) * 1000) 8640000000000000
      then
        exists view,
          fst (route_verify req w1) = Returned (mkResponse 200 (ValidBody view))
          /\ cv_issuer view = sender
          /\ cv_metadata view = Some (metadata_json (body req))
      else
        fst (route_verify req w1)
        = Returned
            (mkResponse 500
               (ErrorBody "Failed to verify certificate"
                  (Some "Invalid time value"))))
  /\ (exists code error details,
        fst (route_issue req w1)
        = Returned (mkResponse code (ErrorBody error details))
        /\ code <> 200%nat)
  /\ transactions (snd (route_issue req w1)) = transactions w.
Proof.
  intros Hready Hfile Hn1 Hn2 Hn3 Hfs Hcontract Hsigner Hnode Hcid Hauth Hnz
    Habsent Hdb w1.
  destruct (route_issue_after_upload req w buffer Hready Hfile Hn1 Hn2 Hn3 Hfs)
    as (ed & cid & w4 & Hdec & Hholds & Hform & Hc4 & Hs4 & Hch4 & Hm4 & Ht4 & Hrun).
  cbv zeta in Hrun.
  rewrite (issueCertificate_outcome _ cid _ w4 (fingerprint_is_bytes32 buffer))
    in Hrun.
  cbv zeta in Hrun.
  rewrite Hc4, Hs4, Hch4, Hm4, Hcontract, Hsigner, Hnode in Hrun.
  rewrite RegistryProperties.issueCertificate_eq in Hrun.
  cbn [Registry.msg_sender Registry.block_timestamp] in Hrun.
  rewrite Hauth, Habsent in Hrun. cbn [negb] in Hrun.
  rewrite (proj2 (N.eqb_neq _ _) Hnz) in Hrun.
  assert (Hlen : Nat.eqb (String.length cid) 0 = false).
  { destruct Hform as [Hl | ->]; [now apply local_name_not_empty|].
    specialize (Hcid (JSON_stringify (blob_json ed) 2)).
    now destruct (ipfs_cid _). }
  rewrite Hlen in Hrun.
  rewrite (insertTransaction_refused _ _ sender) in Hrun;
    [|cbn [tx_issuer]; w_simpl; now rewrite Hc4
     |cbn [tx_txHash]; w_simpl; now rewrite Hs4, Ht4].
  w_simpl. cbn [tx_txHash] in Hrun. rewrite Hs4 in Hrun.
  assert (Hw1 : w1 = snd (route_issue req w)) by reflexivity.
  clearbody w1. rewrite Hrun in Hw1 |- *. cbn [fst snd] in Hw1 |- *.
  assert (Hcfg : config w1 = config w) by (subst w1; w_simpl; assumption).
  assert (Hsur : surroundings w1 = surroundings w) by (subst w1; w_simpl; assumption).
  assert (Hrows : transactions w1 = transactions w) by (subst w1; w_simpl; assumption).
  assert (Hcert : Registry.certificates_at (chain w1) (N_of_bytes (sha256 buffer))
                  = Registry.mkCertificate (N_of_bytes (sha256 buffer)) cid sender
                      (timestamp_of (surroundings w) (mined w)) true).
  { subst w1. w_simpl. apply certificates_at_set_eq. }
  assert (Hheld : forall w', only_noted w1 w' ->
            fst (retrieveFromIPFS cid w') = Returned (blob_json ed)).
  { intros w' Hn. rewrite (retrieveFromIPFS_noted cid w1 w' Hn).
    apply (retrieve_holds w1 cid (JSON_stringify (blob_json ed) 2));
      [|apply blob_json_parses].
    apply (holds_transfer w4 w1); subst w1; w_simpl; try reflexivity.
    exact Hholds. }
  clear Hw1.
  split; [reflexivity|]. split; [exact Hrows|]. split.
  { pose proof (route_verify_run req w1 buffer) as Hver.
    rewrite Hcfg, Hsur, Hcert in Hver.
    specialize (Hver Hready Hcontract Hnode Hfile). cbv zeta in Hver.
    cbn [Registry.exists_ Registry.timestamp Registry.ipfsCID Registry.issuer]
      in Hver.
    unfold issuedDate_of in Hver.
    destruct (N.leb (timestamp_of (surroundings w) (mined w) * 1000)
                8640000000000000); [|exact Hver].
    eexists. split; [exact Hver|]. cbn [cv_issuer cv_metadata].
    split; [reflexivity|].
    match goal with
    | |- context [retrieveFromIPFS cid ?w7] =>
        pose proof (Hheld w7 ltac:(now eexists)) as Hget;
        destruct (retrieveFromIPFS cid w7) as [r w8]
    end.
    cbn [fst] in Hget. subst r.
    now rewrite decryptBlob_blob_json, Hdec. }
  assert (Hknown : Registry.exists_
                     (Registry.certificates_at (chain w1)
                        (N_of_bytes (sha256 buffer))) = true)
    by now rewrite Hcert.
  destruct (known_document_not_issued req w1 buffer Hfile Hknown)
    as (Hanswer & _ & Hrows').
  split; [exact Hanswer|congruence].
Qed.

(** X26. Issuing a certificate makes one document valid.  After
    the route has answered 200 for a file, take a file that had no record
    before.  If its digest differs from that of the file issued, verifying
    it is answered [valid: false]: any change to the document that changes
    its digest is.  It is answered [valid: true] only if it has that
    digest.  And with that digest the answer is [valid: true] when the
    block time of the issuance is a time a JavaScript [Date] can hold (at
    most 8 640 000 000 000 seconds), and 500 "Invalid time value" when it
    is later. *)
Theorem only_the_issued_document_becomes_valid
  (req other : Request) (w w1 : World) (buffer bufferB : list byte)
  (docHash cid txHash : string) (blockNo : N) (who : option address) :
  route_issue req w
  = (Returned (mkResponse 200 (IssuedBody docHash cid txHash blockNo who)), w1) ->
  file req = Some buffer ->
  file other = Some bufferB ->
  Registry.exists_
    (Registry.certificates_at (chain w) (N_of_bytes (sha256 bufferB))) = false ->
  (sha256 bufferB <> sha256 buffer ->
     fst (route_verify other w1)
     = Returned (mkResponse 200 (NotFoundBody (hashDocumentForBlockchain bufferB))))
  /\ ((exists view,
         fst (route_verify other w1) = Returned (mkResponse 200 (ValidBody view))) ->
      sha256 bufferB = sha256 buffer)
  /\ (sha256 bufferB = sha256 buffer ->
      if N.leb (timestamp_of (surroundings w) (mined w) * 1000) 8640000000000000
      then
        exists view,
          fst (route_verify other w1) = Returned (mkResponse 200 (ValidBody view))
      else
        fst (route_verify other w1)
        = Returned
            (mkResponse 500
               (ErrorBody "Failed to verify certificate"
                  (Some "Invalid time value")))).
Proof.
  intros Hissue Hfile HfileB HabsentB.
  destruct (route_issue_outcome req w)
    as (resp & w1' & Hrun & Hcfg & Hsur & [(_ & _ & Hcode & _) | Hnew]);
    rewrite Hissue in Hrun; injection Hrun as <- <-.
  { now cbn [status] in Hcode. }
  destruct Hnew as (buffer' & cid' & sender & Hnew). cbv zeta in Hnew.
  destruct Hnew as (Hfile' & Hready & Hcontract & Hnode & _ & _ & Hrecord
                    & Hothers & _).
  rewrite Hfile in Hfile'. injection Hfile' as <-.
  pose proof (route_verify_run other w1 bufferB) as Hver.
  rewrite Hcfg, Hsur in Hver.
  specialize (Hver Hready Hcontract Hnode HfileB). cbv zeta in Hver.
  destruct (decide (N_of_bytes (sha256 bufferB) = N_of_bytes (sha256 buffer)))
    as [Heq | Hne].
  - pose proof (fingerprint_key_inj _ _ Heq) as Hsha.
    rewrite Heq, Hrecord in Hver.
    cbn [Registry.exists_ Registry.timestamp] in Hver.
    unfold issuedDate_of in Hver.
    split; [intros Hc; now elim Hc|].
    split; [intros _; exact Hsha|]. intros _.
    destruct (N.leb (timestamp_of (surroundings w) (mined w) * 1000)
                8640000000000000); [|exact Hver].
    eexists. exact Hver.
  - assert (Hsha : sha256 bufferB <> sha256 buffer) by (intros E; now rewrite E in Hne).
    rewrite (Hothers _ Hne), HabsentB in Hver.
    split; [intros _; exact Hver|].
    split; [|intros E; now elim Hsha].
    intros (view & Hview). rewrite Hver in Hview. discriminate.
Qed.

End IssueAndVerify.

(** ** The properties above on the sample world *)

Ltac by_run :=
  first [ vm_compute; reflexivity
        | apply N.leb_le; vm_compute; reflexivity
        | let H := fresh in intros H; vm_compute in H; discriminate H ].

Lemma fingerprint_is_ledger_key_witness :
  bytes32_of_hex (hashDocumentForBlockchain sample_file)
  = bytes32_of_hex (hashDocumentForBlockchain (sample_file ++ [x00]))
  <-> sha256 sample_file = sha256 (sample_file ++ [x00]).
Proof.
  exact (proj2 (proj2 (proj2 (proj2 (proj2
           (fingerprint_is_ledger_key sample_file (sample_file ++ [x00]))))))).
Defined.

Lemma encryptMetadata_always_returns_witness :
  exists ed,
    encryptMetadata (metadata_json sample_metadata) "k" sample_world
    = (Returned ed, with_random_pos (random_pos sample_world + 16) sample_world)
    /\ String.length (iv ed) = 32%nat.
Proof.
  destruct (encryptMetadata_always_returns (metadata_json sample_metadata) "k"
              sample_world) as (ed & Hrun & _ & Hlen & _).
  exists ed. split; assumption.
Defined.

Lemma decryptMetadata_needs_sixteen_byte_iv_witness :
  decryptMetadata "00" "2a2a" "k" = Thrown "Invalid initialization vector".
Proof.
  refine (proj1 (proj2 (decryptMetadata_needs_sixteen_byte_iv "00" "2a2a" "k")) _).
  cbn. lia.
Defined.

Lemma metadata_key_is_digest_witness :
  exists ed,
    fst (encryptMetadata (metadata_json sample_metadata) EmptyString sample_world)
    = Returned ed
    /\ decryptMetadata (encrypted ed) (iv ed) EmptyString
       = Returned (metadata_json sample_metadata).
Proof.
  destruct (metadata_key_is_digest (metadata_json sample_metadata)
              EmptyString EmptyString sample_world)
    as (ed & Hrun & _ & _ & _ & _ & Hsame).
  exists ed. split; [now rewrite Hrun|].
  exact (proj2 (Hsame eq_refl) sample_metadata eq_refl).
Defined.

Lemma read_paths_write_nothing_witness :
  chain (snd (route_verify sample_request sample_world)) = chain sample_world.
Proof.
  destruct (read_paths_write_nothing sample_world) as (Hverify & _ & _ & _ & _ & _ & Hsame).
  exact (proj1 (Hsame _ (Hverify sample_request))).
Defined.

Lemma sample_upload_answer :
  fst (uploadToIPFS (metadata_json sample_metadata) sample_world)
  = Returned "local-1700000000000-abc.json".
Proof. vm_compute. reflexivity. Qed.

Lemma sample_upload_run :
  uploadToIPFS (metadata_json sample_metadata) sample_world
  = (Returned "local-1700000000000-abc.json",
     snd (uploadToIPFS (metadata_json sample_metadata) sample_world)).
Proof.
  rewrite <- sample_upload_answer.
  now destruct (uploadToIPFS (metadata_json sample_metadata) sample_world).
Qed.

Lemma stored_blob_is_retrieved_witness :
  fst (retrieveFromIPFS "local-1700000000000-abc.json"
         (snd (uploadToIPFS (metadata_json sample_metadata) sample_world)))
  = Returned (metadata_json sample_metadata).
Proof.
  exact (proj1 (stored_blob_is_retrieved (metadata_fields sample_metadata)
                  sample_world _ _ (metadata_fields_plain sample_metadata)
                  sample_upload_run)).
Defined.

Lemma retrieval_looks_in_one_store_witness :
  fst (retrieveFromIPFS "QmNone" sample_world)
  = Thrown "Failed to retrieve data from IPFS".
Proof.
  destruct (fst (retrieveFromIPFS "QmNone" sample_world)) as [value|message] eqn:Hrun.
  - vm_compute in Hrun. discriminate Hrun.
  - f_equal.
    exact (proj1 (proj2 (retrieval_looks_in_one_store "QmNone" sample_world))
             message Hrun).
Defined.

Lemma sample_chain_slots : Registry.slots_issued (chain issued_world).
Proof.
  assert (E : chain issued_world
              = Registry.run (Registry.deploy (Registry.mkEnv 1 1699999999))
                  [(Registry.mkEnv 1 1700000000,
                    Registry.IssueCertificate (N_of_bytes (sha256 sample_file))
                      "local-1700000000000-abc.json")])
    by (vm_compute; reflexivity).
  rewrite E.
  apply RegistryProperties.run_slots_issued, RegistryProperties.deploy_slots_issued.
Qed.

Lemma cert_route_agrees_with_verify_witness :
  exists view,
    fst (route_verify sample_request issued_world)
    = Returned (mkResponse 200 (ValidBody view))
    /\ fst (route_cert (hashDocument sample_file) issued_world)
       = Returned (mkCertResponse 200 (CertFound view)).
Proof.
  pose proof (cert_route_agrees_with_verify sample_request issued_world
                sample_file (hashDocument sample_file)
                ltac:(by_run) ltac:(by_run) ltac:(by_run) sample_chain_slots
                eq_refl (or_introl eq_refl)) as Hagree.
  destruct (fst (route_verify sample_request issued_world))
    as [[code [error details|d c t b i|d|view]]|message] eqn:Hverify;
    try (vm_compute in Hverify; discriminate Hverify).
  assert (Hcode : code = 200%nat) by (vm_compute in Hverify; congruence).
  subst code. exists view. split; [reflexivity|exact Hagree].
Defined.

Lemma cert_route_hash_forms_witness :
  fst (route_cert "5044" sample_world)
  = Returned
      (mkCertResponse 500
         (CertError "Failed to get certificate"
            (Some
               ("Failed to get certificate: "
                +:+ error_message (InvalidBytes32 "0x5044"))))).
Proof.
  exact (proj1 (proj2 (cert_route_hash_forms "5044" sample_world)
                  eq_refl eq_refl eq_refl)).
Defined.

Lemma sample_audit_sound : audit_sound sample_world.
Proof. split; [intros row []|constructor]. Qed.

Lemma requests_keep_audit_sound_witness :
  audit_sound
    (serve_all sample_world
       [PostIssue sample_request; PostVerify sample_request;
        PostIssue sample_request; GetCert (hashDocument sample_file)]).
Proof.
  exact (proj1 (requests_keep_audit_sound sample_world _ sample_audit_sound)).
Defined.

Lemma getStats_counts_witness :
  exists stats,
    fst (getStats
           (serve_all sample_world
              [PostIssue sample_request; PostIssue altered_request;
               PostIssue sample_request]))
    = Returned stats
    /\ totalCertificates stats = totalTransactions stats.
Proof.
  destruct (proj2 (getStats_counts sample_world
                     [PostIssue sample_request; PostIssue altered_request;
                      PostIssue sample_request]) sample_audit_sound eq_refl)
    as (stats & Hrun & _ & Hsame).
  exists stats. split; [now rewrite Hrun|exact Hsame].
Defined.

Lemma issue_answer_tells_what_was_written_witness :
  transactions issued_world
  = [{| tx_txHash := "0xt0";
        tx_docHash :=
          "0x5044460000000000000000000000000000000000000000000000000000000000";
        tx_ipfsCID := "local-1700000000000-abc.json";
        tx_issuer := Some 1%N;
        tx_timestamp := 1700000000;
        tx_status := "confirmed";
        tx_blockNumber := 1;
        tx_gasUsed := "21000" |}].
Proof.
  pose proof (issue_answer_tells_what_was_written sample_request sample_world)
    as Htold.
  cbv zeta in Htold. rewrite sample_issue_answer in Htold.
  destruct Htold as (_ & h & sender & _ & _ & _ & _ & Hrows).
  exact Hrows.
Defined.

Lemma duplicate_is_refused_after_storing_witness :
  chain (snd (route_issue sample_request issued_world)) = chain issued_world
  /\ exists message cid blob,
       fst (route_issue sample_request issued_world)
       = Returned
           (mkResponse 500 (ErrorBody "Failed to issue certificate" (Some message)))
       /\ fst (retrieveFromIPFS cid (snd (route_issue sample_request issued_world)))
          = Returned blob
       /\ decryptBlob blob (configured_key (config issued_world))
          = Returned (metadata_json sample_metadata).
Proof.
  assert (Hknown : Registry.exists_
                     (Registry.certificates_at (chain issued_world)
                        (N_of_bytes (sha256 sample_file))) = true) by by_run.
  pose proof (duplicate_is_refused_after_storing sample_request issued_world
                sample_file eq_refl Hknown) as Hrefused.
  cbv zeta in Hrefused. destruct Hrefused as (_ & Hchain & _ & Hstored).
  split; [exact Hchain|].
  apply Hstored; by_run.
Defined.

Lemma ledger_keeps_what_the_mirror_lost_witness :
  fst (route_issue sample_request mirror_down_world)
  = Returned
      (mkResponse 500
         (ErrorBody "Failed to issue certificate" (Some "database unreachable")))
  /\ exists view,
       fst (route_verify sample_request
              (snd (route_issue sample_request mirror_down_world)))
       = Returned (mkResponse 200 (ValidBody view))
       /\ cv_metadata view = Some (metadata_json sample_metadata).
Proof.
  destruct (ledger_keeps_what_the_mirror_lost sample_request mirror_down_world
              sample_file 1%N)
    as (Hanswer & _ & Hverify & _).
  1-9: by_run.
  - intros content. discriminate.
  - by_run.
  - by_run.
  - by_run.
  - by_run.
  - assert (Htime : N.leb (timestamp_of (surroundings mirror_down_world)
                             (mined mirror_down_world) * 1000)
                      8640000000000000 = true) by by_run.
    rewrite Htime in Hverify. destruct Hverify as (view & Hview & _ & Hmeta).
    split; [exact Hanswer|]. exists view. split; assumption.
Defined.

Lemma only_the_issued_document_becomes_valid_witness :
  fst (route_verify altered_request issued_world)
  = Returned (mkResponse 200 (NotFoundBody (hashDocumentForBlockchain altered_file))).
Proof.
  refine (proj1 (only_the_issued_document_becomes_valid sample_request
                   altered_request sample_world issued_world sample_file
                   altered_file _ _ _ _ _ sample_issue_run eq_refl eq_refl _) _);
    by_run.
Defined.

End BackendExtras.
